(** * Wind estimation from balloon trajectories: a model of [wind_calculator.py]

    The development follows [src/src/wind_calculator.py] (class
    [WindCalculator]: [_calculate_bearing], [_bin_wind_data],
    [calculate_wind_from_trajectory], [calculate_wind_profile]), the
    accessors of [src/src/database.py] it reads and writes through, and the
    filtering and differencing of [create_wind_profile] in [src/src/app.py].
    A second part adds the rest of [WindCalculator] ([get_wind_profile],
    [calculate_vertical_velocity], [get_wind_rose_data]), the writers and
    the session and retention methods of [BalloonDatabase], and the traces
    of [create_multi_balloon_wind_profile].

    Numbers.  Python floats are read as real numbers ([R]): timestamps,
    coordinates, altitudes, speeds and angles are all reals, and the [math]
    and [numpy] functions are their mathematical counterparts.  Rounding,
    NaN and signed zeros are outside the model.  Comparisons are the boolean
    tests [Rleb], [Rltb] and [Reqb].

    State.  The SQLite database is a record passed in and, where a method
    writes, returned.  [datetime.now()] is the explicit argument [now]; the
    readings taken during one call are one value.

    External code.  [geopy.distance.geodesic] is not part of the repository:
    it is a parameter ([geodesic], in kilometres, total) of everything that
    calls it.  Console output is left out.

    Layout: the program, then the formulas of the specification and the
    inputs of the worked runs, then the properties. *)

From Stdlib Require Import Reals Lra Lia ZArith Bool String List Sorted.
Import ListNotations.
Open Scope R_scope.

(** ** Numeric primitives *)

Module Num.

Definition Rleb (a b : R) : bool := if Rle_dec a b then true else false.
Definition Rltb (a b : R) : bool := if Rlt_dec a b then true else false.
Definition Reqb (a b : R) : bool := if Req_dec_T a b then true else false.

(** Python's [a // b] and [a % b] on floats, for [b <> 0]. *)
Definition floor_div (a b : R) : R := IZR (Int_part (a / b)).
Definition py_mod (a b : R) : R := a - b * IZR (Int_part (a / b)).

(** Python's [int(x)]: truncation towards zero. *)
Definition int_of_float (x : R) : Z :=
  if Rleb 0 x then Int_part x else (- Int_part (- x))%Z.

(** [math.radians], [math.degrees], [math.atan2]. *)
Definition radians (x : R) : R := x * (PI / 180).
Definition degrees (x : R) : R := x * (180 / PI).

Definition atan2 (y x : R) : R :=
  if Rltb 0 x then atan (y / x)
  else if Rltb x 0 then
         (if Rleb 0 y then atan (y / x) + PI else atan (y / x) - PI)
  else if Rltb 0 y then PI / 2
  else if Rltb y 0 then - (PI / 2)
  else 0.

End Num.
Export Num.

(** ** Data model *)

(** A row of the [aircraft_data] table as the accessors return it: a dict
    keyed by column name.  [timestamp] is [REAL NOT NULL]; the position and
    altitude columns may hold [NULL] ([None]).  For [geo_altitude] the outer
    [None] says that the dict has no such key (a table created before the
    column existed), the inner one that the value is [NULL]. *)
Record Report := mkReport {
  icao24 : string;
  timestamp : R;
  latitude : option R;
  longitude : option R;
  altitude : option R;
  geo_altitude : option (option R)
}.

(** A row of the [wind_data] table. *)
Record WindRow := mkWindRow {
  wr_icao24 : string;
  wr_altitude_bin : Z;
  wr_wind_speed : R;
  wr_wind_direction : R;
  wr_sample_count : nat;
  wr_timestamp : R
}.

(** The part of the SQLite database the wind code reads and writes.
    [session_start_time] is the column of [tracked_aircraft]: [None] when
    there is no row for the identifier or the column is [NULL]. *)
Record BalloonDatabase := mkDatabase {
  aircraft_data : list Report;
  session_start_time : string -> option R;
  wind_data : list WindRow
}.

(** A DataFrame row once [dropna] has run: the four columns hold numbers. *)
Record Point := mkPoint {
  pt_timestamp : R;
  pt_latitude : R;
  pt_longitude : R;
  pt_altitude : R
}.

(** The dicts appended to [wind_vectors].  [_bin_wind_data] reads
    [altitude], [wind_speed] and [wind_direction] only. *)
Record WindVector := mkWindVector {
  wv_altitude : R;
  wv_wind_speed : R;
  wv_wind_direction : R;
  wv_dt : R;
  wv_distance : R
}.

(** The value stored per bin by [_bin_wind_data]. *)
Record WindBin := mkWindBin {
  wind_speed : R;
  wind_direction : R;
  sample_count : nat;
  wind_speed_std : R;
  wind_direction_std : R
}.

(** An element of the list that [calculate_wind_profile] returns. *)
Record ProfileEntry := mkProfileEntry {
  pe_altitude_bin : R;
  pe_wind_speed : R;
  pe_wind_direction : R;
  pe_sample_count : nat;
  pe_timestamp : R
}.

(** The column chosen by the altitude-source selection. *)
Inductive AltitudeColumn := col_altitude | col_geo_altitude.

(** ** Generic list helpers *)

(** Sort on a real key ([ORDER BY timestamp], [sort_values('timestamp')]),
    as a stable insertion sort: rows with equal timestamps keep their order,
    which SQLite and pandas leave unspecified. *)
Fixpoint insert_by {A} (key : A -> R) (x : A) (l : list A) : list A :=
  match l with
  | [] => [x]
  | y :: t => if Rleb (key x) (key y) then x :: y :: t
              else y :: insert_by key x t
  end.

Fixpoint sort_by {A} (key : A -> R) (l : list A) : list A :=
  match l with
  | [] => []
  | x :: t => insert_by key x (sort_by key t)
  end.

(** Ascending keys along the list. *)
Fixpoint ascending {A} (key : A -> R) (l : list A) : Prop :=
  match l with
  | x :: ((y :: _) as t) => key x <= key y /\ ascending key t
  | _ => True
  end.

(** The loop [for i in range(1, len(df))] over [df.iloc[i-1]], [df.iloc[i]],
    appending what the body produces and skipping on [continue]. *)
Fixpoint pairwise {A B} (body : A -> A -> option B) (df : list A) : list B :=
  match df with
  | prev :: ((curr :: _) as rest) =>
      match body prev curr with
      | Some v => v :: pairwise body rest
      | None => pairwise body rest
      end
  | _ => []
  end.

(** The consecutive pairs the loop visits. *)
Fixpoint consecutive {A} (df : list A) : list (A * A) :=
  match df with
  | prev :: ((curr :: _) as rest) => (prev, curr) :: consecutive rest
  | _ => []
  end.

(** Python truthiness of an optional float: not [None] and not [0.0]. *)
Definition truthy (x : option R) : bool :=
  match x with
  | Some v => negb (Reqb v 0)
  | None => false
  end.

(** ** Database accessors ([database.py]) *)

Definition get_aircraft_data (db : BalloonDatabase) (now : R)
  (icao : string) (hours_back : Z) : list Report :=
  let cutoff_time := now - IZR hours_back * 3600 in
  sort_by timestamp
    (filter (fun r => String.eqb (icao24 r) icao && Rltb cutoff_time (timestamp r))
            (aircraft_data db)).

Definition get_aircraft_data_since_session (db : BalloonDatabase)
  (icao : string) : list Report :=
  if truthy (session_start_time db icao) then
    match session_start_time db icao with
    | Some session_start =>
        sort_by timestamp
          (filter (fun r => String.eqb (icao24 r) icao
                            && Rleb session_start (timestamp r))
                  (aircraft_data db))
    | None => []
    end
  else [].

(** [INSERT OR REPLACE INTO wind_data]: the table's only key is its
    autoincrement [id], so every call adds a row. *)
Definition add_wind_data (db : BalloonDatabase) (now : R) (icao : string)
  (altitude_bin : Z) (speed direction : R) (count : nat) : BalloonDatabase :=
  mkDatabase (aircraft_data db) (session_start_time db)
    (wind_data db ++ [mkWindRow icao altitude_bin speed direction count now]).

(** ** Bearing ([WindCalculator._calculate_bearing]) *)

Definition _calculate_bearing (point1 point2 : R * R) : R :=
  let lat1 := radians (fst point1) in
  let lon1 := radians (snd point1) in
  let lat2 := radians (fst point2) in
  let lon2 := radians (snd point2) in
  let dlon := lon2 - lon1 in
  let y := sin dlon * cos lat2 in
  let x := cos lat1 * sin lat2 - sin lat1 * cos lat2 * cos dlon in
  let bearing := atan2 y x in
  let bearing := degrees bearing in
  let bearing := py_mod (bearing + 360) 360 in
  bearing.

(** The bearing as section 4.1 of the specification words it, with the
    longitude difference taken in degrees and converted once. *)
Definition spec_bearing (p1 p2 : R * R) : R :=
  let lat1 := radians (fst p1) in
  let lat2 := radians (fst p2) in
  let dlon := radians (snd p2 - snd p1) in
  let theta :=
    degrees (atan2 (sin dlon * cos lat2)
                   (cos lat1 * sin lat2 - sin lat1 * cos lat2 * cos dlon)) in
  py_mod (theta + 360) 360.

(** ** DataFrame steps shared by the three differencing functions *)

(** [altitude_col in df.columns]: a DataFrame built from dicts has the union
    of their keys as columns. *)
Definition has_geo_altitude_column (aircraft_data : list Report) : bool :=
  existsb (fun r => match geo_altitude r with Some _ => true | None => false end)
          aircraft_data.

(** "Use the selected altitude source, fallback to barometric if geo not
    available". *)
Definition select_altitude_col (altitude_source : string)
  (aircraft_data : list Report) : AltitudeColumn :=
  if String.eqb altitude_source "geo_altitude"
     && has_geo_altitude_column aircraft_data
  then col_geo_altitude
  else col_altitude.

(** The cell [row[altitude_col]]; a missing key reads as NaN, like NULL. *)
Definition altitude_cell (altitude_col : AltitudeColumn) (r : Report) : option R :=
  match altitude_col with
  | col_altitude => altitude r
  | col_geo_altitude =>
      match geo_altitude r with
      | Some cell => cell
      | None => None
      end
  end.

(** [df.dropna(subset=['latitude', 'longitude', altitude_col, 'timestamp'])]. *)
Definition dropna (altitude_col : AltitudeColumn) (df : list Report) : list Point :=
  flat_map
    (fun r =>
       match latitude r, longitude r, altitude_cell altitude_col r with
       | Some lat, Some lon, Some alt => [mkPoint (timestamp r) lat lon alt]
       | _, _, _ => []
       end) df.

(** [df[df['latitude'] != 0]], [df[df['longitude'] != 0]],
    [df[df[altitude_col] > 0]]. *)
Definition drop_zero_latitude (df : list Point) : list Point :=
  filter (fun p => negb (Reqb (pt_latitude p) 0)) df.
Definition drop_zero_longitude (df : list Point) : list Point :=
  filter (fun p => negb (Reqb (pt_longitude p) 0)) df.
Definition keep_positive_altitude (df : list Point) : list Point :=
  filter (fun p => Rltb 0 (pt_altitude p)) df.

Definition sort_values (df : list Point) : list Point := sort_by pt_timestamp df.

Definition position (p : Point) : R * R := (pt_latitude p, pt_longitude p).

(** ** Altitude aggregator ([WindCalculator._bin_wind_data]) *)

Definition np_sum (xs : list R) : R := fold_right Rplus 0 xs.
Definition np_mean (xs : list R) : R := np_sum xs / INR (length xs).
Definition np_std (xs : list R) : R :=
  let m := np_mean xs in
  sqrt (np_mean (map (fun x => (x - m) * (x - m)) xs)).

(** Elementwise product of two arrays of one length. *)
Fixpoint array_mul (xs ys : list R) : list R :=
  match xs, ys with
  | x :: xs', y :: ys' => x * y :: array_mul xs' ys'
  | _, _ => []
  end.

(** [Series.unique()]: the distinct values in order of first appearance. *)
Fixpoint unique (xs : list R) : list R :=
  match xs with
  | [] => []
  | x :: t => x :: filter (fun y => negb (Reqb y x)) (unique t)
  end.

(** A Python dict with integer keys, in insertion order. *)
Definition Dict (V : Type) := list (Z * V).

Fixpoint dict_set {V} (k : Z) (v : V) (d : Dict V) : Dict V :=
  match d with
  | [] => [(k, v)]
  | (k', v') :: t => if Z.eqb k' k then (k, v) :: t else (k', v') :: dict_set k v t
  end.

Fixpoint dict_get {V} (k : Z) (d : Dict V) : option V :=
  match d with
  | [] => None
  | (k', v') :: t => if Z.eqb k' k then Some v' else dict_get k t
  end.

Definition dict_keys {V} (d : Dict V) : list Z := map fst d.

Section Aggregator.

(** [Config.ALTITUDE_BIN_SIZE] (default 500) and [Config.MIN_SAMPLES_PER_BIN]
    (default 3), both read through [int(...)]. *)
Variable altitude_bin_size : Z.
Variable min_samples : Z.

(** [df['altitude_bin'] = (df['altitude'] // size) * size]. *)
Definition altitude_bin (v : WindVector) : R :=
  floor_div (wv_altitude v) (IZR altitude_bin_size) * IZR altitude_bin_size.

(** [bin_data = df[df['altitude_bin'] == altitude_bin]]. *)
Definition bin_rows (wind_vectors : list WindVector) (b : R) : list WindVector :=
  filter (fun v => Reqb (altitude_bin v) b) wind_vectors.

(** The statistics of one retained bin. *)
Definition bin_record (bin_data : list WindVector) : WindBin :=
  let wind_speeds := map wv_wind_speed bin_data in
  let wind_directions := map wv_wind_direction bin_data in
  let u_components := array_mul wind_speeds (map sin (map radians wind_directions)) in
  let v_components := array_mul wind_speeds (map cos (map radians wind_directions)) in
  let avg_u := np_mean u_components in
  let avg_v := np_mean v_components in
  let avg_wind_speed := sqrt (avg_u ^ 2 + avg_v ^ 2) in
  let avg_wind_direction := degrees (atan2 avg_u avg_v) in
  let avg_wind_direction := py_mod (avg_wind_direction + 360) 360 in
  mkWindBin avg_wind_speed avg_wind_direction (length bin_data)
            (np_std wind_speeds) (np_std wind_directions).

(** One turn of [for altitude_bin in df['altitude_bin'].unique()]. *)
Definition bin_step (wind_vectors : list WindVector)
  (wind_by_altitude : Dict WindBin) (b : R) : Dict WindBin :=
  let bin_data := bin_rows wind_vectors b in
  if (Z.of_nat (length bin_data) <? min_samples)%Z then wind_by_altitude
  else dict_set (int_of_float b) (bin_record bin_data) wind_by_altitude.

(** The callers pass a non-empty list ([calculate_wind_from_trajectory]
    returns before the call otherwise); on an empty one pandas finds no
    [altitude] column and raises, which this function does not show. *)
Definition _bin_wind_data (wind_vectors : list WindVector) : Dict WindBin :=
  fold_left (bin_step wind_vectors) (unique (map altitude_bin wind_vectors)) [].

End Aggregator.

(** ** The wind calculator *)

(** A plotted point of [create_wind_profile] ([app.py]). *)
Record ChartVector := mkChartVector {
  cv_altitude : R;
  cv_wind_direction : R;
  cv_wind_speed : R
}.

(** The dict appended by the loop of [calculate_wind_profile]. *)
Record RawVector := mkRawVector {
  rv_altitude : R;
  rv_wind_speed : R;
  rv_wind_direction : R;
  rv_timestamp : R
}.

Section WindCalculator.

(** [geopy.distance.geodesic(p, q)], read in kilometres. *)
Variable geodesic : R * R -> R * R -> R.

Definition kilometers (d : R) : R := d.
Definition meters (d : R) : R := d * 1000.

(** [self.altitude_bin_size], [self.min_samples]. *)
Variable altitude_bin_size : Z.
Variable min_samples : Z.

(** *** [calculate_wind_from_trajectory] *)

(** Body of the loop at lines 51-84. *)
Definition trajectory_body (prev_point curr_point : Point) : option WindVector :=
  let dt := pt_timestamp curr_point - pt_timestamp prev_point in
  if Rleb dt 0 || Rltb 300 dt then None
  else
    let prev_pos := (pt_latitude prev_point, pt_longitude prev_point) in
    let curr_pos := (pt_latitude curr_point, pt_longitude curr_point) in
    let distance := meters (geodesic prev_pos curr_pos) in
    let bearing := _calculate_bearing prev_pos curr_pos in
    let horizontal_speed := distance / dt in
    let avg_altitude := (pt_altitude prev_point + pt_altitude curr_point) / 2 in
    if Rltb 0 avg_altitude
    then Some (mkWindVector avg_altitude horizontal_speed bearing dt distance)
    else None.

(** Lines 33-46: the validity filters and the sort. *)
Definition trajectory_frame (aircraft_data : list Report) : list Point :=
  keep_positive_altitude
    (drop_zero_longitude (drop_zero_latitude (dropna col_altitude aircraft_data))).

(** Lines 94-101: one [add_wind_data] per bin, in dict order. *)
Definition store_wind (now : R) (icao : string)
  (wind_by_altitude : Dict WindBin) (db : BalloonDatabase) : BalloonDatabase :=
  fold_left
    (fun db kv =>
       add_wind_data db now icao (fst kv) (wind_speed (snd kv))
                     (wind_direction (snd kv)) (sample_count (snd kv)))
    wind_by_altitude db.

(** The method returns the dict; the database after the call is the second
    component. *)
Definition calculate_wind_from_trajectory (db : BalloonDatabase) (now : R)
  (icao : string) (hours_back : Z) : Dict WindBin * BalloonDatabase :=
  let aircraft_data := get_aircraft_data db now icao hours_back in
  if (length aircraft_data <? 2)%nat then ([], db)
  else
    let df := trajectory_frame aircraft_data in
    if (length df <? 2)%nat then ([], db)
    else
      let df := sort_values df in
      let wind_vectors := pairwise trajectory_body df in
      match wind_vectors with
      | [] => ([], db)
      | _ :: _ =>
          let wind_by_altitude :=
            _bin_wind_data altitude_bin_size min_samples wind_vectors in
          (wind_by_altitude, store_wind now icao wind_by_altitude db)
      end.

(** *** [calculate_wind_profile] *)

(** Lines 214-216. *)
Definition apply_time_filter (now : R) (time_filter_seconds : option R)
  (aircraft_data : list Report) : list Report :=
  match time_filter_seconds with
  | Some seconds =>
      if Rltb 0 seconds then
        let cutoff_time := now - seconds in
        filter (fun d => Rleb cutoff_time (timestamp d)) aircraft_data
      else aircraft_data
  | None => aircraft_data
  end.

(** [max(ref_data, key=lambda x: x['timestamp'])]: the first row whose
    timestamp no other row exceeds. *)
Fixpoint max_by_timestamp (best : Report) (rest : list Report) : Report :=
  match rest with
  | [] => best
  | r :: t =>
      max_by_timestamp (if Rltb (timestamp best) (timestamp r) then r else best) t
  end.

(** Python truthiness of [reference_icao]: not [None] and not empty. *)
Definition truthy_str (s : option string) : bool :=
  match s with
  | Some EmptyString => false
  | Some _ => true
  | None => false
  end.

(** Lines 219-226. *)
Definition resolve_reference_position (db : BalloonDatabase)
  (distance_filter_km : option R) (reference_icao : option string)
  : option (R * R) :=
  match distance_filter_km, reference_icao with
  | Some km, Some ref_icao =>
      if Rltb 0 km && truthy_str reference_icao then
        match get_aircraft_data_since_session db ref_icao with
        | [] => None
        | first :: rest =>
            let latest_ref := max_by_timestamp first rest in
            if truthy (latitude latest_ref) && truthy (longitude latest_ref) then
              match latitude latest_ref, longitude latest_ref with
              | Some lat, Some lon => Some (lat, lon)
              | _, _ => None
              end
            else None
        end
      else None
  | _, _ => None
  end.

(** Lines 229-236. *)
Definition apply_distance_filter (reference_position : option (R * R))
  (distance_filter_km : option R) (aircraft_data : list Report) : list Report :=
  match reference_position, distance_filter_km with
  | Some ref, Some km =>
      if truthy distance_filter_km && Rltb 0 km then
        filter
          (fun point =>
             truthy (latitude point) && truthy (longitude point) &&
             match latitude point, longitude point with
             | Some lat, Some lon =>
                 let distance := kilometers (geodesic ref (lat, lon)) in
                 Rleb distance km
             | _, _ => false
             end)
          aircraft_data
      else aircraft_data
  | _, _ => aircraft_data
  end.

(** Body of the loop at lines 262-292. *)
Definition profile_body (prev_point curr_point : Point) : option RawVector :=
  let time_diff := pt_timestamp curr_point - pt_timestamp prev_point in
  if Rleb time_diff 0 then None
  else
    let distance := kilometers (geodesic (position prev_point) (position curr_point)) in
    let bearing := _calculate_bearing (position prev_point) (position curr_point) in
    let ground_speed := distance / (time_diff / 3600) in
    let wind_direction := py_mod (bearing + 180) 360 in
    Some (mkRawVector (pt_altitude curr_point) ground_speed wind_direction
                      (pt_timestamp curr_point)).

(** Lines 243-256. *)
Definition profile_frame (altitude_source : string) (aircraft_data : list Report)
  : list Point :=
  let altitude_col := select_altitude_col altitude_source aircraft_data in
  sort_values
    (keep_positive_altitude
       (drop_zero_longitude (drop_zero_latitude (dropna altitude_col aircraft_data)))).

Definition calculate_wind_profile (db : BalloonDatabase) (now : R)
  (icao : string) (altitude_source : string)
  (time_filter_seconds : option R) (distance_filter_km : option R)
  (reference_icao : option string) (include_historical_hours : option Z)
  : list ProfileEntry :=
  let aircraft_data :=
    match include_historical_hours with
    | Some hours => get_aircraft_data db now icao hours
    | None => get_aircraft_data_since_session db icao
    end in
  if (length aircraft_data <? 2)%nat then []
  else
    let aircraft_data := apply_time_filter now time_filter_seconds aircraft_data in
    let reference_position :=
      resolve_reference_position db distance_filter_km reference_icao in
    let aircraft_data :=
      apply_distance_filter reference_position distance_filter_km aircraft_data in
    if (length aircraft_data <? 2)%nat then []
    else
      let df := profile_frame altitude_source aircraft_data in
      if (length df <? 2)%nat then []
      else
        let wind_vectors := pairwise profile_body df in
        map (fun vector =>
               mkProfileEntry (rv_altitude vector) (rv_wind_speed vector)
                              (rv_wind_direction vector) 1 (rv_timestamp vector))
            wind_vectors.

(** *** [create_wind_profile] ([app.py]), up to the list it plots *)

(** Body of the loop at lines 1016-1048. *)
Definition chart_body (prev_point curr_point : Point) : option ChartVector :=
  let dt := pt_timestamp curr_point - pt_timestamp prev_point in
  if Rleb dt 0 || Rltb 300 dt then None
  else
    let prev_pos := (pt_latitude prev_point, pt_longitude prev_point) in
    let curr_pos := (pt_latitude curr_point, pt_longitude curr_point) in
    let distance := meters (geodesic prev_pos curr_pos) in
    let lat1 := radians (pt_latitude prev_point) in
    let lon1 := radians (pt_longitude prev_point) in
    let lat2 := radians (pt_latitude curr_point) in
    let lon2 := radians (pt_longitude curr_point) in
    let dlon := lon2 - lon1 in
    let y := sin dlon * cos lat2 in
    let x := cos lat1 * sin lat2 - sin lat1 * cos lat2 * cos dlon in
    let bearing := degrees (atan2 y x) in
    let bearing := py_mod (bearing + 360) 360 in
    let horizontal_speed := distance / dt in
    let avg_altitude := (pt_altitude prev_point + pt_altitude curr_point) / 2 in
    if Rltb 1 horizontal_speed
    then Some (mkChartVector avg_altitude bearing horizontal_speed)
    else None.

(** Lines 989-1006: the reference is the last row of the subject's own
    (sorted, time-filtered) frame. *)
Definition chart_distance_filter (distance_filter_km : option R)
  (df : list Point) : list Point :=
  match distance_filter_km with
  | Some km =>
      if Rltb 0 km && (0 <? length df)%nat then
        match last (map Some df) None with
        | Some latest_point =>
            let ref := (pt_latitude latest_point, pt_longitude latest_point) in
            filter
              (fun row =>
                 Rleb (kilometers (geodesic ref (pt_latitude row, pt_longitude row))) km)
              df
        | None => df
        end
      else df
  | None => df
  end.

(** The list [wind_vectors] the figure is drawn from; the empty figure is
    the empty list. *)
Definition create_wind_profile (db : BalloonDatabase) (now : R)
  (icao : string) (altitude_source : string)
  (time_filter_hours : option R) (distance_filter_km : option R)
  : list ChartVector :=
  let aircraft_data := get_aircraft_data_since_session db icao in
  if (length aircraft_data <? 2)%nat then []
  else
    let altitude_col := select_altitude_col altitude_source aircraft_data in
    let df := sort_values (dropna altitude_col aircraft_data) in
    let df :=
      match time_filter_hours with
      | Some hours =>
          if Rltb 0 hours then
            let cutoff_time := now - hours * 60 in
            filter (fun p => Rleb cutoff_time (pt_timestamp p)) df
          else df
      | None => df
      end in
    let df := chart_distance_filter distance_filter_km df in
    if (length df <? 2)%nat then []
    else pairwise chart_body df.

End WindCalculator.

(** ** The formulas of the specification *)

(** The bin of an altitude as section 4.4 of the specification words it:
    [floor(altitude / bin_size) * bin_size], an integer. *)
Definition spec_bin (bin_size : Z) (alt : R) : Z :=
  (Int_part (alt / IZR bin_size) * bin_size)%Z.

(** The vectors of [wind_vectors] that the specification assigns to bin [k]. *)
Definition members (bin_size : Z) (k : Z) (wind_vectors : list WindVector)
  : list WindVector :=
  filter (fun v => Z.eqb (spec_bin bin_size (wv_altitude v)) k) wind_vectors.

(** The circular mean of section 4.4, written as sums over the samples. *)
Definition sum_over (f : WindVector -> R) (l : list WindVector) : R :=
  fold_right (fun w acc => f w + acc) 0 l.

Definition spec_u (l : list WindVector) : R :=
  sum_over (fun w => wv_wind_speed w * sin (radians (wv_wind_direction w))) l
  / INR (length l).

Definition spec_v (l : list WindVector) : R :=
  sum_over (fun w => wv_wind_speed w * cos (radians (wv_wind_direction w))) l
  / INR (length l).

Definition spec_mean_speed (l : list WindVector) : R :=
  sqrt (spec_u l ^ 2 + spec_v l ^ 2).

Definition spec_mean_direction (l : list WindVector) : R :=
  py_mod (degrees (atan2 (spec_u l) (spec_v l)) + 360) 360.

(** Number of samples of a bin that report direction [d]. *)
Definition count_direction (d : R) (l : list WindVector) : nat :=
  length (filter (fun w => Reqb (wv_wind_direction w) d) l).

(** The reference position as the claim words it: the most recent report
    among those with a non-null latitude and longitude. *)
Definition has_position (r : Report) : bool :=
  match latitude r, longitude r with
  | Some _, Some _ => true
  | _, _ => false
  end.

Definition spec_reference (ref_data : list Report) : option (R * R) :=
  match filter has_position ref_data with
  | [] => None
  | first :: rest =>
      let r := max_by_timestamp first rest in
      match latitude r, longitude r with
      | Some lat, Some lon => Some (lat, lon)
      | _, _ => None
      end
  end.

(** The row [add_wind_data] stores for one bin. *)
Definition wind_row (now : R) (icao : string) (kv : Z * WindBin) : WindRow :=
  mkWindRow icao (fst kv) (wind_speed (snd kv)) (wind_direction (snd kv))
            (sample_count (snd kv)) now.

(** ** Inputs of the worked runs *)

Module Inputs.

(** A row with a position, a barometric altitude and a [NULL] geometric one. *)
Definition report_at (icao : string) (t lat lon alt : R) : Report :=
  mkReport icao t (Some lat) (Some lon) (Some alt) (Some None).

Definition session_of (icao : string) (start : R) : string -> option R :=
  fun i => if String.eqb i icao then Some start else None.

(** Sparse telemetry: two valid reports 301 seconds apart. *)
Definition sparse_db : BalloonDatabase :=
  mkDatabase
    [ report_at "abc123" 1000 42 (-71) 15000;
      report_at "abc123" 1301 42 (-71) 15000 ]
    (session_of "abc123" 900)
    [].

Definition sparse_points : list Point :=
  [ mkPoint 1000 42 (-71) 15000; mkPoint 1301 42 (-71) 15000 ].

(** A balloon that hovers: four reports, one minute apart, at one place. *)
Definition hover_db : BalloonDatabase :=
  mkDatabase
    [ report_at "abc123" 1000 42 (-71) 15200;
      report_at "abc123" 1060 42 (-71) 15200;
      report_at "abc123" 1120 42 (-71) 15200;
      report_at "abc123" 1180 42 (-71) 15200 ]
    (session_of "abc123" 900)
    [].

(** The geodesic distance between the identical positions of a hovering
    balloon: every pair measured in the runs that use it is such a pair. *)
Definition hover_distance : R * R -> R * R -> R := fun _ _ => 0.

Definition hover_points : list Point :=
  [ mkPoint 1000 42 (-71) 15200; mkPoint 1060 42 (-71) 15200;
    mkPoint 1120 42 (-71) 15200; mkPoint 1180 42 (-71) 15200 ].

(** The vector that [trajectory_body] builds for a hovering pair. *)
Definition hover_vector (t0 t1 : R) : WindVector :=
  mkWindVector ((15200 + 15200) / 2) (meters 0 / (t1 - t0))
    (_calculate_bearing (42, -71) (42, -71)) (t1 - t0) (meters 0).

Definition hover_vectors : list WindVector :=
  [ hover_vector 1000 1060; hover_vector 1060 1120; hover_vector 1120 1180 ].

(** A database written before the [geo_altitude] column existed: the dicts
    have no such key.  Two reports, one minute apart. *)
Definition legacy_db : BalloonDatabase :=
  mkDatabase
    [ mkReport "abc123" 1000 (Some 42) (Some (-71)) (Some 15000) None;
      mkReport "abc123" 1060 (Some 42) (Some (-71)) (Some 15000) None ]
    (session_of "abc123" 900)
    [].

(** A reference balloon whose latest report carries no position (an earlier
    one does), and a subject far away from it. *)
Definition two_balloons : BalloonDatabase :=
  mkDatabase
    [ report_at "ref001" 1000 10 20 15000;
      mkReport "ref001" 1100 None None (Some 15000) (Some None);
      report_at "abc123" 1000 42 (-71) 15000;
      report_at "abc123" 1060 42 (-71) 15000 ]
    (fun i => if String.eqb i "ref001" then Some 900
              else if String.eqb i "abc123" then Some 900 else None)
    [].

(** A vector at a given altitude, other fields arbitrary. *)
Definition at_altitude (alt : R) : WindVector := mkWindVector alt 20 90 60 1200.

Definition three_in_one_bin : list WindVector :=
  [at_altitude 15200; at_altitude 15300; at_altitude 15400].

(** Two vectors at 350 degrees and one at 10 degrees, all at 20 m/s, in the
    bin 15000 of the default configuration. *)
Definition two_to_one : list WindVector :=
  [ mkWindVector 15200 20 350 60 1200;
    mkWindVector 15300 20 350 60 1200;
    mkWindVector 15400 20 10 60 1200 ].

(** Two vectors at 350 degrees and two at 10 degrees. *)
Definition two_to_two : list WindVector :=
  [ mkWindVector 15200 20 350 60 1200;
    mkWindVector 15300 20 10 60 1200;
    mkWindVector 15400 20 350 60 1200;
    mkWindVector 15100 20 10 60 1200 ].

End Inputs.
Export Inputs.

(** * The rest of the code *)

(** ** [database.py]: writing reports, sessions, retention *)

(** The dict handed to [add_aircraft_data], by the keys it reads with
    [.get]: a missing key and a [None] value both read as [None]. *)
Record AircraftData := mkAircraftData {
  ad_icao24 : option string;
  ad_time_position : option R;
  ad_latitude : option R;
  ad_longitude : option R;
  ad_altitude : option R;
  ad_geo_altitude : option R
}.

(** The row an [INSERT INTO aircraft_data] stores, when the two [NOT NULL]
    columns ([icao24], [timestamp]) receive a value. *)
Definition row_of (d : AircraftData) : option Report :=
  match ad_icao24 d, ad_time_position d with
  | Some icao, Some t =>
      Some (mkReport icao t (ad_latitude d) (ad_longitude d) (ad_altitude d)
                     (Some (ad_geo_altitude d)))
  | _, _ => None
  end.

(** The record has a value for both [NOT NULL] columns. *)
Definition complete (d : AircraftData) : Prop :=
  ad_icao24 d <> None /\ ad_time_position d <> None.

Definition insert_reports (db : BalloonDatabase) (rows : list Report)
  : BalloonDatabase :=
  mkDatabase (aircraft_data db ++ rows) (session_start_time db) (wind_data db).

(** [add_aircraft_data]: the constraint violation is caught and answered
    with [False]. *)
Definition add_aircraft_data (db : BalloonDatabase) (d : AircraftData)
  : bool * BalloonDatabase :=
  match row_of d with
  | Some row => (true, insert_reports db [row])
  | None => (false, db)
  end.

(** All rows of a batch, or [None] when one of them violates a constraint. *)
Fixpoint batch_rows (l : list AircraftData) : option (list Report) :=
  match l with
  | [] => Some []
  | d :: t =>
      match row_of d, batch_rows t with
      | Some row, Some rows => Some (row :: rows)
      | _, _ => None
      end
  end.

(** [add_aircraft_data_batch]: one [executemany] in one transaction, which
    the connection's context manager rolls back on an exception. *)
Definition add_aircraft_data_batch (db : BalloonDatabase) (l : list AircraftData)
  : nat * BalloonDatabase :=
  match l with
  | [] => (0%nat, db)
  | _ :: _ =>
      match batch_rows l with
      | Some rows => (length rows, insert_reports db rows)
      | None => (0%nat, db)
      end
  end.

(** [get_latest_data]: [ORDER BY timestamp DESC LIMIT 1]. *)
Definition get_latest_data (db : BalloonDatabase) (icao : string) : option Report :=
  match sort_by (fun r => - timestamp r)
          (filter (fun r => String.eqb (icao24 r) icao) (aircraft_data db)) with
  | [] => None
  | row :: _ => Some row
  end.

(** [get_wind_data]: the rows of one aircraft newer than the cutoff,
    [ORDER BY altitude_bin]. *)
Definition get_wind_data (db : BalloonDatabase) (now : R) (icao : string)
  (hours_back : Z) : list WindRow :=
  let cutoff_time := now - IZR hours_back * 3600 in
  sort_by (fun w => IZR (wr_altitude_bin w))
    (filter (fun w => String.eqb (wr_icao24 w) icao && Rltb cutoff_time (wr_timestamp w))
            (wind_data db)).

(** A row of [tracked_aircraft], primary key [icao24]; the columns
    [callsign], [description], [created_at] and [last_seen] play no part in
    what follows. *)
Record TrackedAircraft := mkTracked {
  ta_icao24 : string;
  ta_is_active : bool;
  ta_session_start_time : option R
}.

(** The four tables. *)
Record Store := mkStore {
  st_aircraft_data : list Report;
  st_wind_data : list WindRow;
  st_tracked_aircraft : list TrackedAircraft;
  st_tracking_sessions : list (string * R)
}.

(** What the readers above see of a store: [session_start_time] is the
    column of the aircraft's row, if there is one. *)
Definition session_column (tracked : list TrackedAircraft) (icao : string)
  : option R :=
  match find (fun row => String.eqb (ta_icao24 row) icao) tracked with
  | Some row => ta_session_start_time row
  | None => None
  end.

Definition database_of (s : Store) : BalloonDatabase :=
  mkDatabase (st_aircraft_data s) (session_column (st_tracked_aircraft s))
             (st_wind_data s).

(** [add_tracked_aircraft]: [INSERT OR REPLACE] with the columns [icao24],
    [callsign], [description], [is_active], [last_seen]; a replaced row is
    deleted first, and [session_start_time] is not among the columns. *)
Definition add_tracked_aircraft (s : Store) (icao : string) : Store :=
  mkStore (st_aircraft_data s) (st_wind_data s)
    (filter (fun row => negb (String.eqb (ta_icao24 row) icao)) (st_tracked_aircraft s)
     ++ [mkTracked icao true None])
    (st_tracking_sessions s).

(** [start_tracking_session]: an [UPDATE ... WHERE icao24 = ?] and an
    [INSERT INTO tracking_sessions]. *)
Definition start_tracking_session (s : Store) (now : R) (icao : string) : Store :=
  let session_start := now in
  mkStore (st_aircraft_data s) (st_wind_data s)
    (map (fun row =>
            if String.eqb (ta_icao24 row) icao
            then mkTracked (ta_icao24 row) (ta_is_active row) (Some session_start)
            else row)
         (st_tracked_aircraft s))
    (st_tracking_sessions s ++ [(icao, session_start)]).

(** *** Transactions

    A connection of Python's [sqlite3] in its default mode.  Before a
    statement that modifies rows ([DELETE] among them) the module opens a
    transaction if none is open, whether or not a row matches; SQLite
    refuses [VACUUM] inside a transaction ([OperationalError: cannot VACUUM
    from within a transaction]); [commit] ends the transaction.  The
    connection sees its own changes ([conn_working]); the file holds the
    last committed tables ([conn_committed]). *)
Record Connection := mkConnection {
  conn_committed : Store;
  conn_working : Store;
  in_transaction : bool
}.

Definition connect (s : Store) : Connection := mkConnection s s false.

(** The statements of [cleanup_old_data] and [conn.commit()]. *)
Inductive Statement :=
| DeleteAircraftData (cutoff_timestamp : R)
| DeleteWindData (cutoff_timestamp : R)
| DeleteTrackingSessions (cutoff_timestamp : R)
| Vacuum
| Analyze
| Commit.

(** The statements that modify rows. *)
Definition is_delete (sql : Statement) : bool :=
  match sql with
  | DeleteAircraftData _ | DeleteWindData _ | DeleteTrackingSessions _ => true
  | _ => false
  end.

(** A [DELETE ... WHERE timestamp < ?] on the working tables. *)
Definition delete_aircraft_data (cutoff_timestamp : R) (s : Store) : Store :=
  mkStore
    (filter (fun r => negb (Rltb (timestamp r) cutoff_timestamp)) (st_aircraft_data s))
    (st_wind_data s) (st_tracked_aircraft s) (st_tracking_sessions s).

Definition delete_wind_data (cutoff_timestamp : R) (s : Store) : Store :=
  mkStore (st_aircraft_data s)
    (filter (fun w => negb (Rltb (wr_timestamp w) cutoff_timestamp)) (st_wind_data s))
    (st_tracked_aircraft s) (st_tracking_sessions s).

Definition delete_tracking_sessions (cutoff_timestamp : R) (s : Store) : Store :=
  mkStore (st_aircraft_data s) (st_wind_data s) (st_tracked_aircraft s)
    (filter (fun x => negb (Rltb (snd x) cutoff_timestamp)) (st_tracking_sessions s)).

(** [cursor.execute] and [conn.commit]; [None] when the statement raises. *)
Definition execute (conn : Connection) (sql : Statement) : option Connection :=
  let modify f := Some (mkConnection (conn_committed conn) (f (conn_working conn)) true) in
  match sql with
  | DeleteAircraftData cutoff => modify (delete_aircraft_data cutoff)
  | DeleteWindData cutoff => modify (delete_wind_data cutoff)
  | DeleteTrackingSessions cutoff => modify (delete_tracking_sessions cutoff)
  | Vacuum => if in_transaction conn then None else Some conn
  | Analyze => Some conn
  | Commit => Some (mkConnection (conn_working conn) (conn_working conn) false)
  end.

(** The statements of a block in order, up to the first that raises: the
    connection reached, and whether the block returned. *)
Fixpoint execute_block (conn : Connection) (block : list Statement)
  : Connection * bool :=
  match block with
  | [] => (conn, true)
  | sql :: rest =>
      match execute conn sql with
      | Some conn' => execute_block conn' rest
      | None => (conn, false)
      end
  end.

(** [with sqlite3.connect(self.db_path) as conn:] commits when the block
    returns and rolls back when it raises, and the exception goes on to the
    caller.  The result: whether the call returned, and the tables in the
    file afterwards. *)
Definition with_connection (s : Store) (block : list Statement) : bool * Store :=
  let (conn, returned) := execute_block (connect s) block in
  if returned then (true, conn_working conn) else (false, conn_committed conn).

(** [cleanup_old_data].  [cutoff_timestamp] is
    [(datetime.now() - timedelta(hours=MAX_DATA_AGE_HOURS)).timestamp()],
    a local-time computation taken here as the argument. *)
Definition cleanup_old_data (s : Store) (cutoff_timestamp : R) : bool * Store :=
  with_connection s
    [ DeleteAircraftData cutoff_timestamp;
      DeleteWindData cutoff_timestamp;
      DeleteTrackingSessions cutoff_timestamp;
      Vacuum;
      Analyze;
      Commit ].

(** ** [wind_calculator.py]: stored profile, vertical velocity, wind rose *)

(** The value [get_wind_profile] keeps per bin. *)
Record StoredWind := mkStoredWind {
  sw_wind_speed : R;
  sw_wind_direction : R;
  sw_sample_count : nat;
  sw_timestamp : R
}.

(** The dict built from one row of [wind_data]. *)
Definition stored (record : WindRow) : StoredWind :=
  mkStoredWind (wr_wind_speed record) (wr_wind_direction record)
               (wr_sample_count record) (wr_timestamp record).

Definition get_wind_profile (db : BalloonDatabase) (now : R) (icao : string)
  (hours_back : Z) : Dict StoredWind :=
  let wind_data := get_wind_data db now icao hours_back in
  fold_left
    (fun profile record =>
       dict_set (wr_altitude_bin record)
         (mkStoredWind (wr_wind_speed record) (wr_wind_direction record)
                       (wr_sample_count record) (wr_timestamp record))
         profile)
    wind_data [].

(** [np.polyfit(times, altitudes, 1)[0]]: the slope of the least-squares
    line, for times that are not all equal. *)
Definition polyfit_slope (times altitudes : list R) : R :=
  let t_mean := np_mean times in
  let a_mean := np_mean altitudes in
  np_sum (array_mul (map (fun t => t - t_mean) times)
                    (map (fun a => a - a_mean) altitudes))
  / np_sum (map (fun t => (t - t_mean) * (t - t_mean)) times).

(** A row of the frame of [calculate_vertical_velocity] after
    [dropna(subset=['altitude', 'timestamp'])]: timestamp and altitude. *)
Definition altitude_rows (aircraft_data : list Report) : list (R * R) :=
  flat_map (fun r => match altitude r with
                     | Some alt => [(timestamp r, alt)]
                     | None => []
                     end) aircraft_data.

Record VerticalVelocity := mkVerticalVelocity {
  vv_timestamp : R;
  vv_altitude : R;
  vv_vertical_velocity : R;
  vv_window_size : nat
}.

(** [df.iloc[i - window_size : i + 1]]. *)
Definition iloc_window (df : list (R * R)) (window_size i : nat) : list (R * R) :=
  firstn (S window_size) (skipn (i - window_size) df).

(** One turn of [for i in range(window_size, len(df))]. *)
Definition velocity_at (df : list (R * R)) (window_size i : nat)
  : list VerticalVelocity :=
  let window_data := iloc_window df window_size i in
  let times := map fst window_data in
  let altitudes := map snd window_data in
  if (2 <=? length times)%nat then
    [mkVerticalVelocity (fst (nth i df (0, 0))) (snd (nth i df (0, 0)))
                        (polyfit_slope times altitudes) (length window_data)]
  else [].

(** [window_minutes] is a parameter the method never reads. *)
Definition calculate_vertical_velocity (db : BalloonDatabase) (now : R)
  (icao : string) (window_minutes : Z) : list VerticalVelocity :=
  let aircraft_data := get_aircraft_data db now icao 1 in
  if (length aircraft_data <? 2)%nat then []
  else
    let df := sort_by fst (altitude_rows aircraft_data) in
    let window_size := Nat.max 3 (length df / 10) in
    flat_map (velocity_at df window_size)
             (seq window_size (length df - window_size)).

(** [np.arange(0, 361, 22.5)] and the speed bins of [get_wind_rose_data]. *)
Definition direction_bins : list R := map (fun i => 22.5 * INR i) (seq 0 17).
Definition speed_bins : list R := [0; 5; 10; 15; 20; 25; 30; 50; 100].

(** The altitude filter of lines 363-373. *)
Definition rose_altitude_filter (altitude_min altitude_max : option R)
  (aircraft_data : list Report) : list Report :=
  match altitude_min, altitude_max with
  | None, None => aircraft_data
  | _, _ =>
      filter
        (fun point =>
           match altitude point with
           | Some alt =>
               negb (match altitude_min with Some lo => Rltb alt lo | None => false end)
               && negb (match altitude_max with Some hi => Rltb hi alt | None => false end)
           | None => false
           end)
        aircraft_data
  end.

(** What one turn of the loop at lines 379-400 does. *)
Inductive Turn (A : Type) :=
| Continue : Turn A
| Append : A -> Turn A
| Raises : Turn A.
Arguments Continue {A}.
Arguments Append {A} _.
Arguments Raises {A}.

Section WindRose.

Variable geodesic : R * R -> R * R -> R.

(** The rows are not filtered for missing positions: with a [None]
    coordinate, [math.radians] in [_calculate_bearing] raises (if [geodesic]
    has not already). *)
Definition rose_body (prev_point curr_point : Report) : Turn (R * R) :=
  let dt := timestamp curr_point - timestamp prev_point in
  if Rleb dt 0 || Rltb 300 dt then Continue
  else
    match latitude prev_point, longitude prev_point,
          latitude curr_point, longitude curr_point with
    | Some lat1, Some lon1, Some lat2, Some lon2 =>
        let prev_pos := (lat1, lon1) in
        let curr_pos := (lat2, lon2) in
        let distance := geodesic prev_pos curr_pos * 1000 in
        let bearing := _calculate_bearing prev_pos curr_pos in
        let speed := distance / dt in
        Append (speed, bearing)
    | _, _, _, _ => Raises
    end.

(** The loop: the vectors (speed, direction), or [None] when a turn raises. *)
Fixpoint rose_vectors (aircraft_data : list Report) : option (list (R * R)) :=
  match aircraft_data with
  | prev :: ((curr :: _) as rest) =>
      match rose_body prev curr with
      | Raises => None
      | Continue => rose_vectors rest
      | Append v =>
          match rose_vectors rest with
          | Some vs => Some (v :: vs)
          | None => None
          end
      end
  | _ => Some []
  end.

(** The nested dict, in insertion order; a pair of bounds stands for the
    label that prints them. *)
Definition RoseData := list ((R * R) * list ((R * R) * nat)).

Definition rose_table (wind_vectors : list (R * R)) : RoseData :=
  map (fun d =>
         let dir_start := fst d in
         let dir_end := snd d in
         let direction_winds :=
           map fst (filter (fun vector => Rleb dir_start (snd vector)
                                          && Rltb (snd vector) dir_end)
                           wind_vectors) in
         (d, map (fun s =>
                    (s, length (filter (fun speed => Rleb (fst s) speed
                                                     && Rltb speed (snd s))
                                       direction_winds)))
                 (consecutive speed_bins)))
      (consecutive direction_bins).

(** [get_wind_rose_data]: [None] when the call raises, the empty dict when
    there is nothing to bin. *)
Definition get_wind_rose_data (db : BalloonDatabase) (now : R) (icao : string)
  (altitude_min altitude_max : option R) : option RoseData :=
  let aircraft_data := get_aircraft_data db now icao 6 in
  match aircraft_data with
  | [] => Some []
  | _ :: _ =>
      let aircraft_data := rose_altitude_filter altitude_min altitude_max aircraft_data in
      match rose_vectors aircraft_data with
      | None => None
      | Some [] => Some []
      | Some wind_vectors => Some (rose_table wind_vectors)
      end
  end.

End WindRose.

(** The number of samples a rose reports, over all its cells. *)
Definition rose_total (rose : RoseData) : nat :=
  fold_right (fun row acc => (fold_right (fun cell n => (snd cell + n)%nat) 0%nat (snd row) + acc)%nat)
             0%nat rose.

(** ** [app.py]: the traces of [create_multi_balloon_wind_profile] *)

(** A scatter trace: the aircraft it is named after, its colour and its
    points. *)
Record Trace := mkTrace {
  tr_icao : string;
  tr_color : string;
  tr_x : list R;
  tr_y : list R
}.

Definition colors : list string :=
  [ "#58a6ff"; "#3fb950"; "#f85149"; "#d29922";
    "#da70d6"; "#ff6347"; "#32cd32"; "#ffa500" ]%string.

Section MultiBalloon.

Variable geodesic : R * R -> R * R -> R.

(** One turn of [for i, icao in enumerate(selected_balloons_list)]. *)
Definition balloon_trace (db : BalloonDatabase) (now : R)
  (altitude_source altitude_units : string)
  (time_filter_minutes distance_filter_km : option R)
  (reference_balloon : option string) (i : nat) (icao : string) : list Trace :=
  let time_filter_seconds :=
    match time_filter_minutes with
    | Some minutes => if Rltb 0 minutes then Some (minutes * 60) else None
    | None => None
    end in
  let reference_icao :=
    if truthy_str reference_balloon && truthy distance_filter_km
       && match distance_filter_km with Some km => Rltb 0 km | None => false end
    then reference_balloon else None in
  let wind_data :=
    calculate_wind_profile geodesic db now icao altitude_source
      time_filter_seconds distance_filter_km reference_icao None in
  match wind_data with
  | [] => []
  | _ :: _ =>
      let altitudes := map pe_altitude_bin wind_data in
      let altitude_display :=
        if String.eqb altitude_units "ft"
        then map (fun a => a * 3.28084) altitudes
        else altitudes in
      let wind_dirs := map pe_wind_direction wind_data in
      let color := nth (i mod length colors) colors ""%string in
      [mkTrace icao color wind_dirs altitude_display]
  end.

Fixpoint enumerate_from {A} (i : nat) (l : list A) : list (nat * A) :=
  match l with
  | [] => []
  | x :: t => (i, x) :: enumerate_from (S i) t
  end.

(** The traces added to the figure; an empty selection gives the empty
    figure. *)
Definition create_multi_balloon_wind_profile (db : BalloonDatabase) (now : R)
  (selected_balloons_list : list string)
  (altitude_source altitude_units : string)
  (time_filter_minutes distance_filter_km : option R)
  (reference_balloon : option string) : list Trace :=
  flat_map
    (fun ix =>
       balloon_trace db now altitude_source altitude_units time_filter_minutes
         distance_filter_km reference_balloon (fst ix) (snd ix))
    (enumerate_from 0 selected_balloons_list).

End MultiBalloon.

(** The samples a dict of bins accounts for. *)
Definition total_samples (d : Dict WindBin) : nat :=
  fold_right (fun kv acc => (sample_count (snd kv) + acc)%nat) 0%nat d.

(** What the loop of [_bin_wind_data] does with one bin, in closed form:
    whether it passes the [min_samples] test, and the item it then stores. *)
Definition bin_retained (bin_size min_samples : Z) (vs : list WindVector) (b : R)
  : bool :=
  negb (Z.of_nat (length (bin_rows bin_size vs b)) <? min_samples)%Z.

Definition bin_entry (bin_size : Z) (vs : list WindVector) (b : R) : Z * WindBin :=
  (int_of_float b, bin_record (bin_rows bin_size vs b)).

(** A reference balloon whose latest report has a position, and a subject
    with one report at that position and one far away. *)
Definition convoy : BalloonDatabase :=
  mkDatabase
    [ report_at "ref001" 1000 10 20 15000;
      report_at "ref001" 1100 11 21 15000;
      report_at "abc123" 1000 11 21 15000;
      report_at "abc123" 1060 42 (-71) 15000 ]
    (fun i => if String.eqb i "ref001" then Some 900
              else if String.eqb i "abc123" then Some 900 else None)
    [].

(** A stand-in for the geodesic distance that tells positions apart: the
    squared difference of the coordinates. *)
Definition grid_distance : R * R -> R * R -> R :=
  fun p q => (fst p - fst q) * (fst p - fst q) + (snd p - snd q) * (snd p - snd q).

(** A balloon climbing at 5 m/s, reported every minute. *)
Definition climb_db : BalloonDatabase :=
  mkDatabase
    [ report_at "abc123" 1000 42 (-71) 15000;
      report_at "abc123" 1060 42 (-71) 15300;
      report_at "abc123" 1120 42 (-71) 15600;
      report_at "abc123" 1180 42 (-71) 15900;
      report_at "abc123" 1240 42 (-71) 16200 ]
    (session_of "abc123" 900)
    [].

(** * Properties *)

(** ** Facts about the numeric primitives *)

Module NumFacts.

Lemma Rleb_true a b : a <= b -> Rleb a b = true.
Proof. intros H. unfold Rleb. destruct (Rle_dec a b); [reflexivity | contradiction]. Qed.

Lemma Rleb_false a b : b < a -> Rleb a b = false.
Proof. intros H. unfold Rleb. destruct (Rle_dec a b); [lra | reflexivity]. Qed.

Lemma Rltb_true a b : a < b -> Rltb a b = true.
Proof. intros H. unfold Rltb. destruct (Rlt_dec a b); [reflexivity | contradiction]. Qed.

Lemma Rltb_false a b : b <= a -> Rltb a b = false.
Proof. intros H. unfold Rltb. destruct (Rlt_dec a b); [lra | reflexivity]. Qed.

Lemma Reqb_true a b : a = b -> Reqb a b = true.
Proof. intros H. unfold Reqb. destruct (Req_dec_T a b); [reflexivity | contradiction]. Qed.

Lemma Reqb_false a b : a <> b -> Reqb a b = false.
Proof. intros H. unfold Reqb. destruct (Req_dec_T a b); [contradiction | reflexivity]. Qed.

Lemma Rleb_spec a b : Rleb a b = true <-> a <= b.
Proof. unfold Rleb. destruct (Rle_dec a b); split; intros; try easy. Qed.

Lemma Rltb_spec a b : Rltb a b = true <-> a < b.
Proof. unfold Rltb. destruct (Rlt_dec a b); split; intros; try easy. Qed.

Lemma Reqb_spec a b : Reqb a b = true <-> a = b.
Proof. unfold Reqb. destruct (Req_dec_T a b); split; intros; try easy. Qed.

Lemma Rltb_false_iff a b : Rltb a b = false <-> b <= a.
Proof.
  unfold Rltb. destruct (Rlt_dec a b); split; intros; try easy; lra.
Qed.

Lemma Rleb_false_iff a b : Rleb a b = false <-> b < a.
Proof.
  unfold Rleb. destruct (Rle_dec a b); split; intros; try easy; lra.
Qed.

(** The floor of a real is the integer just below it. *)
Lemma Int_part_bounds x : IZR (Int_part x) <= x < IZR (Int_part x) + 1.
Proof. destruct (base_Int_part x). lra. Qed.

Lemma Int_part_unique x z : IZR z <= x < IZR z + 1 -> Int_part x = z.
Proof. intros H. symmetry. apply Int_part_spec. lra. Qed.

Lemma Int_part_IZR z : Int_part (IZR z) = z.
Proof. apply Int_part_unique. lra. Qed.

Lemma int_of_float_IZR z : int_of_float (IZR z) = z.
Proof.
  unfold int_of_float, Rleb. destruct (Rle_dec 0 (IZR z)).
  - apply Int_part_IZR.
  - rewrite <- opp_IZR, Int_part_IZR. lia.
Qed.

Lemma py_mod_range a b : 0 < b -> 0 <= py_mod a b < b.
Proof.
  intros Hb. unfold py_mod.
  destruct (Int_part_bounds (a / b)) as [Hlo Hhi].
  assert (Ha : a = b * (a / b)) by (field; lra).
  split.
  - apply Rmult_le_compat_l with (r := b) in Hlo; lra.
  - apply Rmult_lt_compat_l with (r := b) in Hhi; lra.
Qed.

Lemma py_mod_small a b : 0 <= a < b -> py_mod a b = a.
Proof.
  intros [H0 Hb]. unfold py_mod.
  assert (Hz : Int_part (a / b) = 0%Z).
  { apply Int_part_unique. simpl. split.
    - apply Rmult_le_pos; [lra|]. left. apply Rinv_0_lt_compat. lra.
    - apply Rmult_lt_reg_r with (r := b); [lra|]. field_simplify; lra. }
  rewrite Hz. simpl. ring.
Qed.

Lemma py_mod_once a b : b <= a < 2 * b -> py_mod a b = a - b.
Proof.
  intros [H0 Hb]. unfold py_mod.
  assert (Hpos : 0 < b) by lra.
  assert (Hz : Int_part (a / b) = 1%Z).
  { apply Int_part_unique. simpl. split.
    - apply Rmult_le_reg_r with (r := b); [lra|]. field_simplify; lra.
    - apply Rmult_lt_reg_r with (r := b); [lra|]. field_simplify; lra. }
  rewrite Hz. simpl. ring.
Qed.

Lemma degrees_0 : degrees 0 = 0.
Proof. unfold degrees. ring. Qed.

Lemma radians_minus a b : radians a - radians b = radians (a - b).
Proof. unfold radians. ring. Qed.

Lemma degrees_radians x : degrees (radians x) = x.
Proof. unfold degrees, radians. field. pose proof PI_RGT_0. lra. Qed.

Lemma atan2_0_0 : atan2 0 0 = 0.
Proof.
  unfold atan2. rewrite !Rltb_false by lra. reflexivity.
Qed.

Lemma atan2_0_pos x : 0 < x -> atan2 0 x = 0.
Proof.
  intros H. unfold atan2. rewrite Rltb_true by lra.
  unfold Rdiv. rewrite Rmult_0_l. apply atan_0.
Qed.

Lemma atan2_pos y x : 0 < x -> atan2 y x = atan (y / x).
Proof. intros H. unfold atan2. now rewrite Rltb_true by lra. Qed.

(** [atan2] takes its values in (-pi, pi]. *)
Lemma atan2_range y x : - PI < atan2 y x <= PI.
Proof.
  pose proof PI_RGT_0 as Hpi.
  unfold atan2.
  destruct (Rltb 0 x) eqn:Hx.
  - pose proof (atan_bound (y / x)). lra.
  - destruct (Rltb x 0) eqn:Hx'.
    + apply Rltb_spec in Hx'.
      assert (Hinv : / x < 0) by (apply Rinv_lt_0_compat; lra).
      destruct (Rleb 0 y) eqn:Hy.
      * apply Rleb_spec in Hy.
        assert (Hq : y / x <= 0).
        { unfold Rdiv. replace 0 with (y * 0) by ring.
          apply Rmult_le_compat_l; lra. }
        pose proof (atan_bound (y / x)) as Hb.
        assert (atan (y / x) <= 0).
        { destruct Hq as [Hq | Hq].
          - left. rewrite <- atan_0. now apply atan_increasing.
          - rewrite Hq, atan_0. lra. }
        lra.
      * apply Rleb_false_iff in Hy.
        assert (Hq : 0 < y / x).
        { unfold Rdiv. replace 0 with (y * 0) by ring.
          apply Rmult_lt_gt_compat_neg_l; lra. }
        pose proof (atan_bound (y / x)) as Hb.
        assert (0 < atan (y / x)).
        { rewrite <- atan_0. now apply atan_increasing. }
        lra.
    + destruct (Rltb 0 y); [lra|]. destruct (Rltb y 0); lra.
Qed.

End NumFacts.
Export NumFacts.

(** ** Geodesy: the bearing *)

Module Bearing.

Lemma source_matches_formula p1 p2 : _calculate_bearing p1 p2 = spec_bearing p1 p2.
Proof.
  unfold _calculate_bearing, spec_bearing.
  cbv zeta. rewrite radians_minus. reflexivity.
Qed.

Lemma in_range p1 p2 : 0 <= _calculate_bearing p1 p2 < 360.
Proof.
  unfold _calculate_bearing. cbv zeta. apply py_mod_range. lra.
Qed.

Lemma identical_points p : _calculate_bearing p p = 0.
Proof.
  unfold _calculate_bearing. cbv zeta.
  replace (radians (snd p) - radians (snd p)) with 0 by ring.
  rewrite sin_0, cos_0.
  replace (0 * cos (radians (fst p))) with 0 by ring.
  replace (cos (radians (fst p)) * sin (radians (fst p))
           - sin (radians (fst p)) * cos (radians (fst p)) * 1) with 0 by ring.
  rewrite atan2_0_0, degrees_0.
  rewrite py_mod_once by lra. ring.
Qed.

(** What the normalisation does: the angle of [atan2], in degrees, lies in
    (-180, 180]; negative angles are shifted by a full turn. *)
Lemma degrees_atan2_range y x : -180 < degrees (atan2 y x) <= 180.
Proof.
  pose proof PI_RGT_0 as Hpi.
  destruct (atan2_range y x) as [Hlo Hhi].
  unfold degrees.
  assert (Hk : 0 < 180 / PI) by (apply Rdiv_lt_0_compat; lra).
  assert (E : PI * (180 / PI) = 180) by (field; lra).
  split.
  - apply Rmult_lt_compat_r with (r := 180 / PI) in Hlo; [|exact Hk]. lra.
  - apply Rmult_le_compat_r with (r := 180 / PI) in Hhi; [|lra]. lra.
Qed.

Lemma normalise theta :
  -180 < theta <= 180 ->
  py_mod (theta + 360) 360 = if Rltb theta 0 then theta + 360 else theta.
Proof.
  intros [Hlo Hhi]. destruct (Rltb theta 0) eqn:E.
  - apply Rltb_spec in E. apply py_mod_small. lra.
  - apply Rltb_false_iff in E. rewrite py_mod_once by lra. ring.
Qed.

(** C8.  [_calculate_bearing p1 p2] is the formula of the specification:
    [atan2(sin dlon * cos lat2, cos lat1 * sin lat2 - sin lat1 * cos lat2 *
    cos dlon)] in degrees, normalised by [(theta + 360) mod 360]; the result
    lies in [0, 360); and for two identical points it is 0. *)
Theorem bearing_formula_range_identity :
  (forall p1 p2, _calculate_bearing p1 p2 = spec_bearing p1 p2) /\
  (forall p1 p2, 0 <= _calculate_bearing p1 p2 < 360) /\
  (forall p, _calculate_bearing p p = 0).
Proof.
  split; [|split].
  - exact source_matches_formula.
  - exact in_range.
  - exact identical_points.
Qed.

End Bearing.

(** ** Altitude aggregator *)

Module Dicts.

Lemma get_set_same {V} k (v : V) d : dict_get k (dict_set k v d) = Some v.
Proof.
  induction d as [|[k' v'] t IH]; simpl.
  - now rewrite Z.eqb_refl.
  - destruct (Z.eqb k' k) eqn:E; simpl.
    + now rewrite Z.eqb_refl.
    + now rewrite E.
Qed.

Lemma get_set_other {V} k k' (v : V) d :
  k <> k' -> dict_get k (dict_set k' v d) = dict_get k d.
Proof.
  intros Hne. induction d as [|[k0 v0] t IH]; simpl.
  - destruct (Z.eqb k' k) eqn:E; [apply Z.eqb_eq in E; congruence | reflexivity].
  - destruct (Z.eqb k0 k') eqn:E; simpl.
    + apply Z.eqb_eq in E. subst k0.
      destruct (Z.eqb k' k) eqn:E'; [apply Z.eqb_eq in E'; congruence | reflexivity].
    + destruct (Z.eqb k0 k); [reflexivity | exact IH].
Qed.

Lemma in_keys_iff {V} k (d : Dict V) :
  In k (dict_keys d) <-> exists v, dict_get k d = Some v.
Proof.
  unfold dict_keys. induction d as [|[k' v'] t IH]; simpl.
  - split; [tauto | intros [v H]; discriminate].
  - destruct (Z.eqb k' k) eqn:E.
    + apply Z.eqb_eq in E. split; [eauto | auto].
    + apply Z.eqb_neq in E. rewrite <- IH. split; [intros [H|H]; [congruence|exact H] | auto].
Qed.

End Dicts.

Module Unique.

Lemma in_iff x xs : In x (unique xs) <-> In x xs.
Proof.
  induction xs as [|y t IH]; simpl; [tauto|].
  rewrite filter_In, IH. split.
  - intros [H | [H _]]; auto.
  - intros [H | H]; auto.
    destruct (Req_dec_T x y) as [E | E]; [left; auto | right].
    split; [exact H | now rewrite Reqb_false].
Qed.

Lemma nodup xs : NoDup (unique xs).
Proof.
  induction xs as [|y t IH]; simpl; constructor.
  - rewrite filter_In. intros [_ H]. rewrite Reqb_true in H by reflexivity. discriminate.
  - now apply NoDup_filter.
Qed.

End Unique.

Section AggregatorFacts.

Variable altitude_bin_size : Z.
Variable min_samples : Z.

Local Abbreviation bin_of := (altitude_bin altitude_bin_size).
Local Abbreviation rows := (bin_rows altitude_bin_size).
Local Abbreviation step := (bin_step altitude_bin_size min_samples).

(** The float in column [altitude_bin] is the specification's integer. *)
Lemma altitude_bin_is_spec_bin v :
  bin_of v = IZR (spec_bin altitude_bin_size (wv_altitude v)).
Proof.
  unfold altitude_bin, floor_div, spec_bin. now rewrite mult_IZR.
Qed.

Lemma key_of_altitude_bin v :
  int_of_float (bin_of v) = spec_bin altitude_bin_size (wv_altitude v).
Proof. rewrite altitude_bin_is_spec_bin. apply int_of_float_IZR. Qed.

Lemma Reqb_IZR a b : Reqb (IZR a) (IZR b) = Z.eqb a b.
Proof.
  destruct (Z.eqb a b) eqn:E.
  - apply Z.eqb_eq in E. subst. now apply Reqb_true.
  - apply Z.eqb_neq in E. apply Reqb_false. intros H. now apply eq_IZR in H.
Qed.

(** Selecting the rows of a bin by float equality selects the members. *)
Lemma rows_are_members vs k : rows vs (IZR k) = members altitude_bin_size k vs.
Proof.
  unfold bin_rows, members. apply filter_ext. intros v.
  rewrite altitude_bin_is_spec_bin. apply Reqb_IZR.
Qed.

Lemma member_in vs k v :
  In v (members altitude_bin_size k vs) <->
  In v vs /\ spec_bin altitude_bin_size (wv_altitude v) = k.
Proof. unfold members. rewrite filter_In, Z.eqb_eq. tauto. Qed.

Lemma bins_integral vs b :
  In b (unique (map bin_of vs)) ->
  exists v, In v vs /\ b = IZR (spec_bin altitude_bin_size (wv_altitude v)).
Proof.
  rewrite Unique.in_iff, in_map_iff. intros [v [E H]].
  exists v. split; [exact H|]. now rewrite <- E, altitude_bin_is_spec_bin.
Qed.

Lemma bin_listed_iff vs k :
  In (IZR k) (unique (map bin_of vs)) <-> members altitude_bin_size k vs <> [].
Proof.
  rewrite Unique.in_iff, in_map_iff. split.
  - intros [v [E H]] Hnil.
    assert (Hin : In v (members altitude_bin_size k vs)).
    { apply member_in. split; [exact H|].
      rewrite altitude_bin_is_spec_bin in E. now apply eq_IZR in E. }
    rewrite Hnil in Hin. contradiction.
  - intros Hne. destruct (members altitude_bin_size k vs) as [|v t] eqn:E; [congruence|].
    assert (Hin : In v (members altitude_bin_size k vs)) by (rewrite E; now left).
    apply member_in in Hin. destruct Hin as [Hin Hk].
    exists v. split; [|exact Hin]. now rewrite altitude_bin_is_spec_bin, Hk.
Qed.

(** The loop over the distinct bins, read at one key. *)
Lemma loop_skips vs bs d k :
  (forall b, In b bs -> exists z, b = IZR z) ->
  (~ In (IZR k) bs \/ (Z.of_nat (length (rows vs (IZR k))) < min_samples)%Z) ->
  dict_get k (fold_left (step vs) bs d) = dict_get k d.
Proof.
  revert d. induction bs as [|b t IH]; intros d Hint Hk; simpl; [reflexivity|].
  rewrite IH.
  - unfold bin_step.
    destruct (Z.ltb_spec (Z.of_nat (length (rows vs b))) min_samples) as [Hlt | Hge];
      [reflexivity|].
    destruct (Hint b (or_introl eq_refl)) as [z Hz]. subst b.
    rewrite int_of_float_IZR.
    apply Dicts.get_set_other. intros ->.
    destruct Hk as [Hk | Hk]; [apply Hk; now left | lia].
  - intros b' Hb'. apply Hint. now right.
  - destruct Hk as [Hk | Hk]; [left; intros H; apply Hk; now right | now right].
Qed.

Lemma loop_stores vs bs d k :
  NoDup bs ->
  (forall b, In b bs -> exists z, b = IZR z) ->
  In (IZR k) bs ->
  (min_samples <= Z.of_nat (length (rows vs (IZR k))))%Z ->
  dict_get k (fold_left (step vs) bs d) = Some (bin_record (rows vs (IZR k))).
Proof.
  revert d. induction bs as [|b t IH]; intros d Hnd Hint Hin Hge; [contradiction|].
  simpl. inversion Hnd as [|? ? Hnotin Hnd']; subst.
  destruct Hin as [-> | Hin].
  - rewrite loop_skips.
    + unfold bin_step.
      destruct (Z.ltb_spec (Z.of_nat (length (rows vs (IZR k)))) min_samples); [lia|].
      rewrite int_of_float_IZR. apply Dicts.get_set_same.
    + intros b' Hb'. apply Hint. now right.
    + now left.
  - apply IH; auto. intros b' Hb'. apply Hint. now right.
Qed.

(** What [_bin_wind_data] holds at every key. *)
Lemma bin_wind_data_get vs k :
  dict_get k (_bin_wind_data altitude_bin_size min_samples vs) =
  match members altitude_bin_size k vs with
  | [] => None
  | w :: t =>
      if (Z.of_nat (length (w :: t)) <? min_samples)%Z then None
      else Some (bin_record (w :: t))
  end.
Proof.
  unfold _bin_wind_data.
  assert (Hint : forall b, In b (unique (map bin_of vs)) -> exists z, b = IZR z).
  { intros b Hb. destruct (bins_integral vs b Hb) as [v [_ E]]. eauto. }
  destruct (members altitude_bin_size k vs) as [|v t] eqn:E.
  - rewrite loop_skips; [reflexivity | exact Hint |].
    left. rewrite bin_listed_iff. now rewrite E.
  - destruct (Z.ltb_spec (Z.of_nat (length (v :: t))) min_samples) as [Hlt | Hge].
    + rewrite loop_skips; [reflexivity | exact Hint |].
      right. now rewrite rows_are_members, E.
    + rewrite loop_stores.
      * now rewrite rows_are_members, E.
      * apply Unique.nodup.
      * exact Hint.
      * apply bin_listed_iff. now rewrite E.
      * now rewrite rows_are_members, E.
Qed.

End AggregatorFacts.

(** *** The circular mean *)

Module Circular.

Lemma np_sum_components (f : R -> R) l :
  np_sum (array_mul (map wv_wind_speed l)
                    (map f (map radians (map wv_wind_direction l)))) =
  sum_over (fun w => wv_wind_speed w * f (radians (wv_wind_direction w))) l.
Proof.
  induction l as [|w t IH]; [reflexivity|].
  cbn [map array_mul]. unfold np_sum, sum_over in *.
  cbn [fold_right]. now rewrite IH.
Qed.

Lemma length_components (f : R -> R) l :
  length (array_mul (map wv_wind_speed l)
                    (map f (map radians (map wv_wind_direction l)))) = length l.
Proof. induction l as [|w t IH]; simpl; [reflexivity | now rewrite IH]. Qed.

Lemma np_mean_components (f : R -> R) l :
  np_mean (array_mul (map wv_wind_speed l)
                     (map f (map radians (map wv_wind_direction l)))) =
  sum_over (fun w => wv_wind_speed w * f (radians (wv_wind_direction w))) l
  / INR (length l).
Proof. unfold np_mean. now rewrite np_sum_components, length_components. Qed.

(** The record of a bin holds the specification's circular mean. *)
Lemma bin_record_is_circular_mean l :
  wind_speed (bin_record l) = spec_mean_speed l /\
  wind_direction (bin_record l) = spec_mean_direction l.
Proof.
  unfold bin_record, spec_mean_speed, spec_mean_direction, spec_u, spec_v.
  cbn [wind_speed wind_direction].
  now rewrite !np_mean_components.
Qed.

Lemma sin_350 : sin (radians 350) = - sin (radians 10).
Proof.
  replace (radians 350) with (2 * PI - radians 10) by (unfold radians; field).
  rewrite sin_minus, sin_2PI, cos_2PI. ring.
Qed.

Lemma cos_350 : cos (radians 350) = cos (radians 10).
Proof.
  replace (radians 350) with (2 * PI - radians 10) by (unfold radians; field).
  rewrite cos_minus, sin_2PI, cos_2PI. ring.
Qed.

Lemma cos_10_pos : 0 < cos (radians 10).
Proof.
  pose proof PI_RGT_0. apply cos_gt_0; unfold radians; lra.
Qed.

Section TwoDirections.

Variable s : R.
Variable l : list WindVector.
Hypothesis same_speed : forall w, In w l -> wv_wind_speed w = s.
Hypothesis two_dirs :
  forall w, In w l -> wv_wind_direction w = 350 \/ wv_wind_direction w = 10.

Lemma sum_two_directions (f : R -> R) :
  sum_over (fun w => wv_wind_speed w * f (radians (wv_wind_direction w))) l =
  s * (INR (count_direction 350 l) * f (radians 350)
       + INR (count_direction 10 l) * f (radians 10)).
Proof.
  unfold count_direction.
  induction l as [|w t IH]; [simpl; ring|].
  assert (Hs : wv_wind_speed w = s) by (apply same_speed; now left).
  assert (IH' := IH (fun w' H => same_speed w' (or_intror H))
                    (fun w' H => two_dirs w' (or_intror H))).
  cbn [sum_over fold_right filter]. fold (sum_over (fun w0 => wv_wind_speed w0 * f (radians (wv_wind_direction w0))) t).
  rewrite IH', Hs.
  destruct (two_dirs w (or_introl eq_refl)) as [Hd | Hd]; rewrite Hd.
  - rewrite (Reqb_true 350 350) by reflexivity.
    rewrite (Reqb_false 350 10) by lra.
    cbn [length]. rewrite S_INR. ring.
  - rewrite (Reqb_false 10 350) by lra.
    rewrite (Reqb_true 10 10) by reflexivity.
    cbn [length]. rewrite S_INR. ring.
Qed.

Lemma length_two_directions :
  length l = (count_direction 350 l + count_direction 10 l)%nat.
Proof.
  unfold count_direction.
  induction l as [|w t IH]; [reflexivity|].
  assert (IH' := IH (fun w' H => same_speed w' (or_intror H))
                    (fun w' H => two_dirs w' (or_intror H))).
  cbn [filter length].
  destruct (two_dirs w (or_introl eq_refl)) as [Hd | Hd]; rewrite Hd.
  - rewrite (Reqb_true 350 350) by reflexivity.
    rewrite (Reqb_false 350 10) by lra. cbn [length]. lia.
  - rewrite (Reqb_false 10 350) by lra.
    rewrite (Reqb_true 10 10) by reflexivity. cbn [length]. lia.
Qed.

(** As many samples at 350 degrees as at 10 degrees: the east-west
    components cancel and the mean points north. *)
Lemma balanced_mean_direction n :
  0 <= s -> (1 <= n)%nat ->
  count_direction 350 l = n -> count_direction 10 l = n ->
  spec_u l = 0 /\ spec_v l = s * cos (radians 10) /\ spec_mean_direction l = 0.
Proof.
  intros Hs Hn H350 H10.
  assert (Hlen : length l = (n + n)%nat) by (rewrite length_two_directions; lia).
  assert (HN : 0 < INR n) by (apply lt_0_INR; lia).
  assert (Hu : spec_u l = 0).
  { unfold spec_u. rewrite sum_two_directions, H350, H10, sin_350, Hlen, plus_INR.
    field. lra. }
  assert (Hv : spec_v l = s * cos (radians 10)).
  { unfold spec_v. rewrite sum_two_directions, H350, H10, cos_350, Hlen, plus_INR.
    field. lra. }
  split; [exact Hu | split; [exact Hv|]].
  unfold spec_mean_direction. rewrite Hu, Hv.
  assert (Ha : atan2 0 (s * cos (radians 10)) = 0).
  { destruct Hs as [Hs | <-].
    - apply atan2_0_pos. apply Rmult_lt_0_compat; [exact Hs | exact cos_10_pos].
    - rewrite Rmult_0_l. exact atan2_0_0. }
  rewrite Ha, degrees_0. rewrite py_mod_once by lra. ring.
Qed.

End TwoDirections.

End Circular.

(** *** Binning, suppression and the mean of each retained bin *)

Module Aggregation.

Lemma spec_bin_between bin_size alt q :
  (0 < bin_size)%Z ->
  IZR q * IZR bin_size <= alt < (IZR q + 1) * IZR bin_size ->
  spec_bin bin_size alt = (q * bin_size)%Z.
Proof.
  intros Hpos [Hlo Hhi]. unfold spec_bin. f_equal.
  assert (Hs : 0 < IZR bin_size) by (now apply IZR_lt).
  apply Int_part_unique. split.
  - apply Rmult_le_reg_r with (r := IZR bin_size); [exact Hs|].
    unfold Rdiv. rewrite Rmult_assoc, Rinv_l by lra. lra.
  - apply Rmult_lt_reg_r with (r := IZR bin_size); [exact Hs|].
    unfold Rdiv. rewrite Rmult_assoc, Rinv_l by lra. lra.
Qed.

Lemma three_in_one_bin_members :
  members 500 15000 three_in_one_bin = three_in_one_bin.
Proof.
  unfold members, three_in_one_bin, at_altitude. cbn [filter wv_altitude].
  rewrite !(spec_bin_between 500 _ 30) by (try lia; lra).
  reflexivity.
Qed.

(** C6.  Every wind vector is put in the bin
    [floor(altitude / bin_size) * bin_size]: that integer is the value of its
    [altitude_bin] column and the key it is aggregated under, the rows of
    that bin are exactly the vectors with the same floor, and a retained bin
    stores their record.  With [bin_size = 500]: 15200 goes to 15000, 15999
    to 15500, 16000 to 16000. *)
Theorem vectors_binned_by_floor :
  (forall bin_size min_samples vs v,
      (0 < bin_size)%Z -> In v vs ->
      let k := spec_bin bin_size (wv_altitude v) in
      let out := _bin_wind_data bin_size min_samples vs in
      altitude_bin bin_size v = IZR k /\
      int_of_float (altitude_bin bin_size v) = k /\
      (forall w, In w (bin_rows bin_size vs (altitude_bin bin_size v)) <->
                 In w vs /\ spec_bin bin_size (wv_altitude w) = k) /\
      ((min_samples <= Z.of_nat (length (members bin_size k vs)))%Z ->
       dict_get k out = Some (bin_record (members bin_size k vs)))) /\
  (forall s d dt dist,
      int_of_float (altitude_bin 500 (mkWindVector 15200 s d dt dist)) = 15000%Z /\
      int_of_float (altitude_bin 500 (mkWindVector 15999 s d dt dist)) = 15500%Z /\
      int_of_float (altitude_bin 500 (mkWindVector 16000 s d dt dist)) = 16000%Z).
Proof.
  split.
  - intros bin_size min_samples vs v Hpos Hin k out.
    split; [apply altitude_bin_is_spec_bin|].
    split; [apply key_of_altitude_bin|].
    split.
    + intros w. rewrite altitude_bin_is_spec_bin, rows_are_members.
      apply member_in.
    + intros Hge. unfold out. rewrite bin_wind_data_get.
      destruct (members bin_size k vs) as [|w t] eqn:E.
      * assert (Hv : In v (members bin_size k vs)) by (apply member_in; auto).
        rewrite E in Hv. contradiction.
      * destruct (Z.ltb_spec (Z.of_nat (length (w :: t))) min_samples); [lia | reflexivity].
  - intros s d dt dist. rewrite !key_of_altitude_bin. cbn [wv_altitude].
    rewrite (spec_bin_between 500 15200 30) by (try lia; lra).
    rewrite (spec_bin_between 500 15999 31) by (try lia; lra).
    rewrite (spec_bin_between 500 16000 32) by (try lia; lra).
    repeat split; reflexivity.
Qed.

Lemma vectors_binned_by_floor_witness :
  dict_get 15000 (_bin_wind_data 500 3 three_in_one_bin)
  = Some (bin_record three_in_one_bin).
Proof.
  pose proof (proj1 vectors_binned_by_floor 500%Z 3%Z three_in_one_bin
                (at_altitude 15200) eq_refl (or_introl eq_refl)) as H.
  cbv zeta in H. destruct H as [_ [_ [_ H]]].
  assert (E : spec_bin 500 (wv_altitude (at_altitude 15200)) = 15000%Z).
  { unfold at_altitude. cbn [wv_altitude].
    rewrite (spec_bin_between 500 15200 30) by (try lia; lra). reflexivity. }
  rewrite E, three_in_one_bin_members in H.
  apply H. cbn. lia.
Defined.

(** C7.  A bin that holds a vector is a key of the output exactly when at
    least [min_samples] vectors fall in it: with [min_samples - 1] vectors
    it is absent, with [min_samples] it is present; the [sample_count] of an
    emitted bin is the number of its vectors, and every key of the output is
    the bin of some vector. *)
Theorem bin_present_iff_enough_samples bin_size min_samples vs v :
  (0 < bin_size)%Z -> In v vs ->
  let k := spec_bin bin_size (wv_altitude v) in
  let n := length (members bin_size k vs) in
  let out := _bin_wind_data bin_size min_samples vs in
  (In k (dict_keys out) <-> (min_samples <= Z.of_nat n)%Z) /\
  (Z.of_nat n = (min_samples - 1)%Z -> ~ In k (dict_keys out)) /\
  (Z.of_nat n = min_samples -> In k (dict_keys out)) /\
  (forall rec, dict_get k out = Some rec -> sample_count rec = n) /\
  (forall k', In k' (dict_keys out) ->
              exists v', In v' vs /\ spec_bin bin_size (wv_altitude v') = k').
Proof.
  intros Hpos Hv k n out.
  assert (Hmem : In v (members bin_size k vs)) by (apply member_in; auto).
  assert (Hiff : In k (dict_keys out) <-> (min_samples <= Z.of_nat n)%Z).
  { rewrite Dicts.in_keys_iff. unfold out, n. rewrite bin_wind_data_get.
    destruct (members bin_size k vs) as [|w t] eqn:E; [contradiction|].
    destruct (Z.ltb_spec (Z.of_nat (length (w :: t))) min_samples) as [Hlt | Hge].
    - split; [intros [r H]; discriminate | lia].
    - split; [intros _; exact Hge | eauto]. }
  split; [exact Hiff|].
  split; [intros Hn; rewrite Hiff; lia|].
  split; [intros Hn; rewrite Hiff; lia|].
  split.
  - intros rec Hget. unfold out in Hget. rewrite bin_wind_data_get in Hget.
    unfold n.
    destruct (members bin_size k vs) as [|w t] eqn:E; [discriminate|].
    destruct (Z.of_nat (length (w :: t)) <? min_samples)%Z; [discriminate|].
    injection Hget as <-. reflexivity.
  - intros k' Hk'. apply Dicts.in_keys_iff in Hk'. destruct Hk' as [rec Hget].
    unfold out in Hget. rewrite bin_wind_data_get in Hget.
    destruct (members bin_size k' vs) as [|w t] eqn:E; [discriminate|].
    assert (Hw : In w (members bin_size k' vs)) by (rewrite E; now left).
    apply member_in in Hw. exists w. exact Hw.
Qed.

Lemma bin_present_iff_enough_samples_witness :
  In 15000%Z (dict_keys (_bin_wind_data 500 3 three_in_one_bin)).
Proof.
  pose proof (bin_present_iff_enough_samples 500 3 three_in_one_bin
                (at_altitude 15200) eq_refl (or_introl eq_refl)) as H.
  cbv zeta in H.
  assert (E : spec_bin 500 (wv_altitude (at_altitude 15200)) = 15000%Z).
  { unfold at_altitude. cbn [wv_altitude].
    rewrite (spec_bin_between 500 15200 30) by (try lia; lra). reflexivity. }
  rewrite E, three_in_one_bin_members in H.
  destruct H as [_ [_ [H _]]]. apply H. reflexivity.
Defined.

(** C1.  The record of every retained bin holds the circular mean of its
    vectors by vector decomposition: [u] and [v] are the means of
    [speed * sin(radians dir)] and [speed * cos(radians dir)],
    [wind_speed = sqrt(u^2 + v^2)] and
    [wind_direction = (degrees(atan2(u, v)) + 360) mod 360].  In particular a
    retained bin whose vectors have one speed and directions 350 and 10
    degrees, as many of each, has mean direction 0 (the arithmetic mean of
    the two angles is 180). *)
Theorem circular_mean_per_bin :
  (forall bin_size min_samples vs k rec,
      (0 < bin_size)%Z ->
      dict_get k (_bin_wind_data bin_size min_samples vs) = Some rec ->
      let bin_data := members bin_size k vs in
      (min_samples <= Z.of_nat (length bin_data))%Z /\
      wind_speed rec = sqrt (spec_u bin_data ^ 2 + spec_v bin_data ^ 2) /\
      wind_direction rec =
        py_mod (degrees (atan2 (spec_u bin_data) (spec_v bin_data)) + 360) 360) /\
  (forall bin_size min_samples vs k s n,
      (0 < bin_size)%Z -> 0 <= s -> (1 <= n)%nat ->
      let bin_data := members bin_size k vs in
      (forall w, In w bin_data -> wv_wind_speed w = s) ->
      (forall w, In w bin_data ->
                 wv_wind_direction w = 350 \/ wv_wind_direction w = 10) ->
      count_direction 350 bin_data = n ->
      count_direction 10 bin_data = n ->
      (min_samples <= Z.of_nat (length bin_data))%Z ->
      exists rec,
        dict_get k (_bin_wind_data bin_size min_samples vs) = Some rec /\
        wind_direction rec = 0 /\
        wind_speed rec = s * cos (radians 10)) /\
  (350 + 10) / 2 = 180.
Proof.
  split; [|split].
  - intros bin_size min_samples vs k rec Hpos Hget bin_data.
    rewrite bin_wind_data_get in Hget. fold bin_data in Hget.
    destruct bin_data as [|w t] eqn:E; [discriminate|].
    destruct (Z.ltb_spec (Z.of_nat (length (w :: t))) min_samples) as [Hlt | Hge];
      [discriminate|].
    injection Hget as <-.
    split; [exact Hge|].
    exact (Circular.bin_record_is_circular_mean (w :: t)).
  - intros bin_size min_samples vs k s n Hpos Hs Hn bin_data Hspeed Hdirs H350 H10 Hge.
    destruct (Circular.balanced_mean_direction s bin_data Hspeed Hdirs n Hs Hn H350 H10)
      as [Hu [Hv Hdir]].
    exists (bin_record bin_data).
    assert (Hlen : length bin_data = (n + n)%nat).
    { rewrite (Circular.length_two_directions s bin_data Hspeed Hdirs). lia. }
    split; [|split].
    + rewrite bin_wind_data_get. fold bin_data.
      destruct bin_data as [|w t] eqn:E; [cbn in Hlen; lia|].
      destruct (Z.ltb_spec (Z.of_nat (length (w :: t))) min_samples); [lia | reflexivity].
    + destruct (Circular.bin_record_is_circular_mean bin_data) as [_ ->]. exact Hdir.
    + destruct (Circular.bin_record_is_circular_mean bin_data) as [-> _].
      unfold spec_mean_speed. rewrite Hu, Hv.
      replace (0 ^ 2 + (s * cos (radians 10)) ^ 2) with ((s * cos (radians 10))²)
        by (unfold Rsqr; ring).
      apply sqrt_Rsqr. apply Rmult_le_pos; [exact Hs|]. left. exact Circular.cos_10_pos.
  - lra.
Qed.

End Aggregation.

(** *** Unequal counts: the mean leans towards the majority *)

Module Unbalanced.

(** [tan] is superadditive on the first quadrant. *)
Lemma tan_superadditive a b :
  0 < a -> 0 < b -> a + b < PI / 2 -> tan a + tan b <= tan (a + b).
Proof.
  intros Ha Hb Hab.
  assert (Hca : 0 < cos a) by (apply cos_gt_0; lra).
  assert (Hcb : 0 < cos b) by (apply cos_gt_0; lra).
  assert (Hcab : 0 < cos (a + b)) by (apply cos_gt_0; lra).
  assert (Hta : 0 < tan a) by (apply tan_gt_0; lra).
  assert (Htb : 0 < tan b) by (apply tan_gt_0; lra).
  assert (Htab : 0 < tan (a + b)) by (apply tan_gt_0; lra).
  assert (E : tan (a + b) = tan a + tan b + tan a * tan b * tan (a + b)).
  { rewrite cos_plus in Hcab. unfold tan. rewrite sin_plus, cos_plus. field.
    repeat split; lra. }
  assert (0 < tan a * tan b * tan (a + b)).
  { apply Rmult_lt_0_compat; [apply Rmult_lt_0_compat|]; assumption. }
  lra.
Qed.

Lemma three_tan_2_lt_tan_10 : 3 * tan (radians 2) < tan (radians 10).
Proof.
  pose proof PI_RGT_0 as Hpi.
  assert (H4 : tan (radians 2) + tan (radians 2) <= tan (radians 4)).
  { replace (radians 4) with (radians 2 + radians 2) by (unfold radians; field).
    apply tan_superadditive; unfold radians; lra. }
  assert (H6 : tan (radians 4) + tan (radians 2) <= tan (radians 6)).
  { replace (radians 6) with (radians 4 + radians 2) by (unfold radians; field).
    apply tan_superadditive; unfold radians; lra. }
  assert (H10 : tan (radians 6) < tan (radians 10)).
  { apply tan_increasing; unfold radians; lra. }
  lra.
Qed.

(** The angle whose tangent is a third of [tan 10 deg] lies strictly between
    2 and 10 degrees. *)
Lemma lean_angle :
  2 < degrees (atan (tan (radians 10) / 3)) < 10.
Proof.
  pose proof PI_RGT_0 as Hpi.
  pose proof three_tan_2_lt_tan_10 as H3.
  assert (Ht10 : 0 < tan (radians 10)) by (apply tan_gt_0; unfold radians; lra).
  assert (Hlo : radians 2 < atan (tan (radians 10) / 3)).
  { rewrite <- (atan_tan (radians 2)) at 1 by (unfold radians; lra).
    apply atan_increasing. lra. }
  assert (Hhi : atan (tan (radians 10) / 3) < radians 10).
  { rewrite <- (atan_tan (radians 10)) at 2 by (unfold radians; lra).
    apply atan_increasing. lra. }
  assert (Hk : 0 < 180 / PI) by (apply Rdiv_lt_0_compat; lra).
  rewrite <- (degrees_radians 2) at 1. rewrite <- (degrees_radians 10) at 3.
  unfold degrees at 1 2 3.
  split; apply Rmult_lt_compat_r; assumption.
Qed.

Lemma two_to_one_members : members 500 15000 two_to_one = two_to_one.
Proof.
  unfold members, two_to_one. cbn [filter wv_altitude].
  rewrite !(Aggregation.spec_bin_between 500 _ 30) by (try lia; lra).
  reflexivity.
Qed.

Lemma two_to_one_components :
  spec_u two_to_one = - (20 * sin (radians 10)) / 3 /\
  spec_v two_to_one = 20 * cos (radians 10).
Proof.
  assert (Hs : forall w, In w two_to_one -> wv_wind_speed w = 20).
  { intros w [<- | [<- | [<- | []]]]; reflexivity. }
  assert (Hd : forall w, In w two_to_one ->
                         wv_wind_direction w = 350 \/ wv_wind_direction w = 10).
  { intros w [<- | [<- | [<- | []]]]; cbn; auto. }
  assert (C350 : count_direction 350 two_to_one = 2%nat).
  { unfold count_direction, two_to_one. cbn [filter wv_wind_direction].
    rewrite (Reqb_true 350 350) by reflexivity.
    rewrite (Reqb_false 10 350) by lra. reflexivity. }
  assert (C10 : count_direction 10 two_to_one = 1%nat).
  { unfold count_direction, two_to_one. cbn [filter wv_wind_direction].
    rewrite (Reqb_true 10 10) by reflexivity.
    rewrite (Reqb_false 350 10) by lra. reflexivity. }
  unfold spec_u, spec_v.
  rewrite !(Circular.sum_two_directions 20 two_to_one Hs Hd), C350, C10.
  rewrite Circular.sin_350, Circular.cos_350.
  change (length two_to_one) with 3%nat. simpl INR.
  split; field.
Qed.

Lemma two_to_one_direction :
  350 < spec_mean_direction two_to_one < 358.
Proof.
  destruct two_to_one_components as [Hu Hv].
  pose proof Circular.cos_10_pos as Hc.
  pose proof lean_angle as [Hlo Hhi].
  unfold spec_mean_direction. rewrite Hu, Hv.
  rewrite atan2_pos by lra.
  replace (- (20 * sin (radians 10)) / 3 / (20 * cos (radians 10)))
    with (- (tan (radians 10) / 3)) by (unfold tan; field; lra).
  rewrite atan_opp.
  replace (degrees (- atan (tan (radians 10) / 3)))
    with (- degrees (atan (tan (radians 10) / 3))) by (unfold degrees; ring).
  rewrite py_mod_small by lra. lra.
Qed.

End Unbalanced.

Module CircularExamples.

(** Counterexample to C1 as stated: three vectors (the default
    [min_samples]) of equal speed with directions 350, 350 and 10 degrees are
    retained in bin 15000, and their mean direction is more than 2 degrees
    away from north. *)
Lemma unbalanced_mean_off_by_more_than_two :
  exists rec,
    dict_get 15000 (_bin_wind_data 500 3 two_to_one) = Some rec /\
    350 < wind_direction rec < 358.
Proof.
  exists (bin_record two_to_one). split.
  - rewrite bin_wind_data_get, Unbalanced.two_to_one_members. reflexivity.
  - destruct (Circular.bin_record_is_circular_mean two_to_one) as [_ ->].
    exact Unbalanced.two_to_one_direction.
Qed.

Lemma two_to_two_members : members 500 15000 two_to_two = two_to_two.
Proof.
  unfold members, two_to_two. cbn [filter wv_altitude].
  rewrite !(Aggregation.spec_bin_between 500 _ 30) by (try lia; lra).
  reflexivity.
Qed.

Lemma circular_mean_per_bin_witness :
  exists rec,
    dict_get 15000 (_bin_wind_data 500 3 two_to_two) = Some rec /\
    wind_direction rec = 0 /\
    wind_speed rec = 20 * cos (radians 10).
Proof.
  apply (proj1 (proj2 Aggregation.circular_mean_per_bin)
           500%Z 3%Z two_to_two 15000%Z 20 2%nat).
  - reflexivity.
  - lra.
  - lia.
  - rewrite two_to_two_members.
    intros w [<- | [<- | [<- | [<- | []]]]]; reflexivity.
  - rewrite two_to_two_members.
    intros w [<- | [<- | [<- | [<- | []]]]]; cbn; auto.
  - rewrite two_to_two_members.
    unfold count_direction, two_to_two. cbn [filter wv_wind_direction].
    rewrite !(Reqb_true 350 350) by reflexivity.
    rewrite !(Reqb_false 10 350) by lra. reflexivity.
  - rewrite two_to_two_members.
    unfold count_direction, two_to_two. cbn [filter wv_wind_direction].
    rewrite !(Reqb_true 10 10) by reflexivity.
    rewrite !(Reqb_false 350 10) by lra. reflexivity.
  - rewrite two_to_two_members. cbn. lia.
Defined.

End CircularExamples.

(** ** The pairwise loop and the sort *)

Module Pairwise.

Lemma in_emitted {A B} (body : A -> A -> option B) df v :
  In v (pairwise body df) <->
  exists prev curr, In (prev, curr) (consecutive df) /\ body prev curr = Some v.
Proof.
  induction df as [|prev rest IH]; [simpl; split; [tauto | intros [? [? [[] _]]]]|].
  destruct rest as [|curr rest']; [simpl; split; [tauto | intros [? [? [[] _]]]]|].
  change (pairwise body (prev :: curr :: rest')) with
    (match body prev curr with
     | Some w => w :: pairwise body (curr :: rest')
     | None => pairwise body (curr :: rest')
     end).
  change (consecutive (prev :: curr :: rest')) with
    ((prev, curr) :: consecutive (curr :: rest')).
  split.
  - intros H. destruct (body prev curr) as [w|] eqn:E.
    + destruct H as [<- | H].
      * exists prev, curr. split; [now left | exact E].
      * apply IH in H. destruct H as [p [c [Hin Hb]]].
        exists p, c. split; [now right | exact Hb].
    + apply IH in H. destruct H as [p [c [Hin Hb]]].
      exists p, c. split; [now right | exact Hb].
  - intros [p [c [[Heq | Hin] Hb]]].
    + injection Heq as <- <-. rewrite Hb. now left.
    + assert (In v (pairwise body (curr :: rest'))) by (apply IH; eauto).
      destruct (body prev curr); [now right | assumption].
Qed.

Lemma nothing_emitted {A B} (body : A -> A -> option B) df :
  (forall prev curr, In (prev, curr) (consecutive df) -> body prev curr = None) ->
  pairwise body df = [].
Proof.
  intros H. destruct (pairwise body df) as [|v t] eqn:E; [reflexivity|].
  assert (Hin : In v (pairwise body df)) by (rewrite E; now left).
  apply in_emitted in Hin. destruct Hin as [p [c [Hin Hb]]].
  rewrite (H p c Hin) in Hb. discriminate.
Qed.

Lemma consecutive_members {A} (df : list A) prev curr :
  In (prev, curr) (consecutive df) -> In prev df /\ In curr df.
Proof.
  induction df as [|a rest IH]; [contradiction|].
  destruct rest as [|b rest']; [contradiction|].
  change (consecutive (a :: b :: rest')) with ((a, b) :: consecutive (b :: rest')).
  intros [Heq | Hin].
  - injection Heq as <- <-. split; [now left | right; now left].
  - destruct (IH Hin). split; now right.
Qed.

End Pairwise.

Module Sorting.

Section Keyed.

Context {A : Type} (key : A -> R).

Lemma insert_in x y l : In y (insert_by key x l) <-> y = x \/ In y l.
Proof.
  induction l as [|z t IH]; simpl; [intuition|].
  destruct (Rleb (key x) (key z)); simpl; [intuition|].
  rewrite IH. intuition.
Qed.

Lemma sort_in x l : In x (sort_by key l) <-> In x l.
Proof.
  induction l as [|z t IH]; simpl; [tauto|].
  rewrite insert_in, IH. intuition.
Qed.

Lemma insert_length x l : length (insert_by key x l) = S (length l).
Proof.
  induction l as [|z t IH]; simpl; [reflexivity|].
  destruct (Rleb (key x) (key z)); simpl; [reflexivity | now rewrite IH].
Qed.

Lemma sort_length l : length (sort_by key l) = length l.
Proof.
  induction l as [|z t IH]; simpl; [reflexivity|].
  now rewrite insert_length, IH.
Qed.

Lemma insert_ascending x l : ascending key l -> ascending key (insert_by key x l).
Proof.
  induction l as [|z t IH]; intros Hl; [exact I|].
  cbn [insert_by]. destruct (Rleb (key x) (key z)) eqn:E.
  - apply Rleb_spec in E. split; assumption.
  - apply Rleb_false_iff in E.
    destruct t as [|w t'].
    + cbn. split; [lra | exact I].
    + destruct Hl as [Hzw Ht]. specialize (IH Ht).
      cbn [insert_by] in *. destruct (Rleb (key x) (key w)) eqn:E'.
      * split; [lra | exact IH].
      * split; [exact Hzw | exact IH].
Qed.

Lemma sort_ascending l : ascending key (sort_by key l).
Proof.
  induction l as [|z t IH]; [exact I|]. now apply insert_ascending.
Qed.

Lemma ascending_pairs l prev curr :
  ascending key l -> In (prev, curr) (consecutive l) -> key prev <= key curr.
Proof.
  induction l as [|a rest IH]; [contradiction|].
  destruct rest as [|b rest']; [contradiction|].
  intros [Hab Hrest].
  change (consecutive (a :: b :: rest')) with ((a, b) :: consecutive (b :: rest')).
  intros [Heq | Hin].
  - injection Heq as <- <-. exact Hab.
  - now apply IH.
Qed.

End Keyed.

End Sorting.

(** ** The three differencing loops *)

Section Differencer.

Variable geodesic : R * R -> R * R -> R.

Local Abbreviation dt_of prev curr := (pt_timestamp curr - pt_timestamp prev).

(** *** Loop bodies *)

Lemma trajectory_rejects prev curr :
  dt_of prev curr <= 0 \/ 300 < dt_of prev curr ->
  trajectory_body geodesic prev curr = None.
Proof.
  intros H. unfold trajectory_body. cbv zeta.
  destruct H as [H | H].
  - now rewrite (Rleb_true _ _ H).
  - rewrite (Rltb_true _ _ H). now rewrite orb_true_r.
Qed.

Lemma trajectory_emits prev curr :
  0 < dt_of prev curr <= 300 ->
  0 < (pt_altitude prev + pt_altitude curr) / 2 ->
  trajectory_body geodesic prev curr =
  Some (mkWindVector ((pt_altitude prev + pt_altitude curr) / 2)
          (meters (geodesic (position prev) (position curr)) / dt_of prev curr)
          (_calculate_bearing (position prev) (position curr))
          (dt_of prev curr)
          (meters (geodesic (position prev) (position curr)))).
Proof.
  intros [Hlo Hhi] Halt. unfold trajectory_body. cbv zeta.
  rewrite (Rleb_false _ _ Hlo), (Rltb_false _ _ Hhi). cbn [orb].
  now rewrite (Rltb_true _ _ Halt).
Qed.

Lemma trajectory_emitted_dt prev curr v :
  trajectory_body geodesic prev curr = Some v ->
  0 < dt_of prev curr <= 300 /\ wv_dt v = dt_of prev curr /\
  wv_wind_speed v = meters (geodesic (position prev) (position curr)) / dt_of prev curr.
Proof.
  unfold trajectory_body. cbv zeta.
  destruct (Rleb (dt_of prev curr) 0) eqn:E1; [discriminate|].
  destruct (Rltb 300 (dt_of prev curr)) eqn:E2; [discriminate|].
  cbn [orb].
  destruct (Rltb 0 ((pt_altitude prev + pt_altitude curr) / 2)); [|discriminate].
  intros H. injection H as <-. cbn.
  apply Rleb_false_iff in E1. apply Rltb_false_iff in E2. repeat split; lra.
Qed.

Lemma chart_rejects_dt prev curr :
  dt_of prev curr <= 0 \/ 300 < dt_of prev curr ->
  chart_body geodesic prev curr = None.
Proof.
  intros H. unfold chart_body. cbv zeta.
  destruct H as [H | H].
  - now rewrite (Rleb_true _ _ H).
  - rewrite (Rltb_true _ _ H). now rewrite orb_true_r.
Qed.

Lemma chart_rejects_slow prev curr :
  meters (geodesic (position prev) (position curr)) / dt_of prev curr <= 1 ->
  chart_body geodesic prev curr = None.
Proof.
  intros H. unfold chart_body. cbv zeta.
  destruct (Rleb (dt_of prev curr) 0 || Rltb 300 (dt_of prev curr)); [reflexivity|].
  unfold position in H. now rewrite (Rltb_false _ _ H).
Qed.

Lemma chart_emitted prev curr v :
  chart_body geodesic prev curr = Some v ->
  0 < dt_of prev curr <= 300 /\
  1 < cv_wind_speed v /\
  cv_wind_speed v = meters (geodesic (position prev) (position curr)) / dt_of prev curr /\
  cv_wind_direction v = _calculate_bearing (position prev) (position curr).
Proof.
  unfold chart_body. cbv zeta.
  destruct (Rleb (dt_of prev curr) 0) eqn:E1; [discriminate|].
  destruct (Rltb 300 (dt_of prev curr)) eqn:E2; [discriminate|].
  cbn [orb].
  match goal with |- context [Rltb 1 ?s] => destruct (Rltb 1 s) eqn:E3 end; [|discriminate].
  intros H. injection H as <-. cbn.
  apply Rleb_false_iff in E1. apply Rltb_false_iff in E2. apply Rltb_spec in E3.
  split; [lra|]. split; [exact E3|]. split; reflexivity.
Qed.

Lemma chart_emits prev curr :
  0 < dt_of prev curr <= 300 ->
  1 < meters (geodesic (position prev) (position curr)) / dt_of prev curr ->
  exists v, chart_body geodesic prev curr = Some v.
Proof.
  intros [Hlo Hhi] Hs. unfold chart_body. cbv zeta.
  rewrite (Rleb_false _ _ Hlo), (Rltb_false _ _ Hhi). cbn [orb].
  unfold position in Hs. rewrite (Rltb_true _ _ Hs). eauto.
Qed.

Lemma profile_rejects prev curr :
  dt_of prev curr <= 0 -> profile_body geodesic prev curr = None.
Proof.
  intros H. unfold profile_body. cbv zeta. now rewrite (Rleb_true _ _ H).
Qed.

(** No upper bound on the gap and no lower bound on the speed. *)
Lemma profile_emits prev curr :
  0 < dt_of prev curr ->
  profile_body geodesic prev curr =
  Some (mkRawVector (pt_altitude curr)
          (kilometers (geodesic (position prev) (position curr))
           / (dt_of prev curr / 3600))
          (py_mod (_calculate_bearing (position prev) (position curr) + 180) 360)
          (pt_timestamp curr)).
Proof.
  intros H. unfold profile_body. cbv zeta. now rewrite (Rleb_false _ _ H).
Qed.

(** *** Frames *)

Lemma trajectory_frame_valid aircraft_data p :
  In p (trajectory_frame aircraft_data) ->
  pt_latitude p <> 0 /\ pt_longitude p <> 0 /\ 0 < pt_altitude p.
Proof.
  unfold trajectory_frame, keep_positive_altitude, drop_zero_longitude,
    drop_zero_latitude.
  rewrite !filter_In. intros [[[_ Hlat] Hlon] Halt].
  apply Rltb_spec in Halt.
  split; [|split; [|exact Halt]]; intros E.
  - rewrite E, Reqb_true in Hlat by reflexivity. discriminate.
  - rewrite E, Reqb_true in Hlon by reflexivity. discriminate.
Qed.

Lemma profile_frame_valid src aircraft_data p :
  In p (profile_frame src aircraft_data) ->
  pt_latitude p <> 0 /\ pt_longitude p <> 0 /\ 0 < pt_altitude p.
Proof.
  unfold profile_frame, sort_values, keep_positive_altitude, drop_zero_longitude,
    drop_zero_latitude. cbv zeta.
  rewrite Sorting.sort_in, !filter_In. intros [[[_ Hlat] Hlon] Halt].
  apply Rltb_spec in Halt.
  split; [|split; [|exact Halt]]; intros E.
  - rewrite E, Reqb_true in Hlat by reflexivity. discriminate.
  - rewrite E, Reqb_true in Hlon by reflexivity. discriminate.
Qed.

(** In a sorted frame no gap is negative: a pair is rejected by [dt <= 0]
    only when its two timestamps coincide. *)
Lemma sorted_gap_nonneg df prev curr :
  In (prev, curr) (consecutive (sort_values df)) -> 0 <= dt_of prev curr.
Proof.
  intros H. unfold sort_values in H.
  pose proof (Sorting.ascending_pairs pt_timestamp _ prev curr
                (Sorting.sort_ascending pt_timestamp df) H).
  lra.
Qed.

End Differencer.

(** ** Worked runs *)

(** Decide the comparisons of a goal whose operands are numerals. *)
Ltac rcmp :=
  repeat match goal with
  | |- context [Rleb ?a ?b] =>
      first [rewrite (Rleb_true a b) by lra | rewrite (Rleb_false a b) by lra]
  | |- context [Rltb ?a ?b] =>
      first [rewrite (Rltb_true a b) by lra | rewrite (Rltb_false a b) by lra]
  | |- context [Reqb ?a ?b] =>
      first [rewrite (Reqb_true a b) by lra | rewrite (Reqb_false a b) by lra]
  end.

Ltac run :=
  repeat (progress
            (cbn -[IZR Rminus Rdiv Rleb Rltb Reqb py_mod _calculate_bearing
                   _bin_wind_data];
             rcmp)).

Module Runs.

Lemma sparse_rows :
  get_aircraft_data sparse_db 2000 "abc123" 1 = aircraft_data sparse_db /\
  get_aircraft_data_since_session sparse_db "abc123" = aircraft_data sparse_db.
Proof.
  unfold get_aircraft_data, get_aircraft_data_since_session, sparse_db,
    session_of, report_at.
  split; run; reflexivity.
Qed.

Lemma sparse_frames :
  sort_values (trajectory_frame (aircraft_data sparse_db)) = sparse_points /\
  profile_frame "altitude" (aircraft_data sparse_db) = sparse_points.
Proof.
  unfold profile_frame, trajectory_frame, select_altitude_col, sort_values,
    keep_positive_altitude, drop_zero_longitude, drop_zero_latitude, dropna,
    sparse_db, report_at, sparse_points.
  split; run; reflexivity.
Qed.

Lemma hover_rows :
  get_aircraft_data hover_db 2000 "abc123" 1 = aircraft_data hover_db.
Proof.
  unfold get_aircraft_data, hover_db, session_of, report_at.
  run; reflexivity.
Qed.

Lemma hover_frame :
  sort_values (trajectory_frame (aircraft_data hover_db)) = hover_points.
Proof.
  unfold trajectory_frame, sort_values, keep_positive_altitude,
    drop_zero_longitude, drop_zero_latitude, dropna, hover_db, report_at,
    hover_points.
  run; reflexivity.
Qed.

End Runs.

(** ** Rejection by time gap and by speed *)

Module Rejection.

(** The gap rule of [calculate_wind_from_trajectory], pair by pair over the
    sorted frame: no vector for [dt <= 0] or [dt > 300], one vector
    otherwise. *)
Lemma trajectory_gap_rule geodesic aircraft_data prev curr :
  In (prev, curr) (consecutive (sort_values (trajectory_frame aircraft_data))) ->
  let dt := pt_timestamp curr - pt_timestamp prev in
  (dt <= 0 \/ 300 < dt -> trajectory_body geodesic prev curr = None) /\
  (0 < dt <= 300 ->
   exists v, trajectory_body geodesic prev curr = Some v /\ wv_dt v = dt).
Proof.
  intros Hin dt. split.
  - apply trajectory_rejects.
  - intros Hdt.
    destruct (Pairwise.consecutive_members _ _ _ Hin) as [Hp Hc].
    unfold sort_values in Hp, Hc. rewrite Sorting.sort_in in Hp, Hc.
    apply trajectory_frame_valid in Hp. apply trajectory_frame_valid in Hc.
    rewrite trajectory_emits; [eauto | exact Hdt | lra].
Qed.

(** The same rule in the loop of [create_wind_profile]. *)
Lemma chart_gap_rule geodesic prev curr v :
  chart_body geodesic prev curr = Some v ->
  0 < pt_timestamp curr - pt_timestamp prev <= 300.
Proof. intros H. now apply chart_emitted in H. Qed.

(** C2, at the failing pair.  Two valid reports 301 seconds apart: the loops
    of [calculate_wind_from_trajectory] and [create_wind_profile] skip the
    pair, the loop of [calculate_wind_profile] emits a vector for it. *)
Theorem reciprocal_mode_keeps_pair_beyond_cap (geodesic : R * R -> R * R -> R) :
  let prev := mkPoint 1000 42 (-71) 15000 in
  let curr := mkPoint 1301 42 (-71) 15000 in
  trajectory_body geodesic prev curr = None /\
  chart_body geodesic prev curr = None /\
  exists v, profile_body geodesic prev curr = Some v /\
            rv_timestamp v = 1301 /\ rv_altitude v = 15000.
Proof.
  intros prev curr. split; [|split].
  - apply trajectory_rejects. right. unfold prev, curr. cbn. lra.
  - apply chart_rejects_dt. right. unfold prev, curr. cbn. lra.
  - rewrite profile_emits by (unfold prev, curr; cbn; lra).
    eexists. split; [reflexivity|]. split; reflexivity.
Qed.

(** *** Insufficient data *)

Lemma trajectory_empty_when_insufficient geodesic bin_size min_samples db now icao h :
  let rows := get_aircraft_data db now icao h in
  (length rows < 2)%nat \/
  (length (trajectory_frame rows) < 2)%nat \/
  (forall prev curr,
      In (prev, curr) (consecutive (sort_values (trajectory_frame rows))) ->
      pt_timestamp curr - pt_timestamp prev <= 0 \/
      300 < pt_timestamp curr - pt_timestamp prev) ->
  calculate_wind_from_trajectory geodesic bin_size min_samples db now icao h = ([], db).
Proof.
  intros rows H. unfold calculate_wind_from_trajectory. fold rows.
  destruct (Nat.ltb_spec (length rows) 2) as [|H1]; [reflexivity|].
  destruct (Nat.ltb_spec (length (trajectory_frame rows)) 2) as [|H2]; [reflexivity|].
  destruct H as [H | [H | H]]; [lia | lia |].
  rewrite Pairwise.nothing_emitted; [reflexivity|].
  intros prev curr Hin. apply trajectory_rejects. now apply H.
Qed.

Lemma profile_empty_when_insufficient geodesic db now icao src tf km ref hist :
  let rows :=
    match hist with
    | Some hours => get_aircraft_data db now icao hours
    | None => get_aircraft_data_since_session db icao
    end in
  let kept :=
    apply_distance_filter geodesic (resolve_reference_position db km ref) km
      (apply_time_filter now tf rows) in
  (length rows < 2)%nat \/
  (length kept < 2)%nat \/
  (length (profile_frame src kept) < 2)%nat \/
  (forall prev curr,
      In (prev, curr) (consecutive (profile_frame src kept)) ->
      pt_timestamp curr - pt_timestamp prev <= 0) ->
  calculate_wind_profile geodesic db now icao src tf km ref hist = [].
Proof.
  intros rows kept H. unfold calculate_wind_profile. fold rows.
  destruct (Nat.ltb_spec (length rows) 2) as [|H1]; [reflexivity|].
  fold kept.
  destruct (Nat.ltb_spec (length kept) 2) as [|H2]; [reflexivity|].
  destruct (Nat.ltb_spec (length (profile_frame src kept)) 2) as [|H3]; [reflexivity|].
  destruct H as [H | [H | [H | H]]]; [lia | lia | lia |].
  rewrite Pairwise.nothing_emitted; [reflexivity|].
  intros prev curr Hin. apply profile_rejects. now apply H.
Qed.

(** C9, at the failing input.  On two valid reports 301 seconds apart every
    consecutive pair exceeds the 300-second cap: [calculate_wind_from_trajectory]
    returns the empty dict, [calculate_wind_profile] returns one entry. *)
Theorem sparse_reports_give_profile_entry (geodesic : R * R -> R * R -> R) :
  fst (calculate_wind_from_trajectory geodesic 500 3 sparse_db 2000 "abc123" 1) = [] /\
  exists e,
    calculate_wind_profile geodesic sparse_db 2000 "abc123" "altitude"
      None None None None = [e] /\
    pe_timestamp e = 1301 /\ pe_sample_count e = 1%nat.
Proof.
  destruct Runs.sparse_rows as [Hrows Hsession].
  destruct Runs.sparse_frames as [Hframe Hprofile].
  split.
  - rewrite trajectory_empty_when_insufficient; [reflexivity|].
    right. right. rewrite Hrows, Hframe.
    intros prev curr [Heq | []]. injection Heq as <- <-. right. cbn. lra.
  - unfold calculate_wind_profile. rewrite Hsession.
    cbn [apply_time_filter resolve_reference_position apply_distance_filter].
    change (length (aircraft_data sparse_db) <? 2)%nat with false. cbv iota.
    rewrite Hprofile.
    change (length sparse_points <? 2)%nat with false. cbv iota.
    unfold sparse_points. cbn [pairwise].
    rewrite profile_emits by (cbn; lra).
    eexists. split; [reflexivity|]. split; reflexivity.
Qed.

End Rejection.

Module Threshold.

Import Runs.

Lemma hover_differenced :
  pairwise (trajectory_body hover_distance) hover_points = hover_vectors.
Proof.
  unfold hover_points. cbn [pairwise].
  rewrite !trajectory_emits by (cbn; lra).
  reflexivity.
Qed.

Lemma hover_speeds v : In v hover_vectors -> wv_wind_speed v = 0.
Proof.
  intros [<- | [<- | [<- | []]]]; cbn; unfold meters; field.
Qed.

Lemma hover_members : members 500 15000 hover_vectors = hover_vectors.
Proof.
  unfold members, hover_vectors, hover_vector. cbn [filter wv_altitude].
  rewrite !(Aggregation.spec_bin_between 500 _ 30) by (try lia; lra).
  reflexivity.
Qed.

Lemma hover_result :
  fst (calculate_wind_from_trajectory hover_distance 500 3 hover_db 2000 "abc123" 1)
  = _bin_wind_data 500 3 hover_vectors.
Proof.
  unfold calculate_wind_from_trajectory. rewrite hover_rows.
  change (length (aircraft_data hover_db) <? 2)%nat with false. cbv iota zeta.
  assert (Hlen : length (trajectory_frame (aircraft_data hover_db)) = 4%nat).
  { rewrite <- (Sorting.sort_length pt_timestamp). fold (sort_values (trajectory_frame (aircraft_data hover_db))).
    now rewrite hover_frame. }
  rewrite Hlen. change (4 <? 2)%nat with false. cbv iota.
  rewrite hover_frame, hover_differenced. reflexivity.
Qed.

(** Counterexample to C3 as stated: for a balloon that does not move, every
    pair has speed 0, below the threshold of 1 m/s, and
    [calculate_wind_from_trajectory] still emits the three vectors and
    aggregates them into bin 15000. *)
Lemma trajectory_keeps_motionless_pairs :
  pairwise (trajectory_body hover_distance)
    (sort_values (trajectory_frame (get_aircraft_data hover_db 2000 "abc123" 1)))
  = hover_vectors /\
  Forall (fun v => wv_wind_speed v < 1) hover_vectors /\
  exists rec,
    dict_get 15000
      (fst (calculate_wind_from_trajectory hover_distance 500 3 hover_db 2000 "abc123" 1))
    = Some rec /\ sample_count rec = 3%nat.
Proof.
  split; [|split].
  - rewrite hover_rows, hover_frame. exact hover_differenced.
  - apply Forall_forall. intros v Hv. rewrite (hover_speeds v Hv). lra.
  - rewrite hover_result, bin_wind_data_get, hover_members.
    eexists. split; reflexivity.
Qed.

(** C3, amended.  The speed threshold belongs to the loop of
    [create_wind_profile]: a pair whose speed does not exceed 1 m/s gives no
    vector there, and every vector that function plots is faster than
    1 m/s.  [calculate_wind_profile] (reciprocal mode) emits a vector for
    every pair with a positive gap, and [calculate_wind_from_trajectory] for
    every pair with a gap in (0, 300] and a positive mean altitude, whatever
    the speed. *)
Theorem speed_threshold_is_the_charts (geodesic : R * R -> R * R -> R) :
  (forall prev curr,
      meters (geodesic (position prev) (position curr))
      / (pt_timestamp curr - pt_timestamp prev) <= 1 ->
      chart_body geodesic prev curr = None) /\
  (forall db now icao src hours km v,
      In v (create_wind_profile geodesic db now icao src hours km) ->
      1 < cv_wind_speed v) /\
  (forall prev curr,
      0 < pt_timestamp curr - pt_timestamp prev ->
      exists v, profile_body geodesic prev curr = Some v /\
                rv_wind_speed v =
                  kilometers (geodesic (position prev) (position curr))
                  / ((pt_timestamp curr - pt_timestamp prev) / 3600)) /\
  (forall prev curr,
      0 < pt_timestamp curr - pt_timestamp prev <= 300 ->
      0 < (pt_altitude prev + pt_altitude curr) / 2 ->
      exists v, trajectory_body geodesic prev curr = Some v /\
                wv_wind_speed v =
                  meters (geodesic (position prev) (position curr))
                  / (pt_timestamp curr - pt_timestamp prev)).
Proof.
  split; [|split; [|split]].
  - apply chart_rejects_slow.
  - intros db now icao src hours km v Hin.
    unfold create_wind_profile in Hin.
    destruct (length (get_aircraft_data_since_session db icao) <? 2)%nat; [contradiction|].
    cbv zeta in Hin.
    match type of Hin with
    | In _ (if ?c then _ else _) => destruct c; [contradiction|]
    end.
    apply Pairwise.in_emitted in Hin. destruct Hin as [prev [curr [_ Hb]]].
    now apply chart_emitted in Hb.
  - intros prev curr Hdt. rewrite profile_emits by exact Hdt.
    eexists. split; reflexivity.
  - intros prev curr Hdt Halt. rewrite trajectory_emits by assumption.
    eexists. split; reflexivity.
Qed.

Lemma speed_threshold_is_the_charts_witness :
  chart_body hover_distance (mkPoint 1000 42 (-71) 15200) (mkPoint 1060 42 (-71) 15200)
  = None.
Proof.
  apply (proj1 (speed_threshold_is_the_charts hover_distance)).
  cbn. unfold meters, hover_distance. lra.
Defined.

End Threshold.

(** ** Filters: what they keep *)

Module Filters.

Lemma fetched_rows db now icao h r :
  In r (get_aircraft_data db now icao h) ->
  In r (aircraft_data db) /\ icao24 r = icao.
Proof.
  unfold get_aircraft_data. cbv zeta. rewrite Sorting.sort_in, filter_In.
  intros [Hin Hc]. apply andb_prop in Hc. destruct Hc as [Hc _].
  apply String.eqb_eq in Hc. auto.
Qed.

Lemma session_rows db icao r :
  In r (get_aircraft_data_since_session db icao) ->
  In r (aircraft_data db) /\ icao24 r = icao.
Proof.
  unfold get_aircraft_data_since_session.
  destruct (truthy (session_start_time db icao)); [|contradiction].
  destruct (session_start_time db icao) as [start|]; [|contradiction].
  rewrite Sorting.sort_in, filter_In.
  intros [Hin Hc]. apply andb_prop in Hc. destruct Hc as [Hc _].
  apply String.eqb_eq in Hc. auto.
Qed.

Lemma time_filter_keeps now tf data r :
  In r (apply_time_filter now tf data) -> In r data.
Proof.
  unfold apply_time_filter. destruct tf as [s|]; [|auto].
  destruct (Rltb 0 s); [|auto]. cbv zeta. rewrite filter_In. tauto.
Qed.

Lemma distance_filter_keeps geodesic ref km data r :
  In r (apply_distance_filter geodesic ref km data) -> In r data.
Proof.
  unfold apply_distance_filter. destruct ref as [pos|]; [|auto].
  destruct km as [d|]; [|auto].
  destruct (truthy (Some d) && Rltb 0 d); [|auto]. rewrite filter_In. tauto.
Qed.

End Filters.

(** ** Altitude-source selection *)

Module AltitudeSource.

Lemma other_name_selects_barometric src data :
  src <> "geo_altitude"%string -> select_altitude_col src data = col_altitude.
Proof.
  intros H. unfold select_altitude_col.
  apply String.eqb_neq in H. now rewrite H.
Qed.

Lemma no_geo_column data :
  (forall r, In r data -> geo_altitude r = None) ->
  has_geo_altitude_column data = false.
Proof.
  intros H. unfold has_geo_altitude_column.
  destruct (existsb _ data) eqn:E; [|reflexivity].
  apply existsb_exists in E. destruct E as [r [Hin Hr]].
  rewrite (H r Hin) in Hr. discriminate.
Qed.

Lemma missing_field_selects_barometric src data :
  (forall r, In r data -> geo_altitude r = None) ->
  select_altitude_col src data = col_altitude.
Proof.
  intros H. unfold select_altitude_col.
  rewrite (no_geo_column data H). now rewrite andb_false_r.
Qed.

Lemma barometric_name_selects_barometric data :
  select_altitude_col "altitude" data = col_altitude.
Proof. reflexivity. Qed.

(** The frame depends on the source name only through the selected column. *)
Lemma same_column_same_frame src1 src2 data :
  select_altitude_col src1 data = select_altitude_col src2 data ->
  profile_frame src1 data = profile_frame src2 data.
Proof. intros H. unfold profile_frame. cbv zeta. now rewrite H. Qed.

(** The same selection in [create_wind_profile]. *)
Lemma chart_other_name geodesic db now icao src hours km :
  src <> "geo_altitude"%string ->
  create_wind_profile geodesic db now icao src hours km =
  create_wind_profile geodesic db now icao "altitude" hours km.
Proof.
  intros H. unfold create_wind_profile.
  now rewrite (other_name_selects_barometric src _ H).
Qed.

Lemma other_name_same_result
  (geodesic : R * R -> R * R -> R) db now icao tf km ref hist src :
  src <> "geo_altitude"%string ->
  calculate_wind_profile geodesic db now icao src tf km ref hist =
  calculate_wind_profile geodesic db now icao "altitude" tf km ref hist.
Proof.
  intros Hsrc. unfold calculate_wind_profile. cbv zeta.
  match goal with |- (if ?c then _ else _) = _ => destruct c; [reflexivity|] end.
  match goal with |- (if ?c then _ else _) = _ => destruct c; [reflexivity|] end.
  rewrite (same_column_same_frame src "altitude"); [reflexivity|].
  now rewrite other_name_selects_barometric.
Qed.

Lemma missing_field_same_result
  (geodesic : R * R -> R * R -> R) db now icao tf km ref hist :
  (forall r, In r (aircraft_data db) -> icao24 r = icao -> geo_altitude r = None) ->
  calculate_wind_profile geodesic db now icao "geo_altitude" tf km ref hist =
  calculate_wind_profile geodesic db now icao "altitude" tf km ref hist.
Proof.
  intros Hnone. unfold calculate_wind_profile. cbv zeta.
  match goal with |- (if ?c then _ else _) = _ => destruct c; [reflexivity|] end.
  match goal with |- (if ?c then _ else _) = _ => destruct c; [reflexivity|] end.
  rewrite (same_column_same_frame "geo_altitude" "altitude"); [reflexivity|].
  rewrite barometric_name_selects_barometric.
  apply missing_field_selects_barometric.
  intros r Hr.
  apply Filters.distance_filter_keeps, Filters.time_filter_keeps in Hr.
  destruct hist as [hours|].
  - apply Filters.fetched_rows in Hr. destruct Hr. auto.
  - apply Filters.session_rows in Hr. destruct Hr. auto.
Qed.

(** C10.  In [calculate_wind_profile] every source name other than
    ['geo_altitude'] selects the barometric column, and so does
    ['geo_altitude'] when no report of the aircraft carries a [geo_altitude]
    field: in both cases the call returns what it returns for ['altitude'].
    The choice of name has no failing path and by itself never empties
    the result. *)
Theorem altitude_source_falls_back_to_barometric
  (geodesic : R * R -> R * R -> R) db now icao tf km ref hist :
  (forall src data, src <> "geo_altitude"%string ->
      select_altitude_col src data = col_altitude) /\
  (forall src, src <> "geo_altitude"%string ->
      calculate_wind_profile geodesic db now icao src tf km ref hist =
      calculate_wind_profile geodesic db now icao "altitude" tf km ref hist) /\
  ((forall r, In r (aircraft_data db) -> icao24 r = icao -> geo_altitude r = None) ->
      calculate_wind_profile geodesic db now icao "geo_altitude" tf km ref hist =
      calculate_wind_profile geodesic db now icao "altitude" tf km ref hist).
Proof.
  split; [|split].
  - intros src data. apply other_name_selects_barometric.
  - intros src. apply other_name_same_result.
  - apply missing_field_same_result.
Qed.

Lemma altitude_source_falls_back_to_barometric_witness :
  calculate_wind_profile hover_distance legacy_db 2000 "abc123" "geo_altitude"
    None None None None =
  calculate_wind_profile hover_distance legacy_db 2000 "abc123" "altitude"
    None None None None.
Proof.
  apply (proj2 (proj2 (altitude_source_falls_back_to_barometric hover_distance
                         legacy_db 2000 "abc123" None None None None))).
  intros r [<- | [<- | []]] _; reflexivity.
Defined.

(** The fallback run is not empty: it yields the entry of the one pair. *)
Lemma legacy_run_has_entry (geodesic : R * R -> R * R -> R) src :
  src <> "geo_altitude"%string ->
  exists e,
    calculate_wind_profile geodesic legacy_db 2000 "abc123" src None None None None
    = [e] /\ pe_altitude_bin e = 15000.
Proof.
  intros Hsrc.
  rewrite (other_name_same_result geodesic legacy_db 2000 "abc123"
             None None None None src Hsrc).
  unfold calculate_wind_profile, get_aircraft_data_since_session, legacy_db,
    session_of.
  run.
  unfold profile_frame, select_altitude_col, sort_values, keep_positive_altitude,
    drop_zero_longitude, drop_zero_latitude, dropna.
  run. unfold profile_body. run.
  eexists. split; reflexivity.
Qed.

End AltitudeSource.

(** ** Distance filter and its reference position *)

Module Reference.

Lemma max_by_timestamp_spec best rest :
  In (max_by_timestamp best rest) (best :: rest) /\
  forall r, In r (best :: rest) ->
            timestamp r <= timestamp (max_by_timestamp best rest).
Proof.
  revert best. induction rest as [|x t IH]; intros best.
  - cbn. split; [now left|]. intros r [<- | []]. lra.
  - cbn [max_by_timestamp].
    destruct (Rltb (timestamp best) (timestamp x)) eqn:E.
    + apply Rltb_spec in E. destruct (IH x) as [Hin Hmax]. split.
      * right. exact Hin.
      * intros r [<- | Hr]; [|now apply Hmax].
        specialize (Hmax x (or_introl eq_refl)). lra.
    + apply Rltb_false_iff in E. destruct (IH best) as [Hin Hmax]. split.
      * destruct Hin as [<- | Hin]; [now left | right; now right].
      * intros r [<- | [<- | Hr]].
        -- apply Hmax. now left.
        -- specialize (Hmax best (or_introl eq_refl)). lra.
        -- apply Hmax. now right.
Qed.

Lemma truthy_some x : truthy x = true <-> exists v, x = Some v /\ v <> 0.
Proof.
  unfold truthy. destruct x as [v|].
  - destruct (Reqb v 0) eqn:E; cbn.
    + apply Reqb_spec in E. split; [discriminate|]. intros [w [Hw Hne]].
      injection Hw as <-. contradiction.
    + split; [|reflexivity]. intros _. exists v. split; [reflexivity|].
      intros Hv. rewrite Hv, Reqb_true in E by reflexivity. discriminate.
  - split; [discriminate|]. intros [v [H _]]. discriminate.
Qed.

Section WithGeodesic.

Variable geodesic : R * R -> R * R -> R.

(** Without a positive distance and a reference position nothing is removed. *)
Lemma filter_is_noop ref km data :
  ref = None \/ km = None \/ (exists d, km = Some d /\ d <= 0) ->
  apply_distance_filter geodesic ref km data = data.
Proof.
  intros H. unfold apply_distance_filter.
  destruct ref as [pos|]; [|reflexivity].
  destruct km as [d|]; [|reflexivity].
  destruct H as [H | [H | [d' [Hd Hle]]]]; try discriminate.
  injection Hd as <-. rewrite (Rltb_false 0 d Hle). now rewrite andb_false_r.
Qed.

Lemma no_reference_without_both db km ref_icao :
  km = None \/ (exists d, km = Some d /\ d <= 0) \/
  ref_icao = None \/ ref_icao = Some ""%string ->
  resolve_reference_position db km ref_icao = None.
Proof.
  intros H. unfold resolve_reference_position.
  destruct km as [d|]; [|reflexivity].
  destruct ref_icao as [s|]; [|reflexivity].
  destruct H as [H | [[d' [Hd Hle]] | [H | H]]]; try discriminate.
  - injection Hd as <-. now rewrite (Rltb_false 0 d Hle).
  - injection H as ->. cbn. now rewrite andb_false_r.
Qed.

(** A resolved reference is the position of the latest report of the
    reference aircraft's own session rows. *)
Lemma resolved_reference db d ref_icao pos :
  resolve_reference_position db (Some d) (Some ref_icao) = Some pos ->
  0 < d /\ ref_icao <> ""%string /\
  exists latest,
    In latest (get_aircraft_data_since_session db ref_icao) /\
    (forall r, In r (get_aircraft_data_since_session db ref_icao) ->
               timestamp r <= timestamp latest) /\
    latitude latest = Some (fst pos) /\ longitude latest = Some (snd pos) /\
    fst pos <> 0 /\ snd pos <> 0.
Proof.
  unfold resolve_reference_position.
  destruct (Rltb 0 d) eqn:Ed; [|discriminate].
  destruct (truthy_str (Some ref_icao)) eqn:Es; [|discriminate].
  cbn [andb].
  destruct (get_aircraft_data_since_session db ref_icao) as [|first rest]; [discriminate|].
  cbv zeta.
  destruct (max_by_timestamp_spec first rest) as [Hin Hmax].
  set (latest := max_by_timestamp first rest) in *.
  destruct (truthy (latitude latest)) eqn:Elat; [|discriminate].
  destruct (truthy (longitude latest)) eqn:Elon; [|discriminate].
  cbn [andb].
  apply truthy_some in Elat. destruct Elat as [lat [Hlat Hlat0]].
  apply truthy_some in Elon. destruct Elon as [lon [Hlon Hlon0]].
  rewrite Hlat, Hlon. intros H. injection H as <-.
  apply Rltb_spec in Ed.
  split; [exact Ed|]. split.
  - intros ->. discriminate.
  - exists latest. cbn [fst snd]. auto 10.
Qed.

Lemma latest_report_resolves db d ref_icao first rest lat lon :
  0 < d -> ref_icao <> ""%string ->
  get_aircraft_data_since_session db ref_icao = first :: rest ->
  latitude (max_by_timestamp first rest) = Some lat ->
  longitude (max_by_timestamp first rest) = Some lon ->
  lat <> 0 -> lon <> 0 ->
  resolve_reference_position db (Some d) (Some ref_icao) = Some (lat, lon).
Proof.
  intros Hd Hs Hrows Hlat Hlon Hlat0 Hlon0. unfold resolve_reference_position.
  rewrite (Rltb_true 0 d Hd), Hrows.
  assert (Es : truthy_str (Some ref_icao) = true).
  { destruct ref_icao; [contradiction | reflexivity]. }
  rewrite Es. cbn [andb]. cbv zeta. rewrite Hlat, Hlon.
  cbn [truthy]. rewrite (Reqb_false lat 0 Hlat0), (Reqb_false lon 0 Hlon0).
  reflexivity.
Qed.

(** The report that no other report equals or exceeds in time is the one
    [max] returns. *)
Lemma sole_latest_is_max first rest latest :
  In latest (first :: rest) ->
  (forall r, In r (first :: rest) -> timestamp latest <= timestamp r -> r = latest) ->
  max_by_timestamp first rest = latest.
Proof.
  intros Hin Hsole. destruct (max_by_timestamp_spec first rest) as [Hm Hmax].
  apply Hsole; [exact Hm | now apply Hmax].
Qed.

Lemma latest_valid_resolves db d ref_icao latest lat lon :
  0 < d -> ref_icao <> ""%string ->
  In latest (get_aircraft_data_since_session db ref_icao) ->
  (forall r, In r (get_aircraft_data_since_session db ref_icao) ->
             timestamp latest <= timestamp r -> r = latest) ->
  latitude latest = Some lat -> longitude latest = Some lon ->
  lat <> 0 -> lon <> 0 ->
  resolve_reference_position db (Some d) (Some ref_icao) = Some (lat, lon).
Proof.
  intros Hd Hs Hin Hsole Hlat Hlon Hlat0 Hlon0.
  destruct (get_aircraft_data_since_session db ref_icao) as [|first rest] eqn:E;
    [contradiction|].
  apply (latest_report_resolves db d ref_icao first rest lat lon); auto;
    now rewrite (sole_latest_is_max first rest latest Hin Hsole).
Qed.

Lemma latest_invalid_unresolved db d ref_icao latest :
  In latest (get_aircraft_data_since_session db ref_icao) ->
  (forall r, In r (get_aircraft_data_since_session db ref_icao) ->
             timestamp latest <= timestamp r -> r = latest) ->
  latitude latest = None \/ latitude latest = Some 0 \/
  longitude latest = None \/ longitude latest = Some 0 ->
  resolve_reference_position db (Some d) (Some ref_icao) = None.
Proof.
  intros Hin Hsole Hbad. unfold resolve_reference_position.
  destruct (Rltb 0 d && truthy_str (Some ref_icao)); [|reflexivity].
  destruct (get_aircraft_data_since_session db ref_icao) as [|first rest] eqn:E;
    [reflexivity|].
  cbv zeta. rewrite (sole_latest_is_max first rest latest Hin Hsole).
  destruct Hbad as [H | [H | [H | H]]]; rewrite H; cbn [truthy];
    rewrite ?Reqb_true by reflexivity; cbn [negb andb];
    rewrite ?andb_false_r; try reflexivity;
    now destruct (latitude latest), (longitude latest).
Qed.

(** With a reference and a positive distance, the filter keeps exactly the
    reports that have a position and lie within the distance. *)
Lemma filter_keeps_within pos d data point :
  0 < d ->
  (In point (apply_distance_filter geodesic (Some pos) (Some d) data) <->
   In point data /\
   exists lat lon,
     latitude point = Some lat /\ longitude point = Some lon /\
     lat <> 0 /\ lon <> 0 /\ geodesic pos (lat, lon) <= d).
Proof.
  intros Hd. unfold apply_distance_filter.
  assert (Ht : truthy (Some d) = true).
  { apply truthy_some. exists d. split; [reflexivity | lra]. }
  rewrite Ht, (Rltb_true 0 d Hd). cbn [andb].
  rewrite filter_In. split.
  - intros [Hin Hc]. split; [exact Hin|].
    apply andb_prop in Hc. destruct Hc as [Hc Hdist].
    apply andb_prop in Hc. destruct Hc as [Hlat Hlon].
    apply truthy_some in Hlat. destruct Hlat as [lat [Hlat Hlat0]].
    apply truthy_some in Hlon. destruct Hlon as [lon [Hlon Hlon0]].
    rewrite Hlat, Hlon in Hdist. apply Rleb_spec in Hdist.
    exists lat, lon. auto 10.
  - intros [Hin [lat [lon [Hlat [Hlon [Hlat0 [Hlon0 Hdist]]]]]]].
    split; [exact Hin|]. rewrite Hlat, Hlon. cbn [truthy].
    rewrite (Reqb_false lat 0 Hlat0), (Reqb_false lon 0 Hlon0). cbn [negb andb].
    now apply Rleb_true.
Qed.

(** A row of the frame comes from a report with its time and position. *)
Lemma frame_origin src data p :
  In p (profile_frame src data) ->
  exists r, In r data /\ timestamp r = pt_timestamp p /\
            latitude r = Some (pt_latitude p) /\
            longitude r = Some (pt_longitude p).
Proof.
  unfold profile_frame, sort_values, keep_positive_altitude, drop_zero_longitude,
    drop_zero_latitude, dropna. cbv zeta.
  rewrite Sorting.sort_in, !filter_In. intros [[[Hp _] _] _].
  apply in_flat_map in Hp. destruct Hp as [r [Hr Hp]]. exists r.
  destruct (latitude r) as [lat|]; [|contradiction].
  destruct (longitude r) as [lon|]; [|contradiction].
  destruct (altitude_cell _ r) as [alt|]; [|contradiction].
  destruct Hp as [<- | []]. cbn. auto.
Qed.

(** Through the whole of [calculate_wind_profile]: with a resolved
    reference, every entry is stamped with a report of the subject that lies
    within the distance of that one position. *)
Lemma entries_within_reference db now icao src tf d ref_icao hist pos e :
  resolve_reference_position db (Some d) (Some ref_icao) = Some pos ->
  In e (calculate_wind_profile geodesic db now icao src tf (Some d) (Some ref_icao)
          hist) ->
  exists point lat lon,
    In point (aircraft_data db) /\ icao24 point = icao /\
    timestamp point = pe_timestamp e /\
    latitude point = Some lat /\ longitude point = Some lon /\
    geodesic pos (lat, lon) <= d.
Proof.
  intros Hres He.
  destruct (resolved_reference db d ref_icao pos Hres) as [Hd _].
  unfold calculate_wind_profile in He. cbv zeta in He. rewrite Hres in He.
  set (rows := match hist with
               | Some hours => get_aircraft_data db now icao hours
               | None => get_aircraft_data_since_session db icao
               end) in *.
  assert (Hrows : forall r, In r rows -> In r (aircraft_data db) /\ icao24 r = icao).
  { intros r Hr. unfold rows in Hr.
    destruct hist; [now apply Filters.fetched_rows in Hr
                   | now apply Filters.session_rows in Hr]. }
  destruct (length rows <? 2)%nat; [contradiction|].
  set (kept := apply_distance_filter geodesic (Some pos) (Some d)
                 (apply_time_filter now tf rows)) in *.
  destruct (length kept <? 2)%nat; [contradiction|].
  destruct (length (profile_frame src kept) <? 2)%nat; [contradiction|].
  apply in_map_iff in He. destruct He as [v [<- Hv]]. cbn [pe_timestamp].
  apply Pairwise.in_emitted in Hv. destruct Hv as [prev [curr [Hin Hb]]].
  destruct (Pairwise.consecutive_members _ _ _ Hin) as [_ Hcurr].
  assert (Hstamp : rv_timestamp v = pt_timestamp curr).
  { unfold profile_body in Hb. cbv zeta in Hb.
    destruct (Rleb (pt_timestamp curr - pt_timestamp prev) 0); [discriminate|].
    now injection Hb as <-. }
  destruct (frame_origin src kept curr Hcurr) as [r [Hr [Ht [Hlat Hlon]]]].
  unfold kept in Hr. apply (filter_keeps_within pos d _ r Hd) in Hr.
  destruct Hr as [Hr [lat [lon [Hlat' [Hlon' [_ [_ Hdist]]]]]]].
  apply Filters.time_filter_keeps in Hr. destruct (Hrows r Hr) as [Hdb Hicao].
  exists r, lat, lon. rewrite Hstamp, <- Ht. auto 10.
Qed.

(** Without a resolved reference the distance changes nothing. *)
Lemma unresolved_reference_is_no_filter db now icao src tf km ref_icao hist :
  resolve_reference_position db km ref_icao = None ->
  calculate_wind_profile geodesic db now icao src tf km ref_icao hist =
  calculate_wind_profile geodesic db now icao src tf None None hist.
Proof.
  intros Hres. unfold calculate_wind_profile. cbv zeta. rewrite Hres.
  reflexivity.
Qed.

(** In [create_wind_profile] the reference is the last row of the subject's
    own frame. *)
Lemma chart_reference_is_own_last_row d df latest row :
  0 < d -> last (map Some df) None = Some latest ->
  (In row (chart_distance_filter geodesic (Some d) df) <->
   In row df /\ geodesic (position latest) (position row) <= d).
Proof.
  intros Hd Hlast. unfold chart_distance_filter.
  rewrite (Rltb_true 0 d Hd).
  destruct df as [|p t]; [discriminate|].
  change (0 <? length (p :: t))%nat with true. cbn [andb].
  rewrite Hlast, filter_In. unfold position, kilometers.
  now rewrite Rleb_spec.
Qed.

End WithGeodesic.

End Reference.

Module DistanceFilter.

Import Runs.

Lemma reference_rows :
  get_aircraft_data_since_session two_balloons "ref001" =
  [ report_at "ref001" 1000 10 20 15000;
    mkReport "ref001" 1100 None None (Some 15000) (Some None) ].
Proof.
  unfold get_aircraft_data_since_session, two_balloons, report_at.
  run; reflexivity.
Qed.

Lemma subject_rows :
  get_aircraft_data_since_session two_balloons "abc123" =
  [ report_at "abc123" 1000 42 (-71) 15000;
    report_at "abc123" 1060 42 (-71) 15000 ].
Proof.
  unfold get_aircraft_data_since_session, two_balloons, report_at.
  run; reflexivity.
Qed.

Lemma reference_unresolved :
  resolve_reference_position two_balloons (Some 1) (Some "ref001"%string) = None.
Proof.
  unfold resolve_reference_position. rewrite reference_rows.
  unfold report_at. run. reflexivity.
Qed.

(** Counterexample to C5 as stated.  The most recent report of "ref001" with
    a position is at (10, 20), but its latest report has none: the code
    resolves no reference, and a distance filter of 1 km against "ref001"
    removes nothing, whatever the distances; the subject at (42, -71) stays.
    Besides, a report on the equator is removed by an active filter even
    when it lies within the distance; and [create_wind_profile], which has
    no reference identifier, measures from the last row of the subject's own
    frame. *)
Lemma latest_reference_report_without_position :
  spec_reference (get_aircraft_data_since_session two_balloons "ref001")
  = Some (10, 20) /\
  resolve_reference_position two_balloons (Some 1) (Some "ref001"%string) = None /\
  (forall geodesic : R * R -> R * R -> R,
      calculate_wind_profile geodesic two_balloons 2000 "abc123" "altitude"
        None (Some 1) (Some "ref001"%string) None =
      calculate_wind_profile geodesic two_balloons 2000 "abc123" "altitude"
        None None None None /\
      length (calculate_wind_profile geodesic two_balloons 2000 "abc123" "altitude"
                None (Some 1) (Some "ref001"%string) None) = 1%nat) /\
  (forall geodesic : R * R -> R * R -> R,
      geodesic (1, 10) (0, 10) <= 1 ->
      apply_distance_filter geodesic (Some (1, 10)) (Some 1)
        [report_at "abc123" 1000 0 10 15000] = []) /\
  (forall (geodesic : R * R -> R * R -> R) row,
      In row (chart_distance_filter geodesic (Some 1) sparse_points) <->
      In row sparse_points /\ geodesic (42, -71) (position row) <= 1).
Proof.
  split; [|split; [|split; [|split]]].
  - rewrite reference_rows. unfold spec_reference, report_at, has_position.
    run. reflexivity.
  - exact reference_unresolved.
  - intros geodesic.
    assert (E : calculate_wind_profile geodesic two_balloons 2000 "abc123" "altitude"
                  None (Some 1) (Some "ref001"%string) None =
                calculate_wind_profile geodesic two_balloons 2000 "abc123" "altitude"
                  None None None None).
    { unfold calculate_wind_profile. rewrite reference_unresolved. reflexivity. }
    split; [exact E|]. rewrite E.
    unfold calculate_wind_profile. rewrite subject_rows. unfold report_at.
    run.
    unfold profile_frame, select_altitude_col, sort_values, keep_positive_altitude,
      drop_zero_longitude, drop_zero_latitude, dropna.
    run. unfold profile_body. run. reflexivity.
  - intros geodesic _. unfold apply_distance_filter, report_at. run. reflexivity.
  - intros geodesic row.
    apply (Reference.chart_reference_is_own_last_row geodesic 1 sparse_points
             (mkPoint 1301 42 (-71) 15000) row); [lra | reflexivity].
Qed.

Lemma convoy_reference_rows :
  get_aircraft_data_since_session convoy "ref001" =
  [ report_at "ref001" 1000 10 20 15000; report_at "ref001" 1100 11 21 15000 ].
Proof.
  unfold get_aircraft_data_since_session, convoy, report_at.
  run; reflexivity.
Qed.

Lemma convoy_subject_rows :
  get_aircraft_data_since_session convoy "abc123" =
  [ report_at "abc123" 1000 11 21 15000; report_at "abc123" 1060 42 (-71) 15000 ].
Proof.
  unfold get_aircraft_data_since_session, convoy, report_at.
  run; reflexivity.
Qed.

(** C5, amended.  Distance filtering removes nothing unless a positive
    distance and a reference position are both present, and no reference is
    resolved unless a positive distance and a non-empty reference identifier
    are both given.  With both given, the reference is resolved from the
    latest report (greatest timestamp) among the reference identifier's own
    session rows: when that report has a non-null, non-zero latitude and
    longitude the reference is its position, and when it has not, no
    reference is resolved and the call returns what it returns without a
    distance; conversely a resolved reference is the position of such a
    latest report.  It depends on the database and the reference identifier
    only.  With it, the filter keeps exactly the reports that have a
    non-null, non-zero latitude and longitude and lie within the distance of
    that one position, and every entry that [calculate_wind_profile]
    returns is stamped with a report of the subject within the distance.
    The filter of [create_wind_profile] measures from the last row of the
    subject's own frame instead. *)
Theorem distance_filter_reference_is_latest_report
  (geodesic : R * R -> R * R -> R) (db : BalloonDatabase) :
  (forall ref km data,
      ref = None \/ km = None \/ (exists d, km = Some d /\ d <= 0) ->
      apply_distance_filter geodesic ref km data = data) /\
  (forall km ref_icao,
      km = None \/ (exists d, km = Some d /\ d <= 0) \/
      ref_icao = None \/ ref_icao = Some ""%string ->
      resolve_reference_position db km ref_icao = None) /\
  (forall d ref_icao pos,
      resolve_reference_position db (Some d) (Some ref_icao) = Some pos ->
      0 < d /\ ref_icao <> ""%string /\
      exists latest,
        In latest (get_aircraft_data_since_session db ref_icao) /\
        (forall r, In r (get_aircraft_data_since_session db ref_icao) ->
                   timestamp r <= timestamp latest) /\
        latitude latest = Some (fst pos) /\ longitude latest = Some (snd pos) /\
        fst pos <> 0 /\ snd pos <> 0) /\
  (forall pos d data point,
      0 < d ->
      (In point (apply_distance_filter geodesic (Some pos) (Some d) data) <->
       In point data /\
       exists lat lon,
         latitude point = Some lat /\ longitude point = Some lon /\
         lat <> 0 /\ lon <> 0 /\ geodesic pos (lat, lon) <= d)) /\
  (forall d df latest row,
      0 < d -> last (map Some df) None = Some latest ->
      (In row (chart_distance_filter geodesic (Some d) df) <->
       In row df /\ geodesic (position latest) (position row) <= d)) /\
  (forall d ref_icao latest lat lon,
      0 < d -> ref_icao <> ""%string ->
      In latest (get_aircraft_data_since_session db ref_icao) ->
      (forall r, In r (get_aircraft_data_since_session db ref_icao) ->
                 timestamp latest <= timestamp r -> r = latest) ->
      latitude latest = Some lat -> longitude latest = Some lon ->
      lat <> 0 -> lon <> 0 ->
      resolve_reference_position db (Some d) (Some ref_icao) = Some (lat, lon)) /\
  (forall d ref_icao latest,
      In latest (get_aircraft_data_since_session db ref_icao) ->
      (forall r, In r (get_aircraft_data_since_session db ref_icao) ->
                 timestamp latest <= timestamp r -> r = latest) ->
      latitude latest = None \/ latitude latest = Some 0 \/
      longitude latest = None \/ longitude latest = Some 0 ->
      resolve_reference_position db (Some d) (Some ref_icao) = None) /\
  (forall now icao src tf km ref_icao hist,
      resolve_reference_position db km ref_icao = None ->
      calculate_wind_profile geodesic db now icao src tf km ref_icao hist =
      calculate_wind_profile geodesic db now icao src tf None None hist) /\
  (forall now icao src tf d ref_icao hist pos e,
      resolve_reference_position db (Some d) (Some ref_icao) = Some pos ->
      In e (calculate_wind_profile geodesic db now icao src tf (Some d)
              (Some ref_icao) hist) ->
      exists point lat lon,
        In point (aircraft_data db) /\ icao24 point = icao /\
        timestamp point = pe_timestamp e /\
        latitude point = Some lat /\ longitude point = Some lon /\
        geodesic pos (lat, lon) <= d).
Proof.
  split; [|split; [|split; [|split; [|split; [|split; [|split; [|split]]]]]]].
  - apply Reference.filter_is_noop.
  - apply Reference.no_reference_without_both.
  - apply Reference.resolved_reference.
  - apply Reference.filter_keeps_within.
  - apply Reference.chart_reference_is_own_last_row.
  - apply Reference.latest_valid_resolves.
  - apply Reference.latest_invalid_unresolved.
  - apply Reference.unresolved_reference_is_no_filter.
  - apply Reference.entries_within_reference.
Qed.

Lemma distance_filter_reference_is_latest_report_witness :
  resolve_reference_position convoy (Some 1) (Some "ref001"%string) = Some (11, 21) /\
  In (report_at "abc123" 1000 11 21 15000)
     (apply_distance_filter grid_distance (Some (11, 21)) (Some 1)
        (get_aircraft_data_since_session convoy "abc123")) /\
  ~ In (report_at "abc123" 1060 42 (-71) 15000)
       (apply_distance_filter grid_distance (Some (11, 21)) (Some 1)
          (get_aircraft_data_since_session convoy "abc123")).
Proof.
  pose proof (distance_filter_reference_is_latest_report grid_distance convoy)
    as [_ [_ [_ [Hkeeps [_ [Hresolves _]]]]]].
  split; [|split].
  - apply (Hresolves 1 "ref001"%string (report_at "ref001" 1100 11 21 15000) 11 21).
    + lra.
    + discriminate.
    + rewrite convoy_reference_rows. right. now left.
    + rewrite convoy_reference_rows. intros r [<- | [<- | []]]; cbn.
      * intros H. lra.
      * reflexivity.
    + reflexivity.
    + reflexivity.
    + lra.
    + lra.
  - apply (Hkeeps (11, 21) 1); [lra|]. split.
    + rewrite convoy_subject_rows. now left.
    + exists 11, 21. unfold grid_distance. cbn. repeat split; lra.
  - intros H. apply (Hkeeps (11, 21) 1) in H; [|lra].
    destruct H as [_ [lat [lon [Hlat [Hlon [_ [_ Hdist]]]]]]].
    cbn in Hlat, Hlon. injection Hlat as <-. injection Hlon as <-.
    unfold grid_distance in Hdist. cbn in Hdist. lra.
Defined.

End DistanceFilter.

(** ** Clock and database: what a call reads and writes *)

Module Effects.

Import Runs.

Lemma store_wind_frame now icao d db :
  aircraft_data (store_wind now icao d db) = aircraft_data db /\
  session_start_time (store_wind now icao d db) = session_start_time db /\
  wind_data (store_wind now icao d db) = wind_data db ++ map (wind_row now icao) d.
Proof.
  unfold store_wind. revert db. induction d as [|kv t IH]; intros db.
  - cbn. now rewrite app_nil_r.
  - cbn [fold_left map]. destruct (IH (add_wind_data db now icao (fst kv)
        (wind_speed (snd kv)) (wind_direction (snd kv)) (sample_count (snd kv))))
      as [Ha [Hs Hw]].
    rewrite Ha, Hs, Hw. cbn [add_wind_data aircraft_data session_start_time wind_data].
    rewrite <- app_assoc. repeat split.
Qed.

Section WithGeodesic.

Variable geodesic : R * R -> R * R -> R.
Variables bin_size min_samples : Z.

Local Abbreviation trajectory := (calculate_wind_from_trajectory geodesic bin_size min_samples).

Lemma trajectory_writes_only_wind_rows db now icao h :
  aircraft_data (snd (trajectory db now icao h)) = aircraft_data db /\
  session_start_time (snd (trajectory db now icao h)) = session_start_time db /\
  wind_data (snd (trajectory db now icao h)) =
    wind_data db ++ map (wind_row now icao) (fst (trajectory db now icao h)).
Proof.
  unfold calculate_wind_from_trajectory. cbv zeta.
  destruct (length (get_aircraft_data db now icao h) <? 2)%nat;
    [cbn; now rewrite app_nil_r|].
  destruct (length (trajectory_frame (get_aircraft_data db now icao h)) <? 2)%nat;
    [cbn; now rewrite app_nil_r|].
  destruct (pairwise (trajectory_body geodesic) _) as [|v t];
    [cbn; now rewrite app_nil_r|].
  cbn [fst snd]. apply store_wind_frame.
Qed.






End WithGeodesic.





End Effects.

(** * Further properties *)

(** ** What [calculate_wind_profile] returns *)

Module ProfileOutput.

Section WithGeodesic.

Variable geodesic : R * R -> R * R -> R.

Lemma pairwise_length {A B} (body : A -> A -> option B) df :
  (length (pairwise body df) <= length df - 1)%nat.
Proof.
  induction df as [|prev rest IH]; [cbn; lia|].
  destruct rest as [|curr rest']; [cbn; lia|].
  change (pairwise body (prev :: curr :: rest')) with
    (match body prev curr with
     | Some w => w :: pairwise body (curr :: rest')
     | None => pairwise body (curr :: rest')
     end).
  cbn [length] in *. destruct (body prev curr); cbn [length]; lia.
Qed.

Lemma dropna_length col data : (length (dropna col data) <= length data)%nat.
Proof.
  unfold dropna. induction data as [|r t IH]; [cbn; lia|].
  cbn [flat_map]. rewrite length_app.
  destruct (latitude r), (longitude r), (altitude_cell col r); cbn [length]; lia.
Qed.

Lemma profile_frame_length src data :
  (length (profile_frame src data) <= length data)%nat.
Proof.
  unfold profile_frame, sort_values, keep_positive_altitude, drop_zero_longitude,
    drop_zero_latitude. cbv zeta.
  rewrite Sorting.sort_length.
  eapply Nat.le_trans; [apply filter_length_le|].
  eapply Nat.le_trans; [apply filter_length_le|].
  eapply Nat.le_trans; [apply filter_length_le|].
  apply dropna_length.
Qed.

Lemma time_filter_length now tf data :
  (length (apply_time_filter now tf data) <= length data)%nat.
Proof.
  unfold apply_time_filter. destruct tf as [s|]; [|lia].
  destruct (Rltb 0 s); [apply filter_length_le | lia].
Qed.

Lemma distance_filter_length ref km data :
  (length (apply_distance_filter geodesic ref km data) <= length data)%nat.
Proof.
  unfold apply_distance_filter. destruct ref; [|lia]. destruct km as [d|]; [|lia].
  destruct (truthy (Some d) && Rltb 0 d); [apply filter_length_le | lia].
Qed.

(** Over an ascending frame the emitted vectors carry strictly increasing
    timestamps, all later than the first row. *)
Lemma emitted_timestamps_increase df :
  ascending pt_timestamp df ->
  StronglySorted Rlt (map rv_timestamp (pairwise (profile_body geodesic) df)) /\
  (forall first rest v, df = first :: rest ->
      In v (pairwise (profile_body geodesic) df) ->
      pt_timestamp first < rv_timestamp v).
Proof.
  induction df as [|prev rest IH]; intros Hasc.
  - split; [constructor | intros ? ? ? H; discriminate].
  - destruct rest as [|curr rest'].
    + split; [constructor | intros ? ? ? _ []].
    + destruct Hasc as [Hle Hrest]. destruct (IH Hrest) as [Hsorted Hlater].
      change (pairwise (profile_body geodesic) (prev :: curr :: rest')) with
        (match profile_body geodesic prev curr with
         | Some w => w :: pairwise (profile_body geodesic) (curr :: rest')
         | None => pairwise (profile_body geodesic) (curr :: rest')
         end).
      assert (Hafter : forall v, In v (pairwise (profile_body geodesic) (curr :: rest')) ->
                                 pt_timestamp curr < rv_timestamp v).
      { intros v Hv. exact (Hlater curr rest' v eq_refl Hv). }
      destruct (profile_body geodesic prev curr) as [w|] eqn:E.
      * assert (Hw : rv_timestamp w = pt_timestamp curr /\
                     pt_timestamp prev < pt_timestamp curr).
        { unfold profile_body in E. cbv zeta in E.
          destruct (Rleb (pt_timestamp curr - pt_timestamp prev) 0) eqn:Ed; [discriminate|].
          apply Rleb_false_iff in Ed. injection E as <-. cbn. split; [reflexivity | lra]. }
        destruct Hw as [Hw Hlt]. split.
        -- cbn [map]. constructor; [exact Hsorted|].
           apply Forall_forall. intros t Ht. apply in_map_iff in Ht.
           destruct Ht as [v [<- Hv]]. rewrite Hw. now apply Hafter.
        -- intros first rest0 v Heq [<- | Hv]; injection Heq as <- <-.
           ++ lra.
           ++ specialize (Hafter v Hv). lra.
      * split; [exact Hsorted|].
        intros first rest0 v Heq Hv. injection Heq as <- <-.
        specialize (Hafter v Hv). lra.
Qed.

Lemma emitted_vector_fields df v :
  (forall p, In p df -> 0 < pt_altitude p) ->
  In v (pairwise (profile_body geodesic) df) ->
  0 <= rv_wind_direction v < 360 /\ 0 < rv_altitude v.
Proof.
  intros Hvalid Hv. apply Pairwise.in_emitted in Hv.
  destruct Hv as [prev [curr [Hin Hb]]].
  destruct (Pairwise.consecutive_members _ _ _ Hin) as [_ Hc].
  unfold profile_body in Hb. cbv zeta in Hb.
  destruct (Rleb (pt_timestamp curr - pt_timestamp prev) 0); [discriminate|].
  injection Hb as <-. cbn. split; [apply py_mod_range; lra | now apply Hvalid].
Qed.

Lemma entry_fields db now icao src tf km ref hist e :
  In e (calculate_wind_profile geodesic db now icao src tf km ref hist) ->
  pe_sample_count e = 1%nat /\ 0 <= pe_wind_direction e < 360 /\ 0 < pe_altitude_bin e.
Proof.
  unfold calculate_wind_profile. cbv zeta.
  destruct (length _ <? 2)%nat; [contradiction|].
  destruct (length _ <? 2)%nat; [contradiction|].
  set (df := profile_frame src _).
  destruct (length df <? 2)%nat; [contradiction|].
  intros He. apply in_map_iff in He. destruct He as [v [<- Hv]]. cbn.
  split; [reflexivity|]. apply (emitted_vector_fields df v); [|exact Hv].
  intros p Hp. apply profile_frame_valid in Hp. tauto.
Qed.

(** X1.  Every entry returned by [calculate_wind_profile] has
    [sample_count = 1], a direction in [0, 360) and a positive altitude; the
    entries come in strictly increasing timestamp order (no two share a
    timestamp); and there are strictly fewer entries than fetched reports,
    except that nothing fetched gives the empty list. *)
Theorem profile_entries_ordered_and_bounded db now icao src tf km ref hist :
  let out := calculate_wind_profile geodesic db now icao src tf km ref hist in
  let rows := match hist with
              | Some hours => get_aircraft_data db now icao hours
              | None => get_aircraft_data_since_session db icao
              end in
  Forall (fun e => pe_sample_count e = 1%nat /\
                   0 <= pe_wind_direction e < 360 /\
                   0 < pe_altitude_bin e) out /\
  StronglySorted Rlt (map pe_timestamp out) /\
  (rows <> [] -> (length out < length rows)%nat) /\
  (rows = [] -> out = []).
Proof.
  intros out rows.
  assert (Hempty : rows = [] -> out = []).
  { intros E. unfold out, calculate_wind_profile. fold rows. cbv zeta.
    now rewrite E. }
  assert (Hnonempty : forall l : list Report, l <> [] -> (0 < length l)%nat).
  { intros l Hl. destruct l; [congruence | cbn; lia]. }
  enough (Hmain : Forall (fun e => pe_sample_count e = 1%nat /\
                                   0 <= pe_wind_direction e < 360 /\
                                   0 < pe_altitude_bin e) out /\
                  StronglySorted Rlt (map pe_timestamp out) /\
                  (length out <= length rows - 1)%nat).
  { destruct Hmain as [H1 [H2 H3]]. split; [exact H1 | split; [exact H2|]].
    split; [|exact Hempty]. intros Hne. specialize (Hnonempty rows Hne). lia. }
  clear Hempty Hnonempty.
  unfold out, calculate_wind_profile. fold rows. cbv zeta.
  destruct (length rows <? 2)%nat; [repeat split; [constructor | constructor | cbn; lia]|].
  set (kept := apply_distance_filter geodesic _ km (apply_time_filter now tf rows)).
  destruct (length kept <? 2)%nat; [repeat split; [constructor | constructor | cbn; lia]|].
  set (df := profile_frame src kept).
  destruct (length df <? 2)%nat; [repeat split; [constructor | constructor | cbn; lia]|].
  assert (Hvalid : forall p, In p df -> 0 < pt_altitude p).
  { intros p Hp. apply profile_frame_valid in Hp. tauto. }
  assert (Hasc : ascending pt_timestamp df).
  { unfold df, profile_frame, sort_values. cbv zeta. apply Sorting.sort_ascending. }
  split; [|split].
  - apply Forall_forall. intros e He. apply in_map_iff in He.
    destruct He as [v [<- Hv]]. cbn.
    split; [reflexivity|]. exact (emitted_vector_fields df v Hvalid Hv).
  - rewrite map_map. cbn [pe_timestamp].
    exact (proj1 (emitted_timestamps_increase df Hasc)).
  - rewrite length_map.
    pose proof (pairwise_length (profile_body geodesic) df).
    pose proof (profile_frame_length src kept).
    pose proof (distance_filter_length (resolve_reference_position db km ref) km
                  (apply_time_filter now tf rows)).
    pose proof (time_filter_length now tf rows).
    fold kept in H1. fold df in H0, H. lia.
Qed.

(** X2.  On a pair that [calculate_wind_from_trajectory] accepts, the two
    modes agree up to their conventions: the reciprocal-mode speed (km/h) is
    3.6 times the trajectory-mode speed (m/s), its direction is the bearing
    turned by 180 degrees, and it is stamped with the later report, whose
    altitude it takes where the trajectory mode takes the mean. *)
Theorem modes_agree_up_to_conventions prev curr :
  0 < pt_timestamp curr - pt_timestamp prev <= 300 ->
  0 < (pt_altitude prev + pt_altitude curr) / 2 ->
  exists v r,
    trajectory_body geodesic prev curr = Some v /\
    profile_body geodesic prev curr = Some r /\
    rv_wind_speed r = 3.6 * wv_wind_speed v /\
    rv_wind_direction r =
      (if Rltb (wv_wind_direction v) 180
       then wv_wind_direction v + 180 else wv_wind_direction v - 180) /\
    rv_timestamp r = pt_timestamp curr /\
    wv_altitude v = (pt_altitude prev + rv_altitude r) / 2.
Proof.
  intros Hdt Halt.
  rewrite trajectory_emits by assumption.
  rewrite profile_emits by lra.
  eexists. eexists. split; [reflexivity|]. split; [reflexivity|].
  cbn [rv_wind_speed wv_wind_speed rv_wind_direction wv_wind_direction
       rv_timestamp wv_altitude rv_altitude].
  split; [|split; [|split; reflexivity]].
  - unfold kilometers, meters. replace 3.6 with (36 / 10) by lra. field. lra.
  - pose proof (Bearing.in_range (position prev) (position curr)) as [Hlo Hhi].
    destruct (Rltb (_calculate_bearing (position prev) (position curr)) 180) eqn:E.
    + apply Rltb_spec in E. apply py_mod_small. lra.
    + apply Rltb_false_iff in E. rewrite py_mod_once by lra. ring.
Qed.

Lemma filter_commutes {A} (p q : A -> bool) l :
  filter p (filter q l) = filter q (filter p l).
Proof.
  induction l as [|x t IH]; [reflexivity|].
  cbn [filter]. destruct (p x) eqn:Ep, (q x) eqn:Eq; cbn [filter];
    rewrite ?Ep, ?Eq, IH; reflexivity.
Qed.

Lemma filter_idempotent {A} (p : A -> bool) l : filter p (filter p l) = filter p l.
Proof.
  induction l as [|x t IH]; [reflexivity|].
  cbn [filter]. destruct (p x) eqn:Ep; cbn [filter]; rewrite ?Ep, IH; reflexivity.
Qed.

Lemma filter_all {A} (l : list A) : filter (fun _ => true) l = l.
Proof. induction l as [|x t IH]; [reflexivity|]. cbn [filter]. now rewrite IH. Qed.

Lemma time_filter_is_a_filter now tf :
  exists p, forall data, apply_time_filter now tf data = filter p data.
Proof.
  unfold apply_time_filter. destruct tf as [s|].
  - destruct (Rltb 0 s).
    + eexists. intros data. reflexivity.
    + exists (fun _ => true). intros data. now rewrite filter_all.
  - exists (fun _ => true). intros data. now rewrite filter_all.
Qed.

Lemma distance_filter_is_a_filter ref km :
  exists q, forall data, apply_distance_filter geodesic ref km data = filter q data.
Proof.
  unfold apply_distance_filter. destruct ref as [pos|].
  - destruct km as [d|].
    + destruct (truthy (Some d) && Rltb 0 d).
      * eexists. intros data. reflexivity.
      * exists (fun _ => true). intros data. now rewrite filter_all.
    + exists (fun _ => true). intros data. now rewrite filter_all.
  - exists (fun _ => true). intros data. now rewrite filter_all.
Qed.

(** X6.  The time filter and the distance filter of [calculate_wind_profile]
    commute and each is idempotent: the reference position does not depend
    on the subject's rows, so the order of the two filters cannot change the
    rows that reach the differencing. *)
Theorem time_and_distance_filters_commute now tf ref km data :
  apply_distance_filter geodesic ref km (apply_time_filter now tf data) =
  apply_time_filter now tf (apply_distance_filter geodesic ref km data) /\
  apply_time_filter now tf (apply_time_filter now tf data) =
  apply_time_filter now tf data /\
  apply_distance_filter geodesic ref km (apply_distance_filter geodesic ref km data) =
  apply_distance_filter geodesic ref km data.
Proof.
  destruct (time_filter_is_a_filter now tf) as [p Hp].
  destruct (distance_filter_is_a_filter ref km) as [q Hq].
  rewrite !Hp, !Hq. split; [|split].
  - apply filter_commutes.
  - apply filter_idempotent.
  - apply filter_idempotent.
Qed.

End WithGeodesic.

Lemma modes_agree_up_to_conventions_witness :
  exists v r,
    trajectory_body hover_distance (mkPoint 1000 42 (-71) 15200)
      (mkPoint 1060 42 (-71) 15200) = Some v /\
    profile_body hover_distance (mkPoint 1000 42 (-71) 15200)
      (mkPoint 1060 42 (-71) 15200) = Some r /\
    rv_wind_speed r = 3.6 * wv_wind_speed v /\
    rv_wind_direction r =
      (if Rltb (wv_wind_direction v) 180
       then wv_wind_direction v + 180 else wv_wind_direction v - 180) /\
    rv_timestamp r = 1060 /\
    wv_altitude v = (15200 + rv_altitude r) / 2.
Proof.
  apply (modes_agree_up_to_conventions hover_distance
           (mkPoint 1000 42 (-71) 15200) (mkPoint 1060 42 (-71) 15200)).
  - cbn. lra.
  - cbn. lra.
Defined.

End ProfileOutput.

(** ** The dict built by [_bin_wind_data] *)

Module BinDict.

Lemma set_fresh {V} k (v : V) d :
  ~ In k (dict_keys d) -> dict_set k v d = d ++ [(k, v)].
Proof.
  unfold dict_keys. induction d as [|[k' v'] t IH]; intros H; [reflexivity|].
  cbn [dict_set]. destruct (Z.eqb k' k) eqn:E.
  - apply Z.eqb_eq in E. exfalso. apply H. now left.
  - cbn [app]. rewrite IH; [reflexivity|]. intros Hin. apply H. now right.
Qed.

Section Bins.

Variable bin_size : Z.
Variable min_samples : Z.
Variable vs : list WindVector.

Local Abbreviation rows := (bin_rows bin_size vs).

Local Abbreviation retained := (bin_retained bin_size min_samples vs).
Local Abbreviation entry := (bin_entry bin_size vs).

Lemma loop_explicit bs d :
  NoDup bs ->
  (forall b, In b bs -> exists z, b = IZR z) ->
  (forall b, In b bs -> ~ In (int_of_float b) (dict_keys d)) ->
  fold_left (bin_step bin_size min_samples vs) bs d =
  d ++ map entry (filter retained bs).
Proof.
  revert d. induction bs as [|b t IH]; intros d Hnd Hint Hfresh.
  - cbn. now rewrite app_nil_r.
  - inversion Hnd as [|? ? Hnotin Hnd']; subst.
    cbn [fold_left filter]. unfold bin_step at 2. cbv zeta. unfold bin_retained at 1.
    destruct (Z.of_nat (length (rows b)) <? min_samples)%Z eqn:E; cbn [negb].
    + apply IH; auto.
      * intros b' Hb'. apply Hint. now right.
      * intros b' Hb'. apply Hfresh. now right.
    + rewrite set_fresh by (apply Hfresh; now left).
      rewrite IH; auto.
      * cbn [map]. now rewrite <- app_assoc.
      * intros b' Hb'. apply Hint. now right.
      * intros b' Hb'. unfold dict_keys. rewrite map_app, in_app_iff.
        intros [Hin | [Heq | []]].
        -- apply (Hfresh b'); [now right | exact Hin].
        -- cbn in Heq.
           destruct (Hint b (or_introl eq_refl)) as [z Hz].
           destruct (Hint b' (or_intror Hb')) as [z' Hz'].
           subst b b'. rewrite !int_of_float_IZR in Heq. subst z'. contradiction.
Qed.

Lemma bins_are_integral b :
  In b (unique (map (altitude_bin bin_size) vs)) -> exists z, b = IZR z.
Proof. intros Hb. destruct (bins_integral bin_size vs b Hb) as [v [_ E]]. eauto. Qed.

Lemma output_explicit :
  _bin_wind_data bin_size min_samples vs =
  map entry (filter retained (unique (map (altitude_bin bin_size) vs))).
Proof.
  unfold _bin_wind_data. rewrite loop_explicit; [reflexivity | apply Unique.nodup | |].
  - exact bins_are_integral.
  - intros b _ [].
Qed.

Lemma indicator_sum (x : R) bs :
  NoDup bs -> In x bs ->
  fold_right (fun b acc => ((if Reqb x b then 1 else 0) + acc)%nat) 0%nat bs = 1%nat.
Proof.
  induction bs as [|b t IH]; intros Hnd Hin; [contradiction|].
  inversion Hnd as [|? ? Hnotin Hnd']; subst. cbn [fold_right].
  destruct Hin as [-> | Hin].
  - rewrite Reqb_true by reflexivity.
    assert (Hz : fold_right (fun b acc => ((if Reqb x b then 1 else 0) + acc)%nat) 0%nat t
                 = 0%nat).
    { clear IH Hnd Hnd'. induction t as [|c t' IHt]; [reflexivity|].
      cbn [fold_right]. rewrite Reqb_false.
      - rewrite IHt; [reflexivity|]. intros H. apply Hnotin. now right.
      - intros ->. apply Hnotin. now left. }
    rewrite Hz. reflexivity.
  - rewrite Reqb_false by (intros ->; contradiction). rewrite IH; auto.
Qed.

Lemma count_cons (f : WindVector -> R) bs v (l : list WindVector) :
  fold_right (fun b acc => (length (filter (fun w => Reqb (f w) b) (v :: l)) + acc)%nat)
             0%nat bs =
  (fold_right (fun b acc => ((if Reqb (f v) b then 1 else 0) + acc)%nat) 0%nat bs
   + fold_right (fun b acc => (length (filter (fun w => Reqb (f w) b) l) + acc)%nat)
                0%nat bs)%nat.
Proof.
  induction bs as [|b bs' IHb]; [reflexivity|].
  cbn [fold_right]. rewrite IHb. cbn [filter].
  destruct (Reqb (f v) b); cbn [length]; lia.
Qed.

(** The rows of the distinct bins partition the vectors. *)
Lemma rows_partition (f : WindVector -> R) bs (l : list WindVector) :
  NoDup bs -> (forall v, In v l -> In (f v) bs) ->
  fold_right (fun b acc => (length (filter (fun v => Reqb (f v) b) l) + acc)%nat)
             0%nat bs = length l.
Proof.
  intros Hnd. induction l as [|v t IH]; intros Hin.
  - cbn [filter length]. clear. induction bs as [|b t IH]; [reflexivity|].
    cbn [fold_right]. now rewrite IH.
  - rewrite count_cons, (IH (fun w H => Hin w (or_intror H))).
    rewrite (indicator_sum (f v) bs Hnd (Hin v (or_introl eq_refl))).
    reflexivity.
Qed.

Lemma total_of_entries bs :
  total_samples (map entry bs) =
  fold_right (fun b acc => (length (rows b) + acc)%nat) 0%nat bs.
Proof.
  unfold total_samples. induction bs as [|b t IH]; [reflexivity|].
  cbn [map fold_right]. now rewrite IH.
Qed.

Lemma filtered_sum_le (p : R -> bool) bs :
  (fold_right (fun b acc => (length (rows b) + acc)%nat) 0%nat (filter p bs) <=
   fold_right (fun b acc => (length (rows b) + acc)%nat) 0%nat bs)%nat.
Proof.
  induction bs as [|b t IH]; [cbn; lia|].
  cbn [filter]. destruct (p b); cbn [fold_right]; lia.
Qed.

End Bins.

Lemma keys_distinct bin_size min_samples vs :
  NoDup (dict_keys (_bin_wind_data bin_size min_samples vs)).
Proof.
  rewrite output_explicit. unfold dict_keys. rewrite map_map. cbn [fst bin_entry].
  apply NoDup_map_NoDup_ForallPairs; [|apply NoDup_filter, Unique.nodup].
  intros b b' Hb Hb' Heq.
  apply filter_In in Hb. apply filter_In in Hb'.
  destruct (bins_are_integral bin_size vs b (proj1 Hb)) as [z ->].
  destruct (bins_are_integral bin_size vs b' (proj1 Hb')) as [z' ->].
  rewrite !int_of_float_IZR in Heq. now subst.
Qed.

Lemma keys_multiples bin_size min_samples vs k :
  In k (dict_keys (_bin_wind_data bin_size min_samples vs)) ->
  exists q, k = (q * bin_size)%Z.
Proof.
  rewrite output_explicit. intros Hk. unfold dict_keys in Hk.
  rewrite map_map in Hk. apply in_map_iff in Hk. destruct Hk as [b [<- Hb]].
  apply filter_In in Hb. destruct Hb as [Hb _].
  destruct (bins_integral bin_size vs b Hb) as [v [_ ->]].
  cbn [fst bin_entry]. rewrite int_of_float_IZR. unfold spec_bin. eauto.
Qed.

Lemma rows_sum bin_size vs :
  fold_right (fun b acc => (length (bin_rows bin_size vs b) + acc)%nat) 0%nat
             (unique (map (altitude_bin bin_size) vs)) = length vs.
Proof.
  apply (rows_partition (altitude_bin bin_size)); [apply Unique.nodup|].
  intros v Hv. apply Unique.in_iff. now apply in_map.
Qed.

Lemma samples_bounded bin_size min_samples vs :
  (total_samples (_bin_wind_data bin_size min_samples vs) <= length vs)%nat.
Proof.
  rewrite output_explicit, total_of_entries, <- (rows_sum bin_size vs) at 1.
  apply filtered_sum_le.
Qed.

Lemma samples_conserved bin_size min_samples vs :
  (min_samples <= 1)%Z ->
  total_samples (_bin_wind_data bin_size min_samples vs) = length vs.
Proof.
  intros Hmin.
  rewrite output_explicit, total_of_entries, <- (rows_sum bin_size vs) at 1.
  f_equal.
  apply forallb_filter_id. apply forallb_forall. intros b Hb.
  unfold bin_retained. apply negb_true_iff. apply Z.ltb_ge.
  apply Unique.in_iff, in_map_iff in Hb. destruct Hb as [v [<- Hv]].
  assert (Hin : In v (bin_rows bin_size vs (altitude_bin bin_size v))).
  { unfold bin_rows. apply filter_In. split; [exact Hv | now apply Reqb_true]. }
  destruct (bin_rows bin_size vs (altitude_bin bin_size v)); [contradiction|].
  cbn [length]. lia.
Qed.

(** X3.  The dict returned by [_bin_wind_data] has pairwise distinct keys,
    each an integer multiple of the bin size; the sample counts of its bins
    add up to at most the number of input vectors, and to exactly that
    number when [min_samples] is at most 1 (no vector is counted twice, and
    vectors are lost only with a suppressed bin). *)
Theorem bins_distinct_and_samples_conserved bin_size min_samples vs :
  (0 < bin_size)%Z ->
  let out := _bin_wind_data bin_size min_samples vs in
  NoDup (dict_keys out) /\
  Forall (fun k => exists q, k = (q * bin_size)%Z) (dict_keys out) /\
  (total_samples out <= length vs)%nat /\
  ((min_samples <= 1)%Z -> total_samples out = length vs).
Proof.
  intros _ out. unfold out. split; [|split; [|split]].
  - apply keys_distinct.
  - apply Forall_forall. intros k. apply keys_multiples.
  - apply samples_bounded.
  - apply samples_conserved.
Qed.

Lemma bins_distinct_and_samples_conserved_witness :
  (total_samples (_bin_wind_data 500 3 three_in_one_bin) <= 3)%nat.
Proof.
  exact (proj1 (proj2 (proj2 (bins_distinct_and_samples_conserved 500 3
                                 three_in_one_bin eq_refl)))).
Defined.

End BinDict.

(** ** Bounds on an aggregated bin *)

Module BinBounds.

(** The length of a sum of vectors is at most the sum of their lengths. *)
Lemma resultant_bounded l :
  (forall w, In w l -> 0 <= wv_wind_speed w) ->
  0 <= sum_over wv_wind_speed l /\
  (sum_over (fun w => wv_wind_speed w * sin (radians (wv_wind_direction w))) l) ^ 2
  + (sum_over (fun w => wv_wind_speed w * cos (radians (wv_wind_direction w))) l) ^ 2
  <= (sum_over wv_wind_speed l) ^ 2.
Proof.
  unfold sum_over. induction l as [|w t IH]; intros Hs.
  - cbn. lra.
  - cbn [fold_right].
    destruct (IH (fun w' H => Hs w' (or_intror H))) as [HS Hin].
    set (a := fold_right (fun w0 acc =>
                 wv_wind_speed w0 * sin (radians (wv_wind_direction w0)) + acc) 0 t) in *.
    set (b := fold_right (fun w0 acc =>
                 wv_wind_speed w0 * cos (radians (wv_wind_direction w0)) + acc) 0 t) in *.
    set (S := fold_right (fun w0 acc => wv_wind_speed w0 + acc) 0 t) in *.
    set (s := wv_wind_speed w).
    assert (H0 : 0 <= s) by (apply Hs; now left).
    set (x := sin (radians (wv_wind_direction w))).
    set (y := cos (radians (wv_wind_direction w))).
    assert (Hxy : x ^ 2 + y ^ 2 = 1).
    { unfold x, y. pose proof (sin2_cos2 (radians (wv_wind_direction w))) as H.
      unfold Rsqr in H. lra. }
    assert (Hdot : a * x + b * y <= S).
    { assert (Hsq : (a * x + b * y) ^ 2 <= S ^ 2).
      { assert (E : (a * x + b * y) ^ 2 + (a * y - b * x) ^ 2
                    = (a ^ 2 + b ^ 2) * (x ^ 2 + y ^ 2)) by ring.
        rewrite Hxy in E. pose proof (pow2_ge_0 (a * y - b * x)). lra. }
      destruct (Rle_lt_dec (a * x + b * y) S) as [Hle | Hgt]; [exact Hle|].
      exfalso. assert (S ^ 2 < (a * x + b * y) ^ 2) by nra. lra. }
    split; [lra|].
    replace ((s * x + a) ^ 2 + (s * y + b) ^ 2)
      with (s ^ 2 * (x ^ 2 + y ^ 2) + 2 * s * (a * x + b * y) + (a ^ 2 + b ^ 2)) by ring.
    rewrite Hxy. nra.
Qed.

Lemma np_mean_speeds l :
  np_mean (map wv_wind_speed l) = sum_over wv_wind_speed l / INR (length l).
Proof.
  unfold np_mean, np_sum, sum_over. rewrite length_map. f_equal.
  induction l as [|w t IH]; [reflexivity|]. cbn [map fold_right]. now rewrite IH.
Qed.

Lemma mean_speed_bounded l :
  l <> [] ->
  (forall w, In w l -> 0 <= wv_wind_speed w) ->
  spec_mean_speed l <= np_mean (map wv_wind_speed l).
Proof.
  intros Hne Hs. destruct (resultant_bounded l Hs) as [HS Hle].
  assert (Hn : 0 < INR (length l)).
  { apply lt_0_INR. destruct l; [congruence | cbn; lia]. }
  rewrite np_mean_speeds. unfold spec_mean_speed, spec_u, spec_v.
  set (U := sum_over (fun w => wv_wind_speed w * sin (radians (wv_wind_direction w))) l) in *.
  set (V := sum_over (fun w => wv_wind_speed w * cos (radians (wv_wind_direction w))) l) in *.
  set (S := sum_over wv_wind_speed l) in *.
  set (n := INR (length l)) in *.
  assert (Hq : 0 <= S / n) by (apply Rmult_le_pos; [exact HS | left; now apply Rinv_0_lt_compat]).
  rewrite <- (sqrt_Rsqr (S / n) Hq).
  apply sqrt_le_1_alt. unfold Rsqr.
  replace ((U / n) ^ 2 + (V / n) ^ 2) with ((U ^ 2 + V ^ 2) * (/ n * / n)) by (field; lra).
  replace (S / n * (S / n)) with (S ^ 2 * (/ n * / n)) by (field; lra).
  apply Rmult_le_compat_r; [|exact Hle].
  apply Rmult_le_pos; left; now apply Rinv_0_lt_compat.
Qed.

(** X4.  For every bin of [_bin_wind_data], built from vectors of
    non-negative speed: the mean wind speed lies between 0 and the
    arithmetic mean of the bin's speeds (vectors that point apart cancel,
    they never add speed), the mean direction lies in [0, 360), and both
    standard deviations are non-negative. *)
Theorem bin_record_within_bounds bin_size min_samples vs k rec :
  (0 < bin_size)%Z ->
  (forall w, In w vs -> 0 <= wv_wind_speed w) ->
  dict_get k (_bin_wind_data bin_size min_samples vs) = Some rec ->
  0 <= wind_speed rec <= np_mean (map wv_wind_speed (members bin_size k vs)) /\
  0 <= wind_direction rec < 360 /\
  0 <= wind_speed_std rec /\ 0 <= wind_direction_std rec.
Proof.
  intros Hpos Hs Hget. rewrite bin_wind_data_get in Hget.
  destruct (members bin_size k vs) as [|w t] eqn:E; [discriminate|].
  destruct (Z.of_nat (length (w :: t)) <? min_samples)%Z; [discriminate|].
  injection Hget as <-.
  assert (Hin : forall x, In x (w :: t) -> 0 <= wv_wind_speed x).
  { intros x Hx. apply Hs. rewrite <- E in Hx. apply member_in in Hx. tauto. }
  destruct (Circular.bin_record_is_circular_mean (w :: t)) as [Hspeed Hdir].
  split; [|split; [|split]].
  - rewrite Hspeed. split; [apply sqrt_pos|].
    apply mean_speed_bounded; [discriminate | exact Hin].
  - rewrite Hdir. unfold spec_mean_direction. apply py_mod_range. lra.
  - cbn [wind_speed_std bin_record]. apply sqrt_pos.
  - cbn [wind_direction_std bin_record]. apply sqrt_pos.
Qed.

Lemma bin_record_within_bounds_witness :
  exists rec,
    dict_get 15000 (_bin_wind_data 500 3 two_to_one) = Some rec /\
    0 <= wind_speed rec <= np_mean (map wv_wind_speed (members 500 15000 two_to_one)).
Proof.
  exists (bin_record two_to_one).
  assert (Hget : dict_get 15000 (_bin_wind_data 500 3 two_to_one)
                 = Some (bin_record two_to_one)).
  { rewrite bin_wind_data_get, Unbalanced.two_to_one_members. reflexivity. }
  split; [exact Hget|].
  apply (bin_record_within_bounds 500 3 two_to_one 15000 (bin_record two_to_one)
           eq_refl).
  - intros w [<- | [<- | [<- | []]]]; cbn; lra.
  - exact Hget.
Defined.

Section Trajectory.

Variable geodesic : R * R -> R * R -> R.

Lemma trajectory_vector_altitude df v :
  In v (pairwise (trajectory_body geodesic) df) -> 0 < wv_altitude v.
Proof.
  intros Hv. apply Pairwise.in_emitted in Hv.
  destruct Hv as [prev [curr [_ Hb]]].
  unfold trajectory_body in Hb. cbv zeta in Hb.
  destruct (Rleb _ 0 || Rltb 300 _); [discriminate|].
  destruct (Rltb 0 ((pt_altitude prev + pt_altitude curr) / 2)) eqn:E; [|discriminate].
  injection Hb as <-. cbn. now apply Rltb_spec in E.
Qed.

Lemma trajectory_frame_length data :
  (length (trajectory_frame data) <= length data)%nat.
Proof.
  unfold trajectory_frame, keep_positive_altitude, drop_zero_longitude,
    drop_zero_latitude.
  eapply Nat.le_trans; [apply filter_length_le|].
  eapply Nat.le_trans; [apply filter_length_le|].
  eapply Nat.le_trans; [apply filter_length_le|].
  apply ProfileOutput.dropna_length.
Qed.

(** X5.  [calculate_wind_from_trajectory] on [n] fetched reports returns
    bins whose sample counts add up to strictly less than [n] (the empty
    dict when nothing was fetched), under distinct non-negative keys; it
    adds exactly one [wind_data] row per returned bin, and when it returns
    the empty dict the database is left as it was. *)
Theorem trajectory_result_accounted bin_size min_samples db now icao h :
  (0 < bin_size)%Z ->
  let r := calculate_wind_from_trajectory geodesic bin_size min_samples db now icao h in
  let n := length (get_aircraft_data db now icao h) in
  ((0 < n)%nat -> (total_samples (fst r) < n)%nat) /\
  (n = 0%nat -> fst r = []) /\
  NoDup (dict_keys (fst r)) /\
  (forall k, In k (dict_keys (fst r)) -> (0 <= k)%Z) /\
  length (wind_data (snd r)) = (length (wind_data db) + length (fst r))%nat /\
  (fst r = [] -> snd r = db).
Proof.
  intros Hpos r n. unfold r, n, calculate_wind_from_trajectory. cbv zeta.
  set (rows := get_aircraft_data db now icao h).
  destruct (Nat.ltb_spec (length rows) 2) as [Hfew | Hrows];
    [cbn; repeat split; try constructor; try lia; intros k []|].
  destruct (Nat.ltb_spec (length (trajectory_frame rows)) 2) as [Hfew | Hframe];
    [cbn; repeat split; try constructor; try lia; intros k []|].
  set (df := sort_values (trajectory_frame rows)).
  destruct (pairwise (trajectory_body geodesic) df) as [|v0 t0] eqn:E;
    [cbn; repeat split; try constructor; try lia; intros k []|].
  set (vs := v0 :: t0) in *. cbn [fst snd].
  pose proof (BinDict.keys_distinct bin_size min_samples vs) as Hnd.
  pose proof (BinDict.samples_bounded bin_size min_samples vs) as Hle.
  split; [|split; [lia | split; [exact Hnd | split; [|split]]]].
  - intros _.
    pose proof (ProfileOutput.pairwise_length (trajectory_body geodesic) df) as Hp.
    rewrite E in Hp. fold vs in Hp.
    assert (Hdf : (length df <= length rows)%nat).
    { unfold df, sort_values. rewrite Sorting.sort_length.
      apply trajectory_frame_length. }
    assert (Hdf2 : (2 <= length df)%nat).
    { unfold df, sort_values. rewrite Sorting.sort_length. exact Hframe. }
    lia.
  - intros k Hk. apply Dicts.in_keys_iff in Hk. destruct Hk as [rec Hget].
    rewrite bin_wind_data_get in Hget.
    destruct (members bin_size k vs) as [|w t] eqn:Em; [discriminate|].
    assert (Hw : In w (members bin_size k vs)) by (rewrite Em; now left).
    apply member_in in Hw. destruct Hw as [Hw <-].
    assert (Halt : 0 < wv_altitude w).
    { apply (trajectory_vector_altitude df). rewrite E. exact Hw. }
    unfold spec_bin. apply Z.mul_nonneg_nonneg; [|lia].
    assert (Hq : 0 < wv_altitude w / IZR bin_size).
    { apply Rdiv_lt_0_compat; [exact Halt | now apply IZR_lt]. }
    destruct (Int_part_bounds (wv_altitude w / IZR bin_size)) as [_ Hhi].
    assert (Hz : (-1 < Int_part (wv_altitude w / IZR bin_size))%Z).
    { apply lt_IZR. lra. }
    lia.
  - destruct (Effects.store_wind_frame now icao
                (_bin_wind_data bin_size min_samples vs) db) as [_ [_ ->]].
    now rewrite length_app, length_map.
  - intros ->. reflexivity.
Qed.

End Trajectory.

Lemma trajectory_result_accounted_witness :
  (total_samples
     (fst (calculate_wind_from_trajectory hover_distance 500 3 hover_db 2000 "abc123" 1))
   < length (get_aircraft_data hover_db 2000 "abc123" 1))%nat.
Proof.
  apply (proj1 (trajectory_result_accounted hover_distance 500 3 hover_db 2000
                  "abc123" 1 eq_refl)).
  rewrite Runs.hover_rows. cbn. lia.
Defined.

End BinBounds.

(** ** The database: writing reports *)

Module Writes.

Lemma row_of_complete d : complete d <-> exists row, row_of d = Some row.
Proof.
  unfold complete, row_of.
  destruct (ad_icao24 d), (ad_time_position d); split;
    try (intros [? ?]; congruence); try (intros [? ?]; discriminate); eauto;
    intros _; split; discriminate.
Qed.

Lemma row_of_incomplete d : ~ complete d <-> row_of d = None.
Proof.
  rewrite row_of_complete. destruct (row_of d); split; try congruence; eauto.
  - intros H. exfalso. apply H. eauto.
  - intros _ [row H]. discriminate.
Qed.

(** The rows that one-by-one insertion stores. *)
Lemma one_by_one l db :
  fold_left (fun db d => snd (add_aircraft_data db d)) l db =
  insert_reports db
    (flat_map (fun d => match row_of d with Some row => [row] | None => [] end) l).
Proof.
  revert db. induction l as [|d t IH]; intros db.
  - cbn. unfold insert_reports. rewrite app_nil_r. now destruct db.
  - cbn [fold_left flat_map]. rewrite IH. unfold add_aircraft_data.
    destruct (row_of d) as [row|]; cbn [snd]; [|reflexivity].
    unfold insert_reports. cbn. now rewrite <- app_assoc.
Qed.

Lemma batch_rows_all l :
  Forall complete l ->
  batch_rows l =
  Some (flat_map (fun d => match row_of d with Some row => [row] | None => [] end) l)
  /\ length (flat_map (fun d => match row_of d with Some row => [row] | None => [] end) l)
     = length l.
Proof.
  induction 1 as [|d t Hd Ht [IH1 IH2]]; [now split|].
  apply row_of_complete in Hd. destruct Hd as [row Hrow].
  cbn [batch_rows flat_map]. rewrite Hrow, IH1. cbn [app length]. now rewrite IH2.
Qed.

Lemma batch_rows_some l :
  ~ Forall complete l -> batch_rows l = None.
Proof.
  induction l as [|d t IH]; intros H; [exfalso; apply H; constructor|].
  cbn [batch_rows]. destruct (row_of d) as [row|] eqn:E; [|reflexivity].
  rewrite IH; [reflexivity|]. intros Ht. apply H. constructor; [|exact Ht].
  apply row_of_complete. eauto.
Qed.

(** X7.  [add_aircraft_data_batch] stores all of a batch or none of it.  When
    every record carries [icao24] and [time_position] it returns the size of
    the batch and leaves the database that inserting the records one by one
    with [add_aircraft_data] leaves; when some record lacks one of the two
    it returns 0 and stores nothing, while one-by-one insertion stores every
    record that has both. *)
Theorem batch_stores_all_or_nothing db l :
  let one_by_one := fold_left (fun db d => snd (add_aircraft_data db d)) l db in
  (Forall complete l ->
     add_aircraft_data_batch db l = (length l, one_by_one)) /\
  (~ Forall complete l ->
     add_aircraft_data_batch db l = (0%nat, db)) /\
  (forall d, In d l -> complete d ->
     exists row, row_of d = Some row /\ In row (aircraft_data one_by_one)).
Proof.
  cbv zeta. rewrite one_by_one. split; [|split].
  - intros Hall. destruct (batch_rows_all l Hall) as [Hrows Hlen].
    unfold add_aircraft_data_batch. destruct l as [|d t].
    + cbn. unfold insert_reports. rewrite app_nil_r. now destruct db.
    + rewrite Hrows, Hlen. reflexivity.
  - intros Hsome. unfold add_aircraft_data_batch. destruct l as [|d t]; [reflexivity|].
    now rewrite (batch_rows_some _ Hsome).
  - intros d Hd Hc. apply row_of_complete in Hc. destruct Hc as [row Hrow].
    exists row. split; [exact Hrow|].
    cbn [insert_reports aircraft_data]. apply in_or_app. right.
    apply in_flat_map. exists d. split; [exact Hd|]. rewrite Hrow. now left.
Qed.

Lemma filter_sorted_insert (p : Report -> bool) l row :
  filter p (l ++ [row]) = if p row then filter p l ++ [row] else filter p l.
Proof.
  rewrite filter_app. cbn [filter]. destruct (p row); [reflexivity|].
  now rewrite app_nil_r.
Qed.

(** X8.  A record with [icao24] and [time_position] is accepted by
    [add_aircraft_data] and comes back from [get_aircraft_data]: whenever
    its time lies inside the window, the rows fetched for its aircraft are
    one more than before and hold a row whose [timestamp] is the record's
    [time_position] and whose position and altitudes are the record's; what
    other aircraft fetch is unchanged.  A record without one of the two is
    answered with [False] and changes nothing. *)
Theorem stored_report_is_fetched db d icao t now h :
  ad_icao24 d = Some icao -> ad_time_position d = Some t ->
  now - IZR h * 3600 < t ->
  let r := add_aircraft_data db d in
  let row := mkReport icao t (ad_latitude d) (ad_longitude d) (ad_altitude d)
                      (Some (ad_geo_altitude d)) in
  fst r = true /\
  In row (get_aircraft_data (snd r) now icao h) /\
  length (get_aircraft_data (snd r) now icao h)
    = S (length (get_aircraft_data db now icao h)) /\
  (forall other, other <> icao ->
     get_aircraft_data (snd r) now other h = get_aircraft_data db now other h) /\
  (forall d', ~ complete d' -> add_aircraft_data db d' = (false, db)).
Proof.
  intros Hi Ht Hwin r row. unfold r, add_aircraft_data, row_of. rewrite Hi, Ht.
  fold row. cbn [fst snd]. unfold get_aircraft_data. cbv zeta.
  cbn [insert_reports aircraft_data].
  assert (Hrow : (String.eqb (icao24 row) icao
                  && Rltb (now - IZR h * 3600) (timestamp row))%bool = true).
  { cbn [row icao24 timestamp]. rewrite String.eqb_refl. cbn [andb].
    now apply Rltb_true. }
  split; [reflexivity | split; [|split; [|split]]].
  - apply Sorting.sort_in. rewrite filter_sorted_insert, Hrow.
    apply in_or_app. right. now left.
  - rewrite !Sorting.sort_length, filter_sorted_insert, Hrow, length_app.
    cbn [length]. lia.
  - intros other Hother. rewrite filter_sorted_insert.
    cbn [row icao24]. destruct (String.eqb icao other) eqn:E; [|reflexivity].
    apply String.eqb_eq in E. congruence.
  - intros d' Hd'. apply row_of_incomplete in Hd'. unfold row_of in Hd'.
    now rewrite Hd'.
Qed.

Lemma stored_report_is_fetched_witness :
  fst (add_aircraft_data hover_db
         (mkAircraftData (Some "abc123"%string) (Some 1500) (Some 42) (Some (-71))
                         (Some 15000) None)) = true.
Proof.
  exact (proj1 (stored_report_is_fetched hover_db
                  (mkAircraftData (Some "abc123"%string) (Some 1500) (Some 42)
                                  (Some (-71)) (Some 15000) None)
                  "abc123" 1500 2000 1 eq_refl eq_refl ltac:(lra))).
Defined.

End Writes.

(** ** The database: sessions, retention, the latest report *)

Module Sessions.

Lemma column_after_add tracked icao other :
  session_column
    (filter (fun row => negb (String.eqb (ta_icao24 row) icao)) tracked
     ++ [mkTracked icao true None]) other =
  if String.eqb icao other then None else session_column tracked other.
Proof.
  unfold session_column. induction tracked as [|row t IH].
  - cbn. now destruct (String.eqb icao other).
  - cbn [filter find]. destruct (String.eqb (ta_icao24 row) icao) eqn:E; cbn [negb].
    + rewrite IH. apply String.eqb_eq in E. rewrite E.
      now destruct (String.eqb icao other).
    + cbn [app find]. destruct (String.eqb (ta_icao24 row) other) eqn:E'.
      * destruct (String.eqb icao other) eqn:E''; [|reflexivity].
        apply String.eqb_eq in E', E''.
        assert (Hc : ta_icao24 row = icao) by congruence.
        rewrite Hc, String.eqb_refl in E. discriminate.
      * exact IH.
Qed.

Lemma column_after_start tracked now icao other :
  session_column
    (map (fun row =>
            if String.eqb (ta_icao24 row) icao
            then mkTracked (ta_icao24 row) (ta_is_active row) (Some now)
            else row) tracked) other =
  if String.eqb icao other then
    match find (fun row => String.eqb (ta_icao24 row) icao) tracked with
    | Some _ => Some now
    | None => None
    end
  else session_column tracked other.
Proof.
  unfold session_column. induction tracked as [|row t IH].
  - cbn. now destruct (String.eqb icao other).
  - cbn [map find]. destruct (String.eqb (ta_icao24 row) icao) eqn:E.
    + cbn [ta_icao24]. apply String.eqb_eq in E. rewrite E.
      destruct (String.eqb icao other) eqn:E'; [reflexivity|].
      exact IH.
    + destruct (String.eqb (ta_icao24 row) other) eqn:E'.
      * destruct (String.eqb icao other) eqn:E''; [|reflexivity].
        apply String.eqb_eq in E', E''.
        assert (Hc : ta_icao24 row = icao) by congruence.
        rewrite Hc, String.eqb_refl in E. discriminate.
      * exact IH.
Qed.

Lemma find_fresh tracked icao :
  find (fun row => String.eqb (ta_icao24 row) icao)
       (filter (fun row => negb (String.eqb (ta_icao24 row) icao)) tracked
        ++ [mkTracked icao true None]) = Some (mkTracked icao true None).
Proof.
  induction tracked as [|row t IH].
  - cbn. now rewrite String.eqb_refl.
  - cbn [filter]. destruct (String.eqb (ta_icao24 row) icao) eqn:E; cbn [negb].
    + exact IH.
    + cbn [app find]. now rewrite E.
Qed.

Lemma find_absent tracked icao :
  (forall row, In row tracked -> ta_icao24 row <> icao) ->
  find (fun row => String.eqb (ta_icao24 row) icao) tracked = None.
Proof.
  intros H. induction tracked as [|row t IH]; [reflexivity|].
  cbn [find]. destruct (String.eqb (ta_icao24 row) icao) eqn:E.
  - apply String.eqb_eq in E. exfalso. apply (H row); [now left | exact E].
  - apply IH. intros r Hr. apply H. now right.
Qed.

Lemma since_session_of db db' icao :
  aircraft_data db' = aircraft_data db ->
  session_start_time db' icao = session_start_time db icao ->
  get_aircraft_data_since_session db' icao = get_aircraft_data_since_session db icao.
Proof.
  intros Ha Hs. unfold get_aircraft_data_since_session. now rewrite Ha, Hs.
Qed.

(** X9.  After an aircraft is added to the tracking list and its session is
    started at time [now], the session query returns exactly the stored
    reports of that aircraft with [timestamp >= now]: reports collected
    before the session are hidden (not deleted).  The session queries of the
    other aircraft are unchanged.  Adding the aircraft again without
    starting a session clears the session, and starting a session for an
    aircraft that is not in the tracking list records none: in both cases
    the session query returns nothing. *)
Theorem new_session_hides_earlier_reports s now icao :
  now <> 0 ->
  let s1 := start_tracking_session (add_tracked_aircraft s icao) now icao in
  (forall r, In r (get_aircraft_data_since_session (database_of s1) icao) <->
             In r (st_aircraft_data s) /\ icao24 r = icao /\ now <= timestamp r) /\
  st_aircraft_data s1 = st_aircraft_data s /\
  (forall other, other <> icao ->
     get_aircraft_data_since_session (database_of s1) other =
     get_aircraft_data_since_session (database_of s) other) /\
  get_aircraft_data_since_session (database_of (add_tracked_aircraft s1 icao)) icao = [] /\
  ((forall row, In row (st_tracked_aircraft s) -> ta_icao24 row <> icao) ->
   get_aircraft_data_since_session
     (database_of (start_tracking_session s now icao)) icao = []).
Proof.
  intros Hnow s1. split; [|split; [reflexivity | split; [|split]]].
  - intros r. unfold get_aircraft_data_since_session, s1, database_of.
    cbn [session_start_time aircraft_data start_tracking_session
         add_tracked_aircraft st_tracked_aircraft st_aircraft_data].
    rewrite column_after_start, String.eqb_refl, find_fresh.
    cbn [truthy]. rewrite Reqb_false by exact Hnow. cbn [negb].
    rewrite Sorting.sort_in, filter_In, andb_true_iff, String.eqb_eq.
    split.
    + intros [Hin [He Hle]]. apply Rleb_spec in Hle. auto.
    + intros [Hin [He Hle]]. repeat split; auto. now apply Rleb_true.
  - intros other Hother. apply since_session_of; [reflexivity|].
    unfold s1, database_of.
    cbn [session_start_time start_tracking_session add_tracked_aircraft
         st_tracked_aircraft].
    rewrite column_after_start.
    destruct (String.eqb icao other) eqn:E;
      [apply String.eqb_eq in E; congruence|].
    rewrite column_after_add, E. reflexivity.
  - unfold get_aircraft_data_since_session, database_of.
    cbn [session_start_time add_tracked_aircraft st_tracked_aircraft].
    rewrite column_after_add, String.eqb_refl. reflexivity.
  - intros Habsent. unfold get_aircraft_data_since_session, database_of.
    cbn [session_start_time start_tracking_session st_tracked_aircraft].
    rewrite column_after_start, String.eqb_refl, (find_absent _ _ Habsent).
    reflexivity.
Qed.

Lemma new_session_hides_earlier_reports_witness :
  get_aircraft_data_since_session
    (database_of
       (add_tracked_aircraft
          (start_tracking_session
             (add_tracked_aircraft (mkStore (aircraft_data hover_db) [] [] []) "abc123")
             1100 "abc123")
          "abc123"))
    "abc123" = [].
Proof.
  exact (proj1 (proj2 (proj2 (proj2
    (new_session_hides_earlier_reports (mkStore (aircraft_data hover_db) [] [] [])
       1100 "abc123" ltac:(lra)))))).
Defined.

End Sessions.

Module Retention.

Lemma delete_opens_transaction conn sql :
  is_delete sql = true ->
  exists conn', execute conn sql = Some conn' /\ in_transaction conn' = true /\
                conn_committed conn' = conn_committed conn.
Proof.
  destruct sql; try discriminate; intros _; eexists; repeat split; reflexivity.
Qed.

(** Inside a transaction, a block that reaches [VACUUM] before a [commit]
    raises, and what the file holds is what it held. *)
Lemma vacuum_in_transaction_raises conn before after :
  in_transaction conn = true ->
  ~ In Commit before ->
  exists conn', execute_block conn (before ++ Vacuum :: after) = (conn', false) /\
                conn_committed conn' = conn_committed conn.
Proof.
  revert conn. induction before as [|sql rest IH]; intros conn Htx Hno.
  - cbn [app execute_block execute]. rewrite Htx. eauto.
  - cbn [app execute_block].
    assert (Hrest : ~ In Commit rest) by (intros H; apply Hno; now right).
    destruct sql; cbn [execute]; cbv zeta.
    + destruct (IH (mkConnection (conn_committed conn)
                      (delete_aircraft_data cutoff_timestamp (conn_working conn)) true)
                   eq_refl Hrest) as [c [Hc Hk]]. eauto.
    + destruct (IH (mkConnection (conn_committed conn)
                      (delete_wind_data cutoff_timestamp (conn_working conn)) true)
                   eq_refl Hrest) as [c [Hc Hk]]. eauto.
    + destruct (IH (mkConnection (conn_committed conn)
                      (delete_tracking_sessions cutoff_timestamp (conn_working conn)) true)
                   eq_refl Hrest) as [c [Hc Hk]]. eauto.
    + rewrite Htx. eauto.
    + exact (IH conn Htx Hrest).
    + exfalso. apply Hno. now left.
Qed.

(** A block that deletes and then vacuums, with no commit in between, never
    changes the file. *)
Lemma delete_then_vacuum_changes_nothing s sql before after :
  is_delete sql = true -> ~ In Commit before ->
  with_connection s (sql :: before ++ Vacuum :: after) = (false, s).
Proof.
  intros Hdel Hno. unfold with_connection. cbn [execute_block].
  destruct (delete_opens_transaction (connect s) sql Hdel) as [c [-> [Htx Hk]]].
  destruct (vacuum_in_transaction_raises c before after Htx Hno) as [c' [-> Hk']].
  rewrite Hk', Hk. reflexivity.
Qed.

Lemma filter_implied {A} (p q : A -> bool) l :
  (forall x, In x l -> p x = true -> q x = true) ->
  filter p (filter q l) = filter p l.
Proof.
  intros H. induction l as [|x t IH]; [reflexivity|].
  assert (IH' := IH (fun y Hy => H y (or_intror Hy))).
  cbn [filter]. destruct (q x) eqn:Eq.
  - cbn [filter]. now rewrite IH'.
  - destruct (p x) eqn:Ep; [|exact IH'].
    rewrite (H x (or_introl eq_refl) Ep) in Eq. discriminate.
Qed.

(** X10.  [cleanup_old_data] never removes a row.  Its [DELETE]s open a
    transaction, [VACUUM] is refused inside it, the call raises and the
    transaction is rolled back: for every database and every cutoff the
    call does not return and the four tables are as before, so a report
    older than the cutoff is still stored and still fetched by a query whose
    window reaches it.  The three [DELETE]s followed by the commit, without
    [VACUUM], would return and keep exactly the reports at least as new as
    the cutoff. *)
Theorem cleanup_rolls_back_and_removes_nothing s cutoff_timestamp :
  cleanup_old_data s cutoff_timestamp = (false, s) /\
  (forall r now h,
      In r (st_aircraft_data s) -> timestamp r < cutoff_timestamp ->
      now - IZR h * 3600 < timestamp r ->
      In r (get_aircraft_data
              (database_of (snd (cleanup_old_data s cutoff_timestamp)))
              now (icao24 r) h)) /\
  (let intended :=
     with_connection s
       [ DeleteAircraftData cutoff_timestamp; DeleteWindData cutoff_timestamp;
         DeleteTrackingSessions cutoff_timestamp; Commit ] in
   fst intended = true /\
   (forall r, In r (st_aircraft_data (snd intended)) <->
              In r (st_aircraft_data s) /\ cutoff_timestamp <= timestamp r) /\
   (forall now icao h,
      cutoff_timestamp <= now - IZR h * 3600 ->
      get_aircraft_data (database_of (snd intended)) now icao h =
      get_aircraft_data (database_of s) now icao h)).
Proof.
  assert (Hraise : cleanup_old_data s cutoff_timestamp = (false, s)).
  { unfold cleanup_old_data.
    apply (delete_then_vacuum_changes_nothing s (DeleteAircraftData cutoff_timestamp)
             [DeleteWindData cutoff_timestamp; DeleteTrackingSessions cutoff_timestamp]
             [Analyze; Commit]); [reflexivity|].
    intros [H | [H | []]]; discriminate. }
  split; [exact Hraise | split].
  - intros r now h Hin _ Hwin. rewrite Hraise. cbn [snd].
    unfold get_aircraft_data, database_of. cbv zeta. cbn [aircraft_data].
    apply Sorting.sort_in, filter_In. split; [exact Hin|].
    rewrite String.eqb_refl. cbn [andb]. now apply Rltb_true.
  - cbv zeta. unfold with_connection. cbn [execute_block execute connect].
    cbv zeta. cbn [conn_working conn_committed fst snd delete_aircraft_data
                   delete_wind_data delete_tracking_sessions st_aircraft_data
                   st_wind_data st_tracked_aircraft st_tracking_sessions].
    split; [reflexivity | split].
    + intros r. rewrite filter_In, negb_true_iff, Rltb_false_iff. tauto.
    + intros now icao h Hcut. unfold get_aircraft_data, database_of. cbv zeta.
      cbn [aircraft_data st_aircraft_data]. f_equal. apply filter_implied.
      intros r _ Hr. apply andb_prop in Hr. destruct Hr as [_ Hr].
      apply Rltb_spec in Hr. apply negb_true_iff, Rltb_false. lra.
Qed.

End Retention.

Module Latest.

Lemma head_is_least {A} (key : A -> R) l x :
  ascending key l -> head l = Some x -> forall y, In y l -> key x <= key y.
Proof.
  revert x. induction l as [|a t IH]; intros x Hasc Hhead y Hy; [contradiction|].
  cbn in Hhead. injection Hhead as <-.
  destruct Hy as [<- | Hy]; [lra|].
  destruct t as [|b t']; [contradiction|].
  destruct Hasc as [Hab Ht].
  pose proof (IH b Ht eq_refl y Hy). lra.
Qed.

(** X11.  [get_latest_data] returns [None] exactly when the aircraft has no
    stored report; otherwise it returns a stored report of that aircraft
    whose timestamp is the greatest among them. *)
Theorem latest_data_is_newest db icao :
  (get_latest_data db icao = None <->
   forall r, In r (aircraft_data db) -> icao24 r <> icao) /\
  (forall row, get_latest_data db icao = Some row ->
     In row (aircraft_data db) /\ icao24 row = icao /\
     forall r, In r (aircraft_data db) -> icao24 r = icao ->
               timestamp r <= timestamp row).
Proof.
  unfold get_latest_data.
  set (rows := filter (fun r => String.eqb (icao24 r) icao) (aircraft_data db)).
  assert (Hrows : forall r, In r rows <-> In r (aircraft_data db) /\ icao24 r = icao).
  { intros r. unfold rows. now rewrite filter_In, String.eqb_eq. }
  pose proof (Sorting.sort_ascending (fun r => - timestamp r) rows) as Hasc.
  pose proof (fun r => Sorting.sort_in (fun r => - timestamp r) r rows) as Hin.
  destruct (sort_by (fun r : Report => - timestamp r) rows) as [|row t] eqn:E.
  - split.
    + split; [|reflexivity]. intros _ r Hr He.
      apply (proj2 (Hin r)), (proj2 (Hrows r)). auto.
    + intros row H. discriminate.
  - split.
    + split; [discriminate|]. intros H. exfalso.
      assert (Hr : In row rows) by (apply Hin; now left).
      apply Hrows in Hr. destruct Hr as [Hr He]. exact (H row Hr He).
    + intros row' Hrow'. injection Hrow' as <-.
      assert (Hr : In row rows) by (apply Hin; now left).
      apply Hrows in Hr. destruct Hr as [Hr He]. split; [exact Hr | split; [exact He|]].
      intros r Hr' He'.
      assert (Hl : In r (row :: t)) by (apply Hin, Hrows; auto).
      pose proof (head_is_least (fun r => - timestamp r) (row :: t) row Hasc eq_refl r Hl).
      cbn beta in H. lra.
Qed.

End Latest.

(** ** The stored profile *)

Module StoredProfile.

Lemma find_append {A} (p : A -> bool) l1 l2 :
  find p (l1 ++ l2) = match find p l1 with Some x => Some x | None => find p l2 end.
Proof.
  induction l1 as [|a t IH]; [reflexivity|]. cbn [app find].
  now destruct (p a).
Qed.

(** A dict filled row by row holds, per key, the last row with that key. *)
Lemma last_row_wins rows d k :
  dict_get k
    (fold_left (fun profile record =>
                  dict_set (wr_altitude_bin record) (stored record) profile) rows d) =
  match find (fun w => Z.eqb (wr_altitude_bin w) k) (rev rows) with
  | Some w => Some (stored w)
  | None => dict_get k d
  end.
Proof.
  revert d. induction rows as [|w t IH]; intros d; [reflexivity|].
  cbn [fold_left rev]. rewrite IH, find_append.
  destruct (find (fun w0 => Z.eqb (wr_altitude_bin w0) k) (rev t)); [reflexivity|].
  cbn [find]. destruct (Z.eqb (wr_altitude_bin w) k) eqn:E.
  - apply Z.eqb_eq in E. subst k. apply Dicts.get_set_same.
  - apply Z.eqb_neq in E. apply Dicts.get_set_other. congruence.
Qed.

Lemma find_unique {A} (p : A -> bool) l w :
  In w l -> p w = true -> (forall x, In x l -> p x = true -> x = w) ->
  find p l = Some w.
Proof.
  induction l as [|a t IH]; intros Hin Hp Huniq; [contradiction|].
  cbn [find]. destruct (p a) eqn:E.
  - f_equal. apply Huniq; [now left | exact E].
  - destruct Hin as [-> | Hin]; [congruence|].
    apply IH; auto. intros x Hx. apply Huniq. now right.
Qed.

Lemma find_none {A} (p : A -> bool) l :
  (forall x, In x l -> p x = false) -> find p l = None.
Proof.
  intros H. induction l as [|a t IH]; [reflexivity|].
  cbn [find]. rewrite (H a (or_introl eq_refl)). apply IH.
  intros x Hx. apply H. now right.
Qed.

Lemma get_in {V} k (v : V) d : dict_get k d = Some v -> In (k, v) d.
Proof.
  induction d as [|[k' v'] t IH]; [discriminate|]. cbn [dict_get].
  destruct (Z.eqb k' k) eqn:E.
  - apply Z.eqb_eq in E. intros [= <-]. subst. now left.
  - intros H. right. now apply IH.
Qed.

Lemma in_get {V} k (v : V) d :
  NoDup (dict_keys d) -> In (k, v) d -> dict_get k d = Some v.
Proof.
  unfold dict_keys. induction d as [|[k' v'] t IH]; intros Hnd Hin; [contradiction|].
  cbn [map fst] in Hnd. inversion Hnd as [|? ? Hnotin Hnd']; subst.
  cbn [dict_get]. destruct Hin as [[= -> ->] | Hin].
  - now rewrite Z.eqb_refl.
  - destruct (Z.eqb k' k) eqn:E.
    + apply Z.eqb_eq in E. subst k'. exfalso. apply Hnotin.
      apply in_map_iff. exists (k, v). auto.
    + now apply IH.
Qed.

Section Fresh.

Variable geodesic : R * R -> R * R -> R.
Variable bin_size : Z.
Variable min_samples : Z.

Local Abbreviation trajectory :=
  (calculate_wind_from_trajectory geodesic bin_size min_samples).

Lemma result_keys_distinct db now icao h :
  NoDup (dict_keys (fst (trajectory db now icao h))).
Proof.
  unfold calculate_wind_from_trajectory. cbv zeta.
  destruct (length (get_aircraft_data db now icao h) <? 2)%nat; [constructor|].
  destruct (length (trajectory_frame (get_aircraft_data db now icao h)) <? 2)%nat;
    [constructor|].
  destruct (pairwise (trajectory_body geodesic) _) as [|v t]; [constructor|].
  cbn [fst]. apply BinDict.keys_distinct.
Qed.

(** The wind rows that [get_wind_data] selects after a run on a database
    that held none for the aircraft: the rows of the run. *)
Lemma selected_rows db now icao h now' h' :
  (forall w, In w (wind_data db) -> wr_icao24 w <> icao) ->
  now' - IZR h' * 3600 < now ->
  filter (fun w => String.eqb (wr_icao24 w) icao
                   && Rltb (now' - IZR h' * 3600) (wr_timestamp w))
         (wind_data (snd (trajectory db now icao h)))
  = map (wind_row now icao) (fst (trajectory db now icao h)).
Proof.
  intros Hfresh Hwin.
  destruct (Effects.trajectory_writes_only_wind_rows geodesic bin_size min_samples
              db now icao h) as [_ [_ ->]].
  rewrite filter_app.
  assert (Hold : filter (fun w => String.eqb (wr_icao24 w) icao
                          && Rltb (now' - IZR h' * 3600) (wr_timestamp w))
                        (wind_data db) = []).
  { induction (wind_data db) as [|w t IH]; [reflexivity|].
    cbn [filter]. destruct (String.eqb (wr_icao24 w) icao) eqn:E.
    - apply String.eqb_eq in E. exfalso. apply (Hfresh w); [now left | exact E].
    - cbn [andb]. apply IH. intros x Hx. apply Hfresh. now right. }
  rewrite Hold. cbn [app]. apply forallb_filter_id, forallb_forall.
  intros w Hw. apply in_map_iff in Hw. destruct Hw as [kv [<- _]].
  cbn [wind_row wr_icao24 wr_timestamp]. rewrite String.eqb_refl. cbn [andb].
  now apply Rltb_true.
Qed.

(** X12.  What [calculate_wind_from_trajectory] stores is what
    [get_wind_profile] reads back.  On a database that holds no wind rows
    for the aircraft, after a run at time [now], a later
    [get_wind_profile] whose window reaches back to [now] has exactly the
    keys of the returned dict and, under each key, the bin's wind speed,
    direction and sample count, stamped with [now] (the standard deviations
    are not stored). *)
Theorem stored_bins_read_back db now icao h now' h' :
  (forall w, In w (wind_data db) -> wr_icao24 w <> icao) ->
  now' - IZR h' * 3600 < now ->
  let r := trajectory db now icao h in
  forall k,
    dict_get k (get_wind_profile (snd r) now' icao h') =
    match dict_get k (fst r) with
    | Some b => Some (mkStoredWind (wind_speed b) (wind_direction b)
                                   (sample_count b) now)
    | None => None
    end.
Proof.
  intros Hfresh Hwin r k. unfold get_wind_profile, get_wind_data. cbv zeta.
  unfold r. rewrite (selected_rows db now icao h now' h' Hfresh Hwin).
  pose proof (result_keys_distinct db now icao h) as Hnd.
  set (d := fst (trajectory db now icao h)) in *.
  change (fun profile record =>
            dict_set (wr_altitude_bin record)
              (mkStoredWind (wr_wind_speed record) (wr_wind_direction record)
                            (wr_sample_count record) (wr_timestamp record)) profile)
    with (fun profile record =>
            dict_set (wr_altitude_bin record) (stored record) profile).
  rewrite last_row_wins. cbn [dict_get].
  set (rows := rev (sort_by (fun w => IZR (wr_altitude_bin w))
                            (map (wind_row now icao) d))).
  assert (Hrows : forall w, In w rows <-> exists kv, wind_row now icao kv = w /\ In kv d).
  { intros w. unfold rows. rewrite <- in_rev, Sorting.sort_in, in_map_iff. tauto. }
  destruct (dict_get k d) as [b|] eqn:Eget.
  - apply get_in in Eget.
    rewrite (find_unique _ rows (wind_row now icao (k, b))); [reflexivity | | |].
    + apply Hrows. eauto.
    + cbn. apply Z.eqb_refl.
    + intros x Hx Hk. apply Hrows in Hx. destruct Hx as [[k' b'] [<- Hin]].
      cbn in Hk. apply Z.eqb_eq in Hk. subst k'.
      pose proof (in_get k b d Hnd Eget) as H1.
      pose proof (in_get k b' d Hnd Hin) as H2. congruence.
  - rewrite find_none; [reflexivity|].
    intros x Hx. apply Hrows in Hx. destruct Hx as [[k' b'] [<- Hin]].
    cbn. apply Z.eqb_neq. intros ->.
    rewrite (in_get k b' d Hnd Hin) in Eget. discriminate.
Qed.

End Fresh.

Lemma stored_bins_read_back_witness :
  dict_get 15000
    (get_wind_profile
       (snd (calculate_wind_from_trajectory hover_distance 500 3 hover_db 2000 "abc123" 1))
       2500 "abc123" 1) =
  match dict_get 15000
          (fst (calculate_wind_from_trajectory hover_distance 500 3 hover_db 2000
                  "abc123" 1)) with
  | Some b => Some (mkStoredWind (wind_speed b) (wind_direction b) (sample_count b) 2000)
  | None => None
  end.
Proof.
  apply (stored_bins_read_back hover_distance 500 3 hover_db 2000 "abc123" 1 2500 1).
  - intros w [].
  - lra.
Defined.

End StoredProfile.

(** ** Vertical velocity *)

Module Vertical.

Lemma flat_map_singletons {A B} (f : A -> list B) l :
  (forall x, In x l -> exists y, f x = [y]) ->
  length (flat_map f l) = length l.
Proof.
  induction l as [|x t IH]; intros H; [reflexivity|].
  cbn [flat_map]. destruct (H x (or_introl eq_refl)) as [y ->].
  cbn [app length]. f_equal. apply IH. intros z Hz. apply H. now right.
Qed.

Lemma window_length df window_size i :
  (window_size <= i < length df)%nat ->
  length (iloc_window df window_size i) = S window_size.
Proof.
  intros Hi. unfold iloc_window. rewrite length_firstn, length_skipn. lia.
Qed.

Lemma window_rows df window_size i x :
  In x (iloc_window df window_size i) -> In x df.
Proof.
  unfold iloc_window. intros H.
  rewrite <- (firstn_skipn (i - window_size) df). apply in_or_app. right.
  rewrite <- (firstn_skipn (S window_size) (skipn (i - window_size) df)).
  apply in_or_app. now left.
Qed.

Lemma velocity_at_entry df window_size i :
  (1 <= window_size)%nat ->
  (window_size <= i < length df)%nat ->
  velocity_at df window_size i =
  [mkVerticalVelocity (fst (nth i df (0, 0))) (snd (nth i df (0, 0)))
     (polyfit_slope (map fst (iloc_window df window_size i))
                    (map snd (iloc_window df window_size i)))
     (S window_size)].
Proof.
  intros Hw Hi. unfold velocity_at. cbv zeta.
  rewrite length_map, (window_length df window_size i Hi).
  destruct (Nat.leb_spec 2 (S window_size)) as [_ | Hlt]; [reflexivity | lia].
Qed.

Lemma altitude_rows_length l : (length (altitude_rows l) <= length l)%nat.
Proof.
  unfold altitude_rows. induction l as [|r t IH]; [cbn; lia|].
  cbn [flat_map]. rewrite length_app. destruct (altitude r); cbn [length]; lia.
Qed.

(** X13.  [calculate_vertical_velocity] fits each output over the
    [window_size + 1] rows up to it, where
    [window_size = max(3, n // 10)] and [n] is the number of fetched
    reports that have an altitude: it returns [n - window_size] entries
    (none at all for three such reports or fewer), each with the field
    [window_size] equal to the number of fitted rows, [window_size + 1].
    The parameter [window_minutes] has no effect on the result. *)
Theorem vertical_velocity_window db now icao window_minutes :
  let fetched := get_aircraft_data db now icao 1 in
  let n := length (altitude_rows fetched) in
  let window_size := Nat.max 3 (n / 10) in
  let out := calculate_vertical_velocity db now icao window_minutes in
  ((2 <= length fetched)%nat -> length out = (n - window_size)%nat) /\
  ((n <= 3)%nat -> out = []) /\
  (forall e, In e out -> vv_window_size e = S window_size) /\
  (forall other, calculate_vertical_velocity db now icao other = out).
Proof.
  cbv zeta. unfold calculate_vertical_velocity. cbv zeta.
  set (fetched := get_aircraft_data db now icao 1).
  set (df := sort_by fst (altitude_rows fetched)).
  assert (Hn : length df = length (altitude_rows fetched))
    by apply Sorting.sort_length.
  rewrite <- Hn.
  set (w := Nat.max 3 (length df / 10)).
  assert (Hturn : forall i, In i (seq w (length df - w)) ->
            velocity_at df w i =
            [mkVerticalVelocity (fst (nth i df (0, 0))) (snd (nth i df (0, 0)))
               (polyfit_slope (map fst (iloc_window df w i))
                              (map snd (iloc_window df w i)))
               (S w)]).
  { intros i Hi. apply in_seq in Hi. apply velocity_at_entry; unfold w; lia. }
  split; [|split; [|split]].
  - intros Hlen. destruct (Nat.ltb_spec (length fetched) 2) as [Hlt | _]; [lia|].
    rewrite flat_map_singletons, length_seq; [reflexivity|].
    intros i Hi. rewrite (Hturn i Hi). eauto.
  - intros Hsmall. destruct (length fetched <? 2)%nat; [reflexivity|].
    replace (length df - w)%nat with 0%nat by (unfold w; lia). reflexivity.
  - intros e He. destruct (length fetched <? 2)%nat; [contradiction|].
    apply in_flat_map in He. destruct He as [i [Hi He]].
    rewrite (Hturn i Hi) in He. destruct He as [<- | []]. reflexivity.
  - reflexivity.
Qed.

(** *** A constant climb rate is recovered *)

Lemma sum_line a b l :
  np_sum (map (fun t => a + b * t) l) = a * INR (length l) + b * np_sum l.
Proof.
  unfold np_sum. induction l as [|t l' IH]; [cbn; lra|].
  cbn [map fold_right length]. rewrite IH, S_INR. lra.
Qed.

Lemma array_mul_map {A} (f g : A -> R) l :
  array_mul (map f l) (map g l) = map (fun x => f x * g x) l.
Proof. induction l as [|x t IH]; [reflexivity|]. cbn. now rewrite IH. Qed.

Lemma sum_scaled b (f : R -> R) l :
  np_sum (map (fun t => b * f t) l) = b * np_sum (map f l).
Proof.
  unfold np_sum. induction l as [|t l' IH]; [cbn; lra|].
  cbn [map fold_right]. rewrite IH. lra.
Qed.

Lemma sum_squares_nonneg m l :
  0 <= np_sum (map (fun t => (t - m) * (t - m)) l).
Proof.
  unfold np_sum. induction l as [|x l' IH]; [cbn; lra|].
  cbn [map fold_right]. pose proof (Rle_0_sqr (x - m)) as Hx. unfold Rsqr in Hx.
  lra.
Qed.

Lemma sum_squares_pos m l t :
  In t l -> t <> m -> 0 < np_sum (map (fun t => (t - m) * (t - m)) l).
Proof.
  intros Hin Hne. induction l as [|x l' IH]; [contradiction|].
  change (0 < (x - m) * (x - m) + np_sum (map (fun t => (t - m) * (t - m)) l')).
  pose proof (Rle_0_sqr (x - m)) as Hx. unfold Rsqr in Hx.
  destruct Hin as [-> | Hin].
  - pose proof (sum_squares_nonneg m l').
    assert (0 < (t - m) * (t - m)) by (apply Rsqr_pos_lt; lra). lra.
  - specialize (IH Hin). lra.
Qed.

(** The least-squares slope through points of one line is the line's. *)
Lemma slope_of_line a b times :
  (exists t1 t2, In t1 times /\ In t2 times /\ t1 <> t2) ->
  polyfit_slope times (map (fun t => a + b * t) times) = b.
Proof.
  intros [t1 [t2 [H1 [H2 Hne]]]]. unfold polyfit_slope. cbv zeta.
  set (m := np_mean times).
  assert (Hlen : 0 < INR (length times)).
  { apply lt_0_INR. destruct times; [contradiction | cbn; lia]. }
  assert (Hmean : np_mean (map (fun t => a + b * t) times) = a + b * m).
  { unfold m, np_mean. rewrite sum_line, length_map. field. lra. }
  rewrite Hmean, map_map, array_mul_map.
  assert (Hpos : 0 < np_sum (map (fun t => (t - m) * (t - m)) times)).
  { destruct (Req_dec_T t1 m) as [E1 | E1].
    - apply (sum_squares_pos m times t2 H2). congruence.
    - apply (sum_squares_pos m times t1 H1 E1). }
  rewrite (map_ext (fun x => (x - m) * (a + b * x - (a + b * m)))
                   (fun x => b * ((x - m) * (x - m)))) by (intros; ring).
  rewrite (sum_scaled b (fun t => (t - m) * (t - m))). field. lra.
Qed.

Lemma insert_nodup {A} (key f : A -> R) x l :
  NoDup (map f (x :: l)) -> NoDup (map f (insert_by key x l)).
Proof.
  induction l as [|y t IH]; intros H; [exact H|].
  cbn [insert_by]. destruct (Rleb (key x) (key y)); [exact H|].
  cbn [map] in *. inversion H as [|? ? Hx Hrest]; subst.
  inversion Hrest as [|? ? Hy Ht]; subst.
  constructor.
  - intros Hin. apply in_map_iff in Hin. destruct Hin as [z [Hz Hin]].
    apply Sorting.insert_in in Hin. destruct Hin as [-> | Hin].
    + apply Hx. left. now symmetry.
    + apply Hy. apply in_map_iff. eauto.
  - apply IH. constructor; [|exact Ht].
    intros Hin. apply Hx. now right.
Qed.

Lemma sort_nodup {A} (key f : A -> R) l :
  NoDup (map f l) -> NoDup (map f (sort_by key l)).
Proof.
  induction l as [|x t IH]; intros H; [exact H|].
  cbn [sort_by]. apply insert_nodup. cbn [map] in *.
  inversion H as [|? ? Hx Ht]; subst. constructor; [|now apply IH].
  intros Hin. apply Hx. apply in_map_iff in Hin. destruct Hin as [z [Hz Hin]].
  apply Sorting.sort_in in Hin. apply in_map_iff. eauto.
Qed.

Lemma altitude_rows_nodup l :
  NoDup (map timestamp l) -> NoDup (map fst (altitude_rows l)).
Proof.
  unfold altitude_rows. induction l as [|r t IH]; intros H; [constructor|].
  cbn [map] in H. inversion H as [|? ? Hr Ht]; subst.
  cbn [flat_map]. destruct (altitude r) as [alt|]; [|now apply IH].
  cbn [app map fst]. constructor; [|now apply IH].
  intros Hin. apply Hr. apply in_map_iff in Hin. destruct Hin as [[t0 a0] [Ht0 Hin]].
  apply in_flat_map in Hin. destruct Hin as [r' [Hr' Hin]].
  destruct (altitude r'); [|contradiction]. destruct Hin as [[= <- <-] | []].
  cbn in Ht0. rewrite <- Ht0. now apply in_map.
Qed.

Lemma window_nodup df window_size i :
  NoDup (map fst df) -> NoDup (map fst (iloc_window df window_size i)).
Proof.
  intros H. unfold iloc_window.
  set (k := (i - window_size)%nat).
  rewrite <- (firstn_skipn k df), map_app in H.
  apply NoDup_app_remove_l in H.
  rewrite <- (firstn_skipn (S window_size) (skipn k df)), map_app in H.
  now apply NoDup_app_remove_r in H.
Qed.

Lemma two_distinct (l : list R) :
  NoDup l -> (2 <= length l)%nat ->
  exists t1 t2, In t1 l /\ In t2 l /\ t1 <> t2.
Proof.
  intros Hnd Hlen. destruct l as [|t1 [|t2 l']]; cbn in Hlen; try lia.
  exists t1, t2. split; [now left | split; [right; now left|]].
  inversion Hnd as [|? ? Hnotin _]; subst. intros ->. apply Hnotin. now left.
Qed.

(** X14.  For a balloon whose fetched reports have distinct timestamps and
    altitudes on one line, [altitude = a + b * timestamp],
    [calculate_vertical_velocity] reports the climb rate [b] in every entry
    (with floats read as reals), together with an altitude and a timestamp
    that lie on the line. *)
Theorem constant_climb_rate_is_recovered db now icao window_minutes a b :
  NoDup (map timestamp (get_aircraft_data db now icao 1)) ->
  (forall r, In r (get_aircraft_data db now icao 1) ->
             altitude r = Some (a + b * timestamp r)) ->
  forall e, In e (calculate_vertical_velocity db now icao window_minutes) ->
    vv_vertical_velocity e = b /\ vv_altitude e = a + b * vv_timestamp e.
Proof.
  intros Hnd Hline e He. unfold calculate_vertical_velocity in He. cbv zeta in He.
  set (fetched := get_aircraft_data db now icao 1) in *.
  destruct (length fetched <? 2)%nat; [contradiction|].
  set (df := sort_by fst (altitude_rows fetched)) in *.
  set (w := Nat.max 3 (length df / 10)) in *.
  assert (Hdf : forall row, In row df -> snd row = a + b * fst row).
  { intros row Hrow. apply Sorting.sort_in in Hrow. unfold altitude_rows in Hrow.
    apply in_flat_map in Hrow. destruct Hrow as [r [Hr Hrow]].
    rewrite (Hline r Hr) in Hrow. destruct Hrow as [<- | []]. reflexivity. }
  assert (Hdfnd : NoDup (map fst df)).
  { apply sort_nodup, altitude_rows_nodup. exact Hnd. }
  apply in_flat_map in He. destruct He as [i [Hi He]]. apply in_seq in Hi.
  assert (Hi' : (w <= i < length df)%nat) by lia.
  assert (Hw : (1 <= w)%nat) by (unfold w; lia).
  rewrite (velocity_at_entry df w i Hw Hi') in He. destruct He as [<- | []].
  cbn [vv_vertical_velocity vv_altitude vv_timestamp]. split.
  - assert (Halt : map snd (iloc_window df w i)
                   = map (fun t => a + b * t) (map fst (iloc_window df w i))).
    { rewrite map_map. apply map_ext_in. intros row Hrow.
      apply Hdf. now apply window_rows in Hrow. }
    rewrite Halt. apply slope_of_line. apply two_distinct.
    + now apply window_nodup.
    + rewrite length_map, (window_length df w i Hi'). lia.
  - apply Hdf. apply nth_In. lia.
Qed.

Lemma climb_rows :
  get_aircraft_data climb_db 2000 "abc123" 1 = aircraft_data climb_db.
Proof.
  unfold get_aircraft_data, climb_db, session_of, report_at.
  run; reflexivity.
Qed.

Lemma constant_climb_rate_is_recovered_witness :
  Forall (fun e => vv_vertical_velocity e = 5)
         (calculate_vertical_velocity climb_db 2000 "abc123" 5).
Proof.
  apply Forall_forall. intros e He.
  apply (constant_climb_rate_is_recovered climb_db 2000 "abc123" 5 10000 5).
  - rewrite climb_rows. cbn [climb_db aircraft_data map timestamp report_at].
    repeat constructor; cbn [In]; intros H;
      repeat (destruct H as [H | H]; [lra|]); exact H.
  - rewrite climb_rows. cbn [climb_db aircraft_data In].
    intros r H. repeat (destruct H as [<- | H]; [cbn; f_equal; lra|]).
    contradiction.
  - exact He.
Defined.

End Vertical.

(** ** The wind rose *)

Module Rose.

Local Abbreviation holds x :=
  (fun p : R * R => Rleb (fst p) x && Rltb x (snd p)).

Local Abbreviation count_in x pairs := (length (filter (holds x) pairs)).

Lemma last_cons (l : list R) a b : last (b :: l) a = last l b.
Proof.
  revert a b. induction l as [|c t IH]; intros a b; [reflexivity|].
  transitivity (last (c :: t) a); [reflexivity|].
  now rewrite (IH a c), (IH b c).
Qed.

Lemma head_le_last (l : list R) a :
  ascending (fun x => x) (a :: l) -> a <= last l a.
Proof.
  revert a. induction l as [|b t IH]; intros a H; [cbn; lra|].
  destruct H as [Hab Ht]. specialize (IH b Ht).
  rewrite last_cons. lra.
Qed.

(** Consecutive bounds of an ascending list cut [first, last) into cells:
    a value inside lies in exactly one, a value outside in none. *)
Lemma one_cell x (l : list R) a :
  ascending (fun x => x) (a :: l) ->
  count_in x (consecutive (a :: l)) =
  if Rleb a x && Rltb x (last l a) then 1%nat else 0%nat.
Proof.
  revert a. induction l as [|b t IH]; intros a H.
  - cbn [consecutive filter length last].
    destruct (Rle_dec a x); rcmp; reflexivity.
  - pose proof (head_le_last (b :: t) a H) as Hlast.
    destruct H as [Hab Ht]. pose proof (head_le_last t b Ht) as Hlast'.
    rewrite last_cons in Hlast |- *.
    change (consecutive (a :: b :: t)) with ((a, b) :: consecutive (b :: t)).
    cbn [filter fst snd]. specialize (IH b Ht).
    destruct (Rle_dec a x), (Rlt_dec x b), (Rlt_dec x (last t b)),
      (Rle_dec b x); try lra;
      revert IH; rcmp; cbn [andb length]; intros ->; reflexivity.
Qed.

Lemma direction_cells x :
  0 <= x < 360 -> count_in x (consecutive direction_bins) = 1%nat.
Proof.
  intros Hx. unfold direction_bins. cbn [seq map]. rewrite one_cell.
  - cbn [last INR]. rcmp. reflexivity.
  - cbn [ascending INR]. repeat split; lra.
Qed.

Lemma speed_cells x :
  0 <= x -> count_in x (consecutive speed_bins) = if Rltb x 100 then 1%nat else 0%nat.
Proof.
  intros Hx. unfold speed_bins. rewrite one_cell.
  - cbn [last]. rcmp. reflexivity.
  - cbn [ascending]. repeat split; lra.
Qed.

Local Abbreviation sum_nat f l :=
  (fold_right (fun x acc => (f x + acc)%nat) 0%nat l).

(** The count that [get_wind_rose_data] stores for one direction cell and
    one speed cell. *)
Local Abbreviation cell_count wind_vectors d s :=
  (length (filter (fun speed : R => holds speed s)
                  (map fst (filter (fun vector : R * R => holds (snd vector) d)
                                   wind_vectors)))).

Lemma total_of_table (dcells scells : list (R * R)) (c : R * R -> R * R -> nat) :
  rose_total (map (fun d => (d, map (fun s => (s, c d s)) scells)) dcells) =
  sum_nat (fun d => sum_nat (c d) scells) dcells.
Proof.
  unfold rose_total. induction dcells as [|d ds IH]; [reflexivity|].
  cbn [map fold_right snd]. rewrite IH. f_equal.
  clear IH. induction scells as [|s ss IHs]; [reflexivity|].
  cbn [map fold_right snd]. now rewrite IHs.
Qed.

Lemma row_cons v vs d (scells : list (R * R)) :
  sum_nat (fun s => cell_count (v :: vs) d s) scells =
  ((if holds (snd v) d then count_in (fst v) scells else 0)
   + sum_nat (fun s => cell_count vs d s) scells)%nat.
Proof.
  induction scells as [|s ss IH].
  - cbn. now destruct (Rleb (fst d) (snd v) && Rltb (snd v) (snd d)).
  - cbn [fold_right]. rewrite IH. cbn [filter].
    destruct (Rleb (fst d) (snd v) && Rltb (snd v) (snd d)); [|lia].
    cbn [map filter]. destruct (Rleb (fst s) (fst v) && Rltb (fst v) (snd s));
      cbn [length]; lia.
Qed.

Lemma table_cons v vs (dcells scells : list (R * R)) :
  sum_nat (fun d => sum_nat (fun s => cell_count (v :: vs) d s) scells) dcells =
  (count_in (snd v) dcells * count_in (fst v) scells
   + sum_nat (fun d => sum_nat (fun s => cell_count vs d s) scells) dcells)%nat.
Proof.
  induction dcells as [|d ds IH]; [reflexivity|].
  cbn [fold_right]. rewrite IH, row_cons. cbn [filter].
  destruct (Rleb (fst d) (snd v) && Rltb (snd v) (snd d)); cbn [length]; lia.
Qed.

Lemma table_nil (dcells scells : list (R * R)) :
  sum_nat (fun d => sum_nat (fun s => cell_count (@nil (R * R)) d s) scells) dcells
  = 0%nat.
Proof.
  induction dcells as [|d ds IH]; [reflexivity|].
  cbn [fold_right]. rewrite IH.
  assert (H : sum_nat (fun s => cell_count (@nil (R * R)) d s) scells = 0%nat).
  { clear. induction scells as [|s ss IHs]; [reflexivity|].
    cbn [fold_right]. rewrite IHs. reflexivity. }
  rewrite H. reflexivity.
Qed.

Lemma table_total wind_vectors :
  (forall v, In v wind_vectors -> 0 <= fst v /\ 0 <= snd v < 360) ->
  rose_total (rose_table wind_vectors) =
  length (filter (fun v => Rltb (fst v) 100) wind_vectors).
Proof.
  intros Hv. unfold rose_table. cbv zeta.
  rewrite (total_of_table (consecutive direction_bins) (consecutive speed_bins)
             (fun d s => cell_count wind_vectors d s)).
  induction wind_vectors as [|v vs IH]; [apply table_nil|].
  rewrite table_cons, IH by (intros w Hw; apply Hv; now right).
  destruct (Hv v (or_introl eq_refl)) as [Hs Hd].
  rewrite (direction_cells (snd v) Hd), (speed_cells (fst v) Hs).
  cbn [filter]. destruct (Rltb (fst v) 100); cbn [length]; lia.
Qed.

Lemma table_shape wind_vectors :
  length (rose_table wind_vectors) = 16%nat /\
  Forall (fun row => length (snd row) = 8%nat) (rose_table wind_vectors).
Proof.
  unfold rose_table. cbv zeta. split.
  - rewrite length_map. reflexivity.
  - apply Forall_forall. intros row Hrow. apply in_map_iff in Hrow.
    destruct Hrow as [d [<- _]]. cbn [snd]. rewrite length_map. reflexivity.
Qed.

Section Loop.

Variable geodesic : R * R -> R * R -> R.
Hypothesis geodesic_nonneg : forall p q, 0 <= geodesic p q.

Lemma body_vector prev curr v :
  rose_body geodesic prev curr = Append v -> 0 <= fst v /\ 0 <= snd v < 360.
Proof.
  unfold rose_body. cbv zeta.
  destruct (Rleb (timestamp curr - timestamp prev) 0) eqn:E0; [discriminate|].
  cbn [orb]. destruct (Rltb 300 (timestamp curr - timestamp prev)); [discriminate|].
  destruct (latitude prev) as [lat1|]; [|discriminate].
  destruct (longitude prev) as [lon1|]; [|discriminate].
  destruct (latitude curr) as [lat2|]; [|discriminate].
  destruct (longitude curr) as [lon2|]; [|discriminate].
  intros [= <-]. cbn [fst snd]. split; [|apply Bearing.in_range].
  apply Rleb_false_iff in E0.
  apply Rmult_le_pos; [|left; now apply Rinv_0_lt_compat].
  pose proof (geodesic_nonneg (lat1, lon1) (lat2, lon2)). lra.
Qed.

Lemma loop_vectors data vs :
  rose_vectors geodesic data = Some vs ->
  forall v, In v vs -> 0 <= fst v /\ 0 <= snd v < 360.
Proof.
  revert vs. induction data as [|prev rest IH]; intros vs H v Hv.
  - cbn in H. injection H as <-. contradiction.
  - destruct rest as [|curr rest'].
    + cbn in H. injection H as <-. contradiction.
    + change (rose_vectors geodesic (prev :: curr :: rest')) with
        (match rose_body geodesic prev curr with
         | Raises => None
         | Continue => rose_vectors geodesic (curr :: rest')
         | Append w =>
             match rose_vectors geodesic (curr :: rest') with
             | Some ws => Some (w :: ws)
             | None => None
             end
         end) in H.
      destruct (rose_body geodesic prev curr) as [|w|] eqn:E; [| |discriminate].
      * exact (IH vs H v Hv).
      * destruct (rose_vectors geodesic (curr :: rest')) as [ws|]; [|discriminate].
        injection H as <-. destruct Hv as [<- | Hv].
        -- exact (body_vector prev curr w E).
        -- exact (IH ws eq_refl v Hv).
Qed.

(** X15.  When the loop of [get_wind_rose_data] completes with at least
    one wind vector, the rose has 16 direction rows of 8 speed cells, and
    its counts add up to the number of vectors slower than 100 m/s: each of
    those is counted in exactly one cell, and a vector of 100 m/s or more
    is counted in none.  (Distances are non-negative.) *)
Theorem rose_counts_each_vector_once db now icao altitude_min altitude_max vs :
  rose_vectors geodesic
    (rose_altitude_filter altitude_min altitude_max
       (get_aircraft_data db now icao 6)) = Some vs ->
  vs <> [] ->
  exists rose,
    get_wind_rose_data geodesic db now icao altitude_min altitude_max = Some rose /\
    length rose = 16%nat /\
    Forall (fun row => length (snd row) = 8%nat) rose /\
    rose_total rose = length (filter (fun v => Rltb (fst v) 100) vs).
Proof.
  intros Hloop Hne. exists (rose_table vs). unfold get_wind_rose_data. cbv zeta.
  destruct (get_aircraft_data db now icao 6) as [|r t] eqn:E.
  - exfalso. apply Hne.
    assert (Hnil : rose_altitude_filter altitude_min altitude_max [] = [])
      by (unfold rose_altitude_filter; now destruct altitude_min, altitude_max).
    rewrite Hnil in Hloop. cbn in Hloop. now injection Hloop as <-.
  - rewrite Hloop. destruct vs as [|v vs']; [congruence|].
    split; [reflexivity|]. destruct (table_shape (v :: vs')) as [H16 H8].
    split; [exact H16 | split; [exact H8|]].
    apply table_total. exact (loop_vectors _ _ Hloop).
Qed.

End Loop.

Lemma pair_missing_position (geodesic : R * R -> R * R -> R) prev curr :
  rose_body geodesic prev curr = Raises <->
  0 < timestamp curr - timestamp prev <= 300 /\
  (latitude prev = None \/ longitude prev = None \/
   latitude curr = None \/ longitude curr = None).
Proof.
  unfold rose_body. cbv zeta.
  destruct (Rleb (timestamp curr - timestamp prev) 0) eqn:E0.
  - apply Rleb_spec in E0. cbn [orb]. split; [discriminate | intros [H _]; lra].
  - apply Rleb_false_iff in E0. cbn [orb].
    destruct (Rltb 300 (timestamp curr - timestamp prev)) eqn:E1.
    + apply Rltb_spec in E1. split; [discriminate | intros [H _]; lra].
    + apply Rltb_false_iff in E1.
      destruct (latitude prev), (longitude prev), (latitude curr), (longitude curr);
        split; try discriminate; try (intros _; split; [lra | tauto]);
        intros [_ [H | [H | [H | H]]]]; (reflexivity || discriminate).
Qed.

(** X16.  [get_wind_rose_data] does not drop reports without a position:
    it raises exactly when two consecutive fetched reports (after the
    altitude filter) lie between 0 (exclusive) and 300 seconds apart and one
    of their four coordinates is [NULL]; otherwise it returns a dict. *)
Theorem rose_raises_on_missing_position
  (geodesic : R * R -> R * R -> R) db now icao altitude_min altitude_max :
  get_wind_rose_data geodesic db now icao altitude_min altitude_max = None <->
  exists prev curr,
    In (prev, curr)
       (consecutive (rose_altitude_filter altitude_min altitude_max
                       (get_aircraft_data db now icao 6))) /\
    0 < timestamp curr - timestamp prev <= 300 /\
    (latitude prev = None \/ longitude prev = None \/
     latitude curr = None \/ longitude curr = None).
Proof.
  assert (Hloop : forall data,
            rose_vectors geodesic data = None <->
            exists prev curr, In (prev, curr) (consecutive data) /\
                              rose_body geodesic prev curr = Raises).
  { induction data as [|prev rest IH].
    - cbn. split; [discriminate | intros [? [? [[] _]]]].
    - destruct rest as [|curr rest'].
      + cbn. split; [discriminate | intros [? [? [[] _]]]].
      + change (rose_vectors geodesic (prev :: curr :: rest')) with
          (match rose_body geodesic prev curr with
           | Raises => None
           | Continue => rose_vectors geodesic (curr :: rest')
           | Append w =>
               match rose_vectors geodesic (curr :: rest') with
               | Some ws => Some (w :: ws)
               | None => None
               end
           end).
        change (consecutive (prev :: curr :: rest')) with
          ((prev, curr) :: consecutive (curr :: rest')).
        destruct (rose_body geodesic prev curr) as [|w|] eqn:E.
        * rewrite IH. split.
          -- intros [p [c [Hin Hb]]]. exists p, c. split; [now right | exact Hb].
          -- intros [p [c [[Heq | Hin] Hb]]]; [|eauto].
             injection Heq as <- <-. congruence.
        * destruct (rose_vectors geodesic (curr :: rest')) as [ws|] eqn:Er.
          -- split; [discriminate|].
             intros [p [c [[Heq | Hin] Hb]]].
             ++ injection Heq as <- <-. congruence.
             ++ destruct IH as [_ IH].
                assert (Hnone : Some ws = None) by (apply IH; eauto).
                discriminate.
          -- split; [intros _ | reflexivity].
             destruct IH as [IH _]. destruct (IH eq_refl) as [p [c [Hin Hb]]].
             exists p, c. split; [now right | exact Hb].
        * split; [intros _ | reflexivity].
          exists prev, curr. split; [now left | exact E]. }
  unfold get_wind_rose_data. cbv zeta.
  set (data := get_aircraft_data db now icao 6).
  assert (Hraise : rose_vectors geodesic
                     (rose_altitude_filter altitude_min altitude_max data) = None <->
                   exists prev curr,
                     In (prev, curr)
                        (consecutive (rose_altitude_filter altitude_min altitude_max data)) /\
                     0 < timestamp curr - timestamp prev <= 300 /\
                     (latitude prev = None \/ longitude prev = None \/
                      latitude curr = None \/ longitude curr = None)).
  { rewrite Hloop. split; intros [p [c [Hin Hb]]]; exists p, c; (split; [exact Hin|]).
    - now apply (pair_missing_position geodesic p c).
    - now apply (pair_missing_position geodesic p c). }
  destruct data as [|r t] eqn:E.
  - assert (Hnil : rose_altitude_filter altitude_min altitude_max [] = [])
      by (unfold rose_altitude_filter; now destruct altitude_min, altitude_max).
    rewrite Hnil. cbn. split; [discriminate | intros [? [? [[] _]]]].
  - rewrite <- Hraise.
    destruct (rose_vectors geodesic
                (rose_altitude_filter altitude_min altitude_max (r :: t)))
      as [[|v vs]|]; split; congruence.
Qed.

Lemma hover_rose_vectors :
  rose_vectors hover_distance
    (rose_altitude_filter None None (get_aircraft_data hover_db 2000 "abc123" 6)) =
  Some [ (0 * 1000 / (1060 - 1000), _calculate_bearing (42, -71) (42, -71));
         (0 * 1000 / (1120 - 1060), _calculate_bearing (42, -71) (42, -71));
         (0 * 1000 / (1180 - 1120), _calculate_bearing (42, -71) (42, -71)) ].
Proof.
  unfold get_aircraft_data, hover_db, session_of, report_at, rose_altitude_filter,
    hover_distance.
  run. unfold rose_body. run. reflexivity.
Qed.

Lemma rose_counts_each_vector_once_witness :
  exists rose,
    get_wind_rose_data hover_distance hover_db 2000 "abc123" None None = Some rose /\
    length rose = 16%nat.
Proof.
  destruct (rose_counts_each_vector_once hover_distance
              (fun _ _ => Rle_refl 0) hover_db 2000 "abc123" None None _
              hover_rose_vectors ltac:(discriminate))
    as [rose [Hrose [Hlen _]]].
  exists rose. split; [exact Hrose | exact Hlen].
Defined.

End Rose.

(** ** The multi-balloon chart *)

Module Chart.

Section WithGeodesic.

Variable geodesic : R * R -> R * R -> R.

Lemma enumerate_members {A} (l : list A) k i x :
  In (i, x) (enumerate_from k l) -> In x l.
Proof.
  revert k. induction l as [|y t IH]; intros k H; [contradiction|].
  cbn [enumerate_from] in H. destruct H as [[= _ ->] | H]; [now left|].
  right. exact (IH _ H).
Qed.

Lemma enumerate_length {A} (l : list A) k : length (enumerate_from k l) = length l.
Proof.
  revert k. induction l as [|y t IH]; intros k; [reflexivity|].
  cbn [enumerate_from length]. now rewrite IH.
Qed.

Lemma flat_map_at_most_one {A B} (f : A -> list B) l :
  (forall x, (length (f x) <= 1)%nat) -> (length (flat_map f l) <= length l)%nat.
Proof.
  intros H. induction l as [|x t IH]; [cbn; lia|].
  cbn [flat_map]. rewrite length_app. specialize (H x). cbn [length]. lia.
Qed.

Lemma color_listed i : In (nth (i mod length colors) colors ""%string) colors.
Proof.
  apply nth_In. apply Nat.mod_upper_bound. cbn. discriminate.
Qed.

Lemma trace_of_balloon db now src units tfm km refb i icao tr :
  In tr (balloon_trace geodesic db now src units tfm km refb i icao) ->
  tr_icao tr = icao /\ In (tr_color tr) colors /\
  length (tr_x tr) = length (tr_y tr) /\ tr_x tr <> [] /\
  Forall (fun x => 0 <= x < 360) (tr_x tr) /\
  Forall (fun y => 0 < y) (tr_y tr).
Proof.
  unfold balloon_trace. cbv zeta.
  set (wind_data := calculate_wind_profile geodesic db now icao src _ km _ None).
  assert (Hfields : forall e, In e wind_data ->
            pe_sample_count e = 1%nat /\ 0 <= pe_wind_direction e < 360 /\
            0 < pe_altitude_bin e).
  { intros e He. exact (ProfileOutput.entry_fields geodesic _ _ _ _ _ _ _ _ e He). }
  destruct wind_data as [|e0 t0] eqn:E; [contradiction|].
  intros [<- | []]. cbn [tr_icao tr_color tr_x tr_y].
  split; [reflexivity | split; [apply color_listed | split; [|split; [|split]]]].
  - destruct (String.eqb units "ft"); now rewrite !length_map.
  - discriminate.
  - apply Forall_forall. intros x Hx. apply in_map_iff in Hx.
    destruct Hx as [e [<- He]]. apply (Hfields e He).
  - apply Forall_forall. intros y Hy.
    destruct (String.eqb units "ft").
    + rewrite map_map in Hy. apply in_map_iff in Hy. destruct Hy as [e [<- He]].
      destruct (Hfields e He) as [_ [_ Hpos]]. lra.
    + apply in_map_iff in Hy. destruct Hy as [e [<- He]].
      apply (Hfields e He).
Qed.

Lemma feet_of_metres db now src tfm km refb i icao :
  balloon_trace geodesic db now src "ft" tfm km refb i icao =
  map (fun tr => mkTrace (tr_icao tr) (tr_color tr) (tr_x tr)
                         (map (fun a => a * 3.28084) (tr_y tr)))
      (balloon_trace geodesic db now src "m" tfm km refb i icao).
Proof.
  unfold balloon_trace. cbv zeta.
  destruct (calculate_wind_profile geodesic db now icao src _ km _ None);
    reflexivity.
Qed.

(** X17.  The figure of [create_multi_balloon_wind_profile] holds at most
    one trace per selected balloon, none for a balloon without wind data.
    Every trace is named after a selected balloon, takes its colour from the
    palette, and has as many directions as altitudes and at least one point;
    its directions lie in [0, 360), inside the fixed axis range
    [-20, 380], and its altitudes are positive.  With units ['ft'] the
    traces are those of ['m'] with every altitude multiplied by 3.28084. *)
Theorem chart_traces_fit_the_axis db now selected src units tfm km refb :
  let figure := create_multi_balloon_wind_profile geodesic db now selected src units
                  tfm km refb in
  Forall (fun tr =>
            In (tr_icao tr) selected /\ In (tr_color tr) colors /\
            length (tr_x tr) = length (tr_y tr) /\ tr_x tr <> [] /\
            Forall (fun x => -20 <= x <= 380 /\ 0 <= x < 360) (tr_x tr) /\
            Forall (fun y => 0 < y) (tr_y tr)) figure /\
  (length figure <= length selected)%nat /\
  create_multi_balloon_wind_profile geodesic db now selected src "ft" tfm km refb =
  map (fun tr => mkTrace (tr_icao tr) (tr_color tr) (tr_x tr)
                         (map (fun a => a * 3.28084) (tr_y tr)))
      (create_multi_balloon_wind_profile geodesic db now selected src "m" tfm km refb).
Proof.
  cbv zeta. unfold create_multi_balloon_wind_profile. split; [|split].
  - apply Forall_forall. intros tr Htr. apply in_flat_map in Htr.
    destruct Htr as [[i icao] [Hin Htr]]. cbn [fst snd] in Htr.
    apply enumerate_members in Hin.
    destruct (trace_of_balloon _ _ _ _ _ _ _ _ _ _ Htr)
      as [Hname [Hcolor [Hlen [Hne [Hx Hy]]]]].
    rewrite Hname. repeat split; auto.
    eapply Forall_impl; [|exact Hx]. cbn beta. intros x Hr. lra.
  - rewrite <- (enumerate_length selected 0). apply flat_map_at_most_one.
    intros [i icao]. cbn [fst snd]. unfold balloon_trace. cbv zeta.
    destruct (calculate_wind_profile geodesic db now icao src _ km _ None);
      cbn [length]; lia.
  - generalize 0%nat. induction selected as [|icao t IH]; intros k; [reflexivity|].
    cbn [enumerate_from flat_map fst snd]. rewrite map_app, <- IH.
    now rewrite feet_of_metres.
Qed.

End WithGeodesic.

End Chart.

(** ** Reports stored without an altitude *)

Module NoAltitude.

Lemma dropna_without_altitude data :
  (forall r, In r data -> altitude r = None) -> dropna col_altitude data = [].
Proof.
  unfold dropna. induction data as [|r t IH]; intros H; [reflexivity|].
  cbn [flat_map]. rewrite IH by (intros x Hx; apply H; now right).
  cbn [altitude_cell]. rewrite (H r (or_introl eq_refl)).
  now destruct (latitude r), (longitude r).
Qed.

Lemma altitude_rows_without_altitude data :
  (forall r, In r data -> altitude r = None) -> altitude_rows data = [].
Proof.
  unfold altitude_rows. induction data as [|r t IH]; intros H; [reflexivity|].
  cbn [flat_map]. rewrite (H r (or_introl eq_refl)).
  now rewrite IH by (intros x Hx; apply H; now right).
Qed.

Section WithGeodesic.

Variable geodesic : R * R -> R * R -> R.

(** X18.  [add_aircraft_data] stores the value under the key ['altitude'];
    a record that carries its altitude under another key (such as
    ['baro_altitude']) is stored with a [NULL] altitude.  For an aircraft all
    of whose stored reports have a [NULL] altitude,
    [calculate_wind_from_trajectory] returns the empty dict and leaves the
    database as it was, [calculate_wind_profile] on the barometric source
    returns the empty list, and [calculate_vertical_velocity] returns the
    empty list, whatever the positions and times of the reports. *)
Theorem reports_without_altitude_give_no_wind
  bin_size min_samples db now icao h tf km ref hist window_minutes :
  (forall r, In r (aircraft_data db) -> icao24 r = icao -> altitude r = None) ->
  calculate_wind_from_trajectory geodesic bin_size min_samples db now icao h = ([], db) /\
  calculate_wind_profile geodesic db now icao "altitude" tf km ref hist = [] /\
  calculate_vertical_velocity db now icao window_minutes = [] /\
  (forall d row, ad_altitude d = None -> ad_icao24 d = Some icao ->
     row_of d = Some row ->
     forall r, In r (aircraft_data (snd (add_aircraft_data db d))) ->
               icao24 r = icao -> altitude r = None).
Proof.
  intros Hnull.
  assert (Hfetched : forall hours r, In r (get_aircraft_data db now icao hours) ->
                                     altitude r = None).
  { intros hours r Hr. apply Filters.fetched_rows in Hr. destruct Hr; auto. }
  assert (Hsession : forall r, In r (get_aircraft_data_since_session db icao) ->
                               altitude r = None).
  { intros r Hr. apply Filters.session_rows in Hr. destruct Hr; auto. }
  split; [|split; [|split]].
  - unfold calculate_wind_from_trajectory. cbv zeta.
    destruct (length (get_aircraft_data db now icao h) <? 2)%nat; [reflexivity|].
    unfold trajectory_frame.
    rewrite (dropna_without_altitude _ (Hfetched h)). reflexivity.
  - unfold calculate_wind_profile. cbv zeta.
    set (rows := match hist with
                 | Some hours => get_aircraft_data db now icao hours
                 | None => get_aircraft_data_since_session db icao
                 end).
    assert (Hrows : forall r, In r rows -> altitude r = None).
    { unfold rows. destruct hist; [apply Hfetched | exact Hsession]. }
    destruct (length rows <? 2)%nat; [reflexivity|].
    set (kept := apply_distance_filter geodesic _ km (apply_time_filter now tf rows)).
    destruct (length kept <? 2)%nat; [reflexivity|].
    unfold profile_frame, select_altitude_col. cbv zeta. cbn [String.eqb andb].
    rewrite dropna_without_altitude; [reflexivity|].
    intros r Hr. apply Hrows.
    apply Filters.distance_filter_keeps in Hr.
    now apply Filters.time_filter_keeps in Hr.
  - unfold calculate_vertical_velocity. cbv zeta.
    destruct (length (get_aircraft_data db now icao 1) <? 2)%nat; [reflexivity|].
    rewrite (altitude_rows_without_altitude _ (Hfetched 1%Z)). reflexivity.
  - intros d row Halt Hicao Hrow r Hr He.
    unfold add_aircraft_data in Hr. rewrite Hrow in Hr.
    cbn [snd insert_reports aircraft_data] in Hr. apply in_app_or in Hr.
    destruct Hr as [Hr | [<- | []]]; [now apply Hnull|].
    unfold row_of in Hrow. rewrite Hicao in Hrow.
    destruct (ad_time_position d); [|discriminate].
    injection Hrow as <-. exact Halt.
Qed.

End WithGeodesic.

Lemma reports_without_altitude_give_no_wind_witness :
  calculate_vertical_velocity
    (mkDatabase [ mkReport "abc123" 1000 (Some 42) (Some (-71)) None (Some None);
                  mkReport "abc123" 1060 (Some 42) (Some (-71)) None (Some None) ]
                (fun _ => None) [])
    2000 "abc123" 5 = [].
Proof.
  refine (proj1 (proj2 (proj2
    (reports_without_altitude_give_no_wind hover_distance 500 3 _ 2000 "abc123" 1
       None None None None 5 _)))).
  cbn [aircraft_data In altitude]. intros r [<- | [<- | []]] _; reflexivity.
Defined.

End NoAltitude.
